(** * ClickerEngine: the economic core, embedded and verified

    A shallow embedding of the TypeScript managers of the clicker engine
    (currency, upgrade, paradigm, production, achievement, statistics and
    state managers, and the engine facade that wires them).

    Conventions of the embedding.
    - In the managers below a JavaScript [number] is an exact rational
      ([Q]); NaN, the infinities and rounding are outside that model, and
      what is proved on it does not depend on how a sum or a product is
      rounded.  Statements about amounts use [==] (equality of
      rationals).  The methods whose results depend on rounding (costs,
      purchases, production, total effects) are embedded again over
      IEEE 754 binary64 in [Binary64], and the statements about the
      values they compute are made there.
    - A JavaScript [Map] and a plain object used as a record are lists of
      key/value pairs in insertion order with one entry per key.  A plain
      object enumerates integer-like keys first and stores nothing under
      the key ["__proto__"]; statements about records are made id by id.
    - Methods run in a state monad over the whole engine whose exceptions
      keep the state reached when [throw] happened, as mutations made
      before a JavaScript exception persist.
    - [EventBus.emit] is modelled by the trace of emitted events, in order;
      observers are outside the model (they are assumed not to call back
      into the managers).
    - Objects are copied on registration by every manager except the
      achievement manager; no claim below depends on an alias to a stored
      object, so stored objects are values. *)

From Stdlib Require Import ZArith QArith Qround Qminmax Qpower.
From Stdlib Require Import String List Bool Lia Lqa.
From Stdlib Require Import Sorted Permutation.
From Stdlib Require Floats.
Import ListNotations.

Local Open Scope string_scope.
Local Open Scope Q_scope.

(** ** JavaScript numbers *)

Module Math.

Definition max (a b : Q) : Q := Qmax a b.

Definition ceil (x : Q) : Q := inject_Z (Qceiling x).

Definition floor (x : Q) : Q := inject_Z (Qfloor x).

(** [Math.pow] at an integral exponent. *)
Definition pow (b : Q) (e : Z) : Q := Qpower b e.

End Math.

(** Truthiness of the values the code tests with [if (x)] or [!x]. *)
Definition truthy_string (s : string) : bool := negb (String.eqb s "").

Definition truthy_number (q : Q) : bool := negb (Qeq_bool q 0).

Definition truthy_flag (b : option bool) : bool :=
  match b with Some true => true | _ => false end.

(** [a ?? b] *)
Definition nullish {A : Type} (a : option A) (b : A) : A :=
  match a with Some x => x | None => b end.

(** [a >= b] on numbers. *)
Definition geb (a b : Q) : bool := Qle_bool b a.

(** [a > b] on numbers. *)
Definition gtb (a b : Q) : bool := negb (Qle_bool a b).

(** ** JavaScript [Map] (and string-keyed records): insertion-ordered *)

Module JsMap.

Definition t (V : Type) : Type := list (string * V).

Section Ops.
Context {V : Type}.

Definition empty : t V := [].

Fixpoint get (m : t V) (k : string) : option V :=
  match m with
  | [] => None
  | (k', v) :: r => if String.eqb k k' then Some v else get r k
  end.

Definition has (m : t V) (k : string) : bool :=
  match get m k with Some _ => true | None => false end.

(** [m.set(k, v)]: an existing key keeps its position. *)
Fixpoint set (m : t V) (k : string) (v : V) : t V :=
  match m with
  | [] => [(k, v)]
  | (k', v') :: r =>
      if String.eqb k k' then (k, v) :: r else (k', v') :: set r k v
  end.

Fixpoint delete (m : t V) (k : string) : t V :=
  match m with
  | [] => []
  | (k', v') :: r =>
      if String.eqb k k' then r else (k', v') :: delete r k
  end.

Definition keys (m : t V) : list string := List.map fst m.

Definition values (m : t V) : list V := List.map snd m.

Definition size (m : t V) : nat := List.length m.

End Ops.

(** [forEach] building a record of one field per entry. *)
Definition mapValues {V W : Type} (f : V -> W) (m : t V) : t W :=
  List.map (fun kv => (fst kv, f (snd kv))) m.

End JsMap.

(** ** Data model (core/types.ts, AchievementManager.ts, StatisticsManager.ts) *)

Module Currency.
Record t : Type := mk {
  id : string;
  name : string;
  amount : Q;
  symbol : string;
  color : option string;
  visible : option bool;
  formatter : option (Q -> string)
}.
Definition with_amount (c : t) (a : Q) : t :=
  mk (id c) (name c) a (symbol c) (color c) (visible c) (formatter c).
End Currency.

Module Upgrade.
Record t : Type := mk {
  id : string;
  name : string;
  description : string;
  cost : Q;
  currencyId : string;
  level : Z;
  purchased : bool;
  effect : Q;
  scalable : option bool;
  scaleFactor : option Q;
  icon : option string
}.
Definition with_level (u : t) (l : Z) : t :=
  mk (id u) (name u) (description u) (cost u) (currencyId u) l
     (purchased u) (effect u) (scalable u) (scaleFactor u) (icon u).
Definition with_purchased (u : t) (p : bool) : t :=
  mk (id u) (name u) (description u) (cost u) (currencyId u) (level u)
     p (effect u) (scalable u) (scaleFactor u) (icon u).
End Upgrade.

Module Paradigm.
Record t : Type := mk {
  id : string;
  name : string;
  description : string;
  active : bool;
  productionMultiplier : Q;
  data : option (JsMap.t Q)
}.
Definition with_active (p : t) (a : bool) : t :=
  mk (id p) (name p) (description p) a (productionMultiplier p) (data p).
Definition with_productionMultiplier (p : t) (m : Q) : t :=
  mk (id p) (name p) (description p) (active p) m (data p).
End Paradigm.

Module Reward.
Record t : Type := mk {
  currencyId : option string;
  amount : option Q;
  multiplier : option Q
}.
End Reward.

Module Achievement.
Record t : Type := mk {
  id : string;
  name : string;
  description : string;
  icon : option string;
  unlocked : bool;
  progress : Q;
  target : Q;
  reward : option Reward.t;
  hidden : option bool;
  category : option string
}.
Definition with_progress (a : t) (p : Q) : t :=
  mk (id a) (name a) (description a) (icon a) (unlocked a) p (target a)
     (reward a) (hidden a) (category a).
Definition with_unlocked (a : t) (u : bool) : t :=
  mk (id a) (name a) (description a) (icon a) u (progress a) (target a)
     (reward a) (hidden a) (category a).
End Achievement.

Module GameStatistics.
Record t : Type := mk {
  totalClicks : Z;
  totalGoldEarned : Q;
  totalUpgradesPurchased : Z;
  totalTimePlayed : Z;
  highestGold : Q;
  paradigmChanges : Z;
  prestigeCount : Z;
  fastestClick : Z;
  longestSession : Z
}.
Definition zero : t := mk 0%Z 0 0%Z 0%Z 0 0%Z 0%Z 0%Z 0%Z.
End GameStatistics.

(** The serialized form of one achievement: [{ unlocked, progress }]. *)
Module AchievementState.
Record t : Type := mk { unlocked : bool; progress : Q }.
End AchievementState.

Module GameState.
Record t : Type := mk {
  timestamp : Z;
  currencies : JsMap.t Q;
  upgrades : JsMap.t Z;
  currentParadigm : string;
  totalClicks : Q;
  achievements : option (JsMap.t AchievementState.t);
  statistics : option GameStatistics.t;
  (** [custom] is a bag of unknowns; the engine only ever stores numbers
      in it, and it is modelled as a record of numbers. *)
  custom : option (JsMap.t Q)
}.
End GameState.

(** ** Events (core/EventBus.ts, [GameEvents]) with their payloads *)

Inductive Event : Type :=
| CURRENCY_ADDED (currencyId : string)
| CURRENCY_REMOVED (currencyId : string)
| CURRENCY_CHANGED (currencyId : string) (oldAmount newAmount change : Q)
| UPGRADE_AVAILABLE (upgradeId : string)
| UPGRADE_PURCHASED (upgradeId : string) (level : Z) (cost : Q)
| UPGRADE_LEVELED (upgradeId : string) (newLevel : Z) (effect : Q)
| CLICK (currencyId : string)
    (baseAmount clickMultiplier paradigmMultiplier finalAmount : Q)
| CLICK_MULTIPLIER_CHANGED (currencyId : string) (multiplier : Q)
| PARADIGM_CHANGED (paradigmId paradigmName : string) (multiplier : Q)
| PRODUCTION_TICK (deltaTimeMs : Q)
| PRODUCTION_CHANGED (currencyId : string) (rate : Q)
| STATE_SAVED (key : string) (timestamp : Z)
| STATE_LOADED (key : string) (timestamp : Z)
| ACHIEVEMENT_PROGRESS (achievementId : string) (progress target : Q)
| ACHIEVEMENT_UNLOCKED (achievementId : string) (achievement : Achievement.t).

(** ** The engine: every manager's private state, and the event trace *)

Record Engine : Type := mkEngine {
  (** CurrencyManager.currencies *)
  currencies : JsMap.t Currency.t;
  (** UpgradeManager.upgrades *)
  upgrades : JsMap.t Upgrade.t;
  (** ParadigmManager.paradigms, ParadigmManager.currentParadigm *)
  paradigms : JsMap.t Paradigm.t;
  currentParadigm : option string;
  (** ProductionManager.productionRates, .clickMultipliers *)
  productionRates : JsMap.t Q;
  clickMultipliers : JsMap.t Q;
  (** AchievementManager.achievements *)
  achievements : JsMap.t Achievement.t;
  (** StatisticsManager.stats, .sessionStartTime, .clickTimeWindow *)
  stats : GameStatistics.t;
  sessionStartTime : Z;
  clickTimeWindow : list Z;
  (** MemoryStorageAdapter.storage *)
  storage : JsMap.t GameState.t;
  (** ClickerGameEngine.totalClicks *)
  totalClicks : Q;
  (** what [Date.now()] returns *)
  clock : Z;
  (** every [eventBus.emit], oldest first *)
  emitted : list Event
}.

Definition set_currencies (x : JsMap.t Currency.t) (e : Engine) : Engine :=
  mkEngine x (upgrades e) (paradigms e) (currentParadigm e)
    (productionRates e) (clickMultipliers e) (achievements e) (stats e)
    (sessionStartTime e) (clickTimeWindow e) (storage e) (totalClicks e)
    (clock e) (emitted e).

Definition set_upgrades (x : JsMap.t Upgrade.t) (e : Engine) : Engine :=
  mkEngine (currencies e) x (paradigms e) (currentParadigm e)
    (productionRates e) (clickMultipliers e) (achievements e) (stats e)
    (sessionStartTime e) (clickTimeWindow e) (storage e) (totalClicks e)
    (clock e) (emitted e).

Definition set_paradigms (x : JsMap.t Paradigm.t) (e : Engine) : Engine :=
  mkEngine (currencies e) (upgrades e) x (currentParadigm e)
    (productionRates e) (clickMultipliers e) (achievements e) (stats e)
    (sessionStartTime e) (clickTimeWindow e) (storage e) (totalClicks e)
    (clock e) (emitted e).

Definition set_currentParadigm (x : option string) (e : Engine) : Engine :=
  mkEngine (currencies e) (upgrades e) (paradigms e) x
    (productionRates e) (clickMultipliers e) (achievements e) (stats e)
    (sessionStartTime e) (clickTimeWindow e) (storage e) (totalClicks e)
    (clock e) (emitted e).

Definition set_productionRates (x : JsMap.t Q) (e : Engine) : Engine :=
  mkEngine (currencies e) (upgrades e) (paradigms e) (currentParadigm e)
    x (clickMultipliers e) (achievements e) (stats e)
    (sessionStartTime e) (clickTimeWindow e) (storage e) (totalClicks e)
    (clock e) (emitted e).

Definition set_clickMultipliers (x : JsMap.t Q) (e : Engine) : Engine :=
  mkEngine (currencies e) (upgrades e) (paradigms e) (currentParadigm e)
    (productionRates e) x (achievements e) (stats e)
    (sessionStartTime e) (clickTimeWindow e) (storage e) (totalClicks e)
    (clock e) (emitted e).

Definition set_achievements (x : JsMap.t Achievement.t) (e : Engine) : Engine :=
  mkEngine (currencies e) (upgrades e) (paradigms e) (currentParadigm e)
    (productionRates e) (clickMultipliers e) x (stats e)
    (sessionStartTime e) (clickTimeWindow e) (storage e) (totalClicks e)
    (clock e) (emitted e).

Definition set_stats (x : GameStatistics.t) (e : Engine) : Engine :=
  mkEngine (currencies e) (upgrades e) (paradigms e) (currentParadigm e)
    (productionRates e) (clickMultipliers e) (achievements e) x
    (sessionStartTime e) (clickTimeWindow e) (storage e) (totalClicks e)
    (clock e) (emitted e).

Definition set_sessionStartTime (x : Z) (e : Engine) : Engine :=
  mkEngine (currencies e) (upgrades e) (paradigms e) (currentParadigm e)
    (productionRates e) (clickMultipliers e) (achievements e) (stats e)
    x (clickTimeWindow e) (storage e) (totalClicks e)
    (clock e) (emitted e).

Definition set_clickTimeWindow (x : list Z) (e : Engine) : Engine :=
  mkEngine (currencies e) (upgrades e) (paradigms e) (currentParadigm e)
    (productionRates e) (clickMultipliers e) (achievements e) (stats e)
    (sessionStartTime e) x (storage e) (totalClicks e)
    (clock e) (emitted e).

Definition set_storage (x : JsMap.t GameState.t) (e : Engine) : Engine :=
  mkEngine (currencies e) (upgrades e) (paradigms e) (currentParadigm e)
    (productionRates e) (clickMultipliers e) (achievements e) (stats e)
    (sessionStartTime e) (clickTimeWindow e) x (totalClicks e)
    (clock e) (emitted e).

Definition set_totalClicks (x : Q) (e : Engine) : Engine :=
  mkEngine (currencies e) (upgrades e) (paradigms e) (currentParadigm e)
    (productionRates e) (clickMultipliers e) (achievements e) (stats e)
    (sessionStartTime e) (clickTimeWindow e) (storage e) x
    (clock e) (emitted e).

Definition set_emitted (x : list Event) (e : Engine) : Engine :=
  mkEngine (currencies e) (upgrades e) (paradigms e) (currentParadigm e)
    (productionRates e) (clickMultipliers e) (achievements e) (stats e)
    (sessionStartTime e) (clickTimeWindow e) (storage e) (totalClicks e)
    (clock e) x.

(** A freshly constructed engine ([new ClickerGameEngine()] wired to the
    in-memory storage adapter), at wall-clock time [now]. *)
Definition newEngine (now : Z) : Engine :=
  mkEngine [] [] [] None [] [] [] GameStatistics.zero now [] [] 0 now [].

(** ** Method bodies: state, and exceptions that keep the state *)

Inductive completion (A : Type) : Type :=
| Normal (a : A)
| Throw (message : string).
Arguments Normal {A} a.
Arguments Throw {A} message.

Definition M (A : Type) : Type := Engine -> completion A * Engine.

Definition ret {A : Type} (a : A) : M A := fun e => (Normal a, e).

Definition bind {A B : Type} (m : M A) (f : A -> M B) : M B :=
  fun e =>
    match m e with
    | (Normal a, e') => f a e'
    | (Throw msg, e') => (Throw msg, e')
    end.

Definition throw {A : Type} (msg : string) : M A := fun e => (Throw msg, e).

(** [try { body } catch (error) { handler }] *)
Definition try_catch {A : Type} (body : M A) (handler : string -> M A) : M A :=
  fun e =>
    match body e with
    | (Normal a, e') => (Normal a, e')
    | (Throw msg, e') => handler msg e'
    end.

Definition read {A : Type} (f : Engine -> A) : M A := fun e => (Normal (f e), e).

Definition modify (f : Engine -> Engine) : M unit := fun e => (Normal tt, f e).

Declare Scope js_scope.
Delimit Scope js_scope with js.
Notation "x <- m ;; k" := (bind m (fun x => k))
  (at level 100, m at next level, right associativity) : js_scope.
Notation "m ;; k" := (bind m (fun _ => k))
  (at level 100, right associativity) : js_scope.
Local Open Scope js_scope.

(** [list.forEach(f)] *)
Fixpoint forEach {A : Type} (f : A -> M unit) (l : list A) : M unit :=
  match l with
  | [] => ret tt
  | x :: r => f x ;; forEach f r
  end.

(** [Date.now()] *)
Definition Date_now : M Z := read clock.

Module EventBus.

Definition emit (ev : Event) : M unit :=
  modify (fun e => set_emitted (emitted e ++ [ev]) e).

End EventBus.

(** ** CurrencyManager (systems/CurrencyManager.ts) *)

Module CurrencyManager.

(** Writing a field of the currency object held in the map. *)
Definition store (currencyId : string) (c : Currency.t) : M unit :=
  modify (fun e => set_currencies (JsMap.set (currencies e) currencyId c) e).

Definition addCurrency (currency : Currency.t) : M unit :=
  cs <- read currencies ;;
  if JsMap.has cs (Currency.id currency)
  then throw ("Currency with ID '" ++ Currency.id currency ++ "' already exists")
  else (store (Currency.id currency) currency ;;
        EventBus.emit (CURRENCY_ADDED (Currency.id currency))).

Definition removeCurrency (currencyId : string) : M unit :=
  modify (fun e => set_currencies (JsMap.delete (currencies e) currencyId) e) ;;
  EventBus.emit (CURRENCY_REMOVED currencyId).

Definition getCurrency (currencyId : string) : M (option Currency.t) :=
  cs <- read currencies ;; ret (JsMap.get cs currencyId).

Definition get (currencyId : string) : M Q :=
  cs <- read currencies ;;
  ret (nullish (option_map Currency.amount (JsMap.get cs currencyId)) 0).

Definition set (currencyId : string) (amount : Q) : M unit :=
  cs <- read currencies ;;
  match JsMap.get cs currencyId with
  | None => throw ("Currency '" ++ currencyId ++ "' does not exist")
  | Some currency =>
      let oldAmount := Currency.amount currency in
      let currency' := Currency.with_amount currency (Math.max 0 amount) in
      store currencyId currency' ;;
      EventBus.emit (CURRENCY_CHANGED currencyId oldAmount
                       (Currency.amount currency')
                       (Currency.amount currency' - oldAmount))
  end.

Definition add (currencyId : string) (amount : Q) : M Q :=
  cs <- read currencies ;;
  match JsMap.get cs currencyId with
  | None => throw ("Currency '" ++ currencyId ++ "' does not exist")
  | Some currency =>
      let oldAmount := Currency.amount currency in
      let currency' := Currency.with_amount currency (Currency.amount currency + amount) in
      store currencyId currency' ;;
      EventBus.emit (CURRENCY_CHANGED currencyId oldAmount
                       (Currency.amount currency') amount) ;;
      ret (Currency.amount currency')
  end.

Definition subtract (currencyId : string) (amount : Q) : M Q :=
  cs <- read currencies ;;
  match JsMap.get cs currencyId with
  | None => throw ("Currency '" ++ currencyId ++ "' does not exist")
  | Some currency =>
      let oldAmount := Currency.amount currency in
      let currency' :=
        Currency.with_amount currency (Math.max 0 (Currency.amount currency - amount)) in
      store currencyId currency' ;;
      EventBus.emit (CURRENCY_CHANGED currencyId oldAmount
                       (Currency.amount currency') (- amount)) ;;
      ret (Currency.amount currency')
  end.

Definition has (currencyId : string) (amount : Q) : M bool :=
  a <- get currencyId ;; ret (geb a amount).

Definition getAllAsRecord : M (JsMap.t Q) :=
  cs <- read currencies ;; ret (JsMap.mapValues Currency.amount cs).

Definition getAll : M (list Currency.t) :=
  cs <- read currencies ;; ret (JsMap.values cs).

Definition clear : M unit := modify (set_currencies []).

End CurrencyManager.

(** ** UpgradeManager (systems/UpgradeManager.ts) *)

Module UpgradeManager.

Definition store (upgradeId : string) (u : Upgrade.t) : M unit :=
  modify (fun e => set_upgrades (JsMap.set (upgrades e) upgradeId u) e).

Definition addUpgrade (upgrade : Upgrade.t) : M unit :=
  us <- read upgrades ;;
  if JsMap.has us (Upgrade.id upgrade)
  then throw ("Upgrade with ID '" ++ Upgrade.id upgrade ++ "' already exists")
  else (store (Upgrade.id upgrade) upgrade ;;
        EventBus.emit (UPGRADE_AVAILABLE (Upgrade.id upgrade))).

Definition getUpgrade (upgradeId : string) : M (option Upgrade.t) :=
  us <- read upgrades ;; ret (JsMap.get us upgradeId).

Definition calculateCost (upgrade : Upgrade.t) : Q :=
  if negb (truthy_flag (Upgrade.scalable upgrade))
  then Upgrade.cost upgrade
  else
    let scaleFactor := nullish (Upgrade.scaleFactor upgrade) (115 # 100) in
    Math.ceil (Upgrade.cost upgrade * Math.pow scaleFactor (Upgrade.level upgrade)).

Definition purchase (upgradeId : string) : M bool :=
  us <- read upgrades ;;
  match JsMap.get us upgradeId with
  | None => throw ("Upgrade '" ++ upgradeId ++ "' does not exist")
  | Some upgrade =>
      let cost := calculateCost upgrade in
      enough <- CurrencyManager.has (Upgrade.currencyId upgrade) cost ;;
      if negb enough then ret false
      else
        (CurrencyManager.subtract (Upgrade.currencyId upgrade) cost ;;
         let upgrade' :=
           Upgrade.with_purchased
             (Upgrade.with_level upgrade (Upgrade.level upgrade + 1)) true in
         store upgradeId upgrade' ;;
         EventBus.emit (UPGRADE_PURCHASED upgradeId (Upgrade.level upgrade') cost) ;;
         EventBus.emit (UPGRADE_LEVELED upgradeId (Upgrade.level upgrade')
                          (Upgrade.effect upgrade')) ;;
         ret true)
  end.

Definition setLevel (upgradeId : string) (level : Z) : M unit :=
  us <- read upgrades ;;
  match JsMap.get us upgradeId with
  | None => throw ("Upgrade '" ++ upgradeId ++ "' does not exist")
  | Some upgrade => store upgradeId (Upgrade.with_level upgrade (Z.max 0 level))
  end.

Definition reset : M unit :=
  modify (fun e =>
    set_upgrades
      (JsMap.mapValues
         (fun u => Upgrade.with_purchased (Upgrade.with_level u 0) false)
         (upgrades e)) e).

Definition getAsRecord : M (JsMap.t Z) :=
  us <- read upgrades ;; ret (JsMap.mapValues Upgrade.level us).

Definition getAll : M (list Upgrade.t) :=
  us <- read upgrades ;; ret (JsMap.values us).

Definition getFiltered (filter : Upgrade.t -> bool) : M (list Upgrade.t) :=
  all <- getAll ;; ret (List.filter filter all).

Definition getPurchased : M (list Upgrade.t) := getFiltered Upgrade.purchased.

Definition removeUpgrade (upgradeId : string) : M unit :=
  modify (fun e => set_upgrades (JsMap.delete (upgrades e) upgradeId) e).

Definition clear : M unit := modify (set_upgrades []).

End UpgradeManager.

(** ** ParadigmManager (systems/ParadigmManager.ts) *)

Module ParadigmManager.

Definition store (paradigmId : string) (p : Paradigm.t) : M unit :=
  modify (fun e => set_paradigms (JsMap.set (paradigms e) paradigmId p) e).

Definition addParadigm (paradigm : Paradigm.t) : M unit :=
  ps <- read paradigms ;;
  if JsMap.has ps (Paradigm.id paradigm)
  then throw ("Paradigm with ID '" ++ Paradigm.id paradigm ++ "' already exists")
  else
    (cur <- read currentParadigm ;;
     paradigm' <-
       (if Paradigm.active paradigm
           && match cur with None => true | Some _ => false end
        then (modify (set_currentParadigm (Some (Paradigm.id paradigm))) ;;
              ret paradigm)
        else if Paradigm.active paradigm
        then ret (Paradigm.with_active paradigm false)
        else ret paradigm) ;;
     store (Paradigm.id paradigm) paradigm').

Definition switchTo (paradigmId : string) : M unit :=
  ps <- read paradigms ;;
  if negb (JsMap.has ps paradigmId)
  then throw ("Paradigm '" ++ paradigmId ++ "' does not exist")
  else
    (cur <- read currentParadigm ;;
     match cur with
     | Some c =>
         if truthy_string c
         then match JsMap.get ps c with
              | Some current => store c (Paradigm.with_active current false)
              | None => ret tt
              end
         else ret tt
     | None => ret tt
     end ;;
     ps' <- read paradigms ;;
     match JsMap.get ps' paradigmId with
     | None => throw "TypeError: Cannot set properties of undefined"
     | Some newParadigm =>
         store paradigmId (Paradigm.with_active newParadigm true) ;;
         modify (set_currentParadigm (Some paradigmId)) ;;
         EventBus.emit (PARADIGM_CHANGED paradigmId (Paradigm.name newParadigm)
                          (Paradigm.productionMultiplier newParadigm))
     end).

Definition getCurrent : M (option Paradigm.t) :=
  cur <- read currentParadigm ;;
  match cur with
  | None => ret None
  | Some c =>
      if negb (truthy_string c) then ret None
      else (ps <- read paradigms ;; ret (JsMap.get ps c))
  end.

Definition getCurrentId : M (option string) := read currentParadigm.

Definition getCurrentMultiplier : M Q :=
  current <- getCurrent ;;
  ret (nullish (option_map Paradigm.productionMultiplier current) 1).

Definition isAvailable (paradigmId : string) : M bool :=
  ps <- read paradigms ;; ret (JsMap.has ps paradigmId).

Definition setMultiplier (paradigmId : string) (multiplier : Q) : M unit :=
  ps <- read paradigms ;;
  match JsMap.get ps paradigmId with
  | None => throw ("Paradigm '" ++ paradigmId ++ "' does not exist")
  | Some paradigm =>
      store paradigmId (Paradigm.with_productionMultiplier paradigm multiplier)
  end.

Definition removeParadigm (paradigmId : string) : M unit :=
  cur <- read currentParadigm ;;
  (match cur with
   | Some c =>
       if String.eqb c paradigmId then modify (set_currentParadigm None) else ret tt
   | None => ret tt
   end) ;;
  modify (fun e => set_paradigms (JsMap.delete (paradigms e) paradigmId) e).

Definition getParadigm (paradigmId : string) : M (option Paradigm.t) :=
  ps <- read paradigms ;; ret (JsMap.get ps paradigmId).

Definition getAll : M (list Paradigm.t) :=
  ps <- read paradigms ;; ret (JsMap.values ps).

Definition clear : M unit :=
  modify (set_paradigms []) ;; modify (set_currentParadigm None).

End ParadigmManager.

(** ** ProductionManager (systems/ProductionManager.ts) *)

Module ProductionManager.

Definition setProductionRate (currencyId : string) (rate : Q) : M unit :=
  modify (fun e =>
    set_productionRates (JsMap.set (productionRates e) currencyId rate) e) ;;
  EventBus.emit (PRODUCTION_CHANGED currencyId rate).

Definition getProductionRate (currencyId : string) : M Q :=
  rs <- read productionRates ;; ret (nullish (JsMap.get rs currencyId) 0).

Definition setClickMultiplier (currencyId : string) (multiplier : Q) : M unit :=
  modify (fun e =>
    set_clickMultipliers (JsMap.set (clickMultipliers e) currencyId multiplier) e) ;;
  EventBus.emit (CLICK_MULTIPLIER_CHANGED currencyId multiplier).

Definition getClickMultiplier (currencyId : string) : M Q :=
  ms <- read clickMultipliers ;; ret (nullish (JsMap.get ms currencyId) 1).

Definition click (currencyId : string) (baseAmount : option Q) : M unit :=
  let baseAmount := nullish baseAmount 1 in
  clickMultiplier <- getClickMultiplier currencyId ;;
  paradigmMultiplier <- ParadigmManager.getCurrentMultiplier ;;
  let finalAmount := baseAmount * clickMultiplier * paradigmMultiplier in
  CurrencyManager.add currencyId finalAmount ;;
  EventBus.emit (CLICK currencyId baseAmount clickMultiplier
                   paradigmMultiplier finalAmount).

Definition getAllProductionRates : M (JsMap.t Q) := read productionRates.

Definition clear : M unit :=
  modify (set_productionRates []) ;; modify (set_clickMultipliers []).

End ProductionManager.

(** ** AchievementManager (systems/AchievementManager.ts) *)

Module AchievementManager.

Definition store (achievementId : string) (a : Achievement.t) : M unit :=
  modify (fun e => set_achievements (JsMap.set (achievements e) achievementId a) e).

Definition addAchievement (achievement : Achievement.t) : M unit :=
  store (Achievement.id achievement) achievement.

Definition unlockAchievement (achievementId : string) : M unit :=
  acs <- read achievements ;;
  match JsMap.get acs achievementId with
  | None => ret tt
  | Some achievement =>
      if Achievement.unlocked achievement then ret tt
      else
        (let achievement' :=
           Achievement.with_progress
             (Achievement.with_unlocked achievement true)
             (Achievement.target achievement) in
         store achievementId achievement' ;;
         EventBus.emit (ACHIEVEMENT_UNLOCKED achievementId achievement'))
  end.

Definition updateProgress (achievementId : string) (progress : Q) : M unit :=
  acs <- read achievements ;;
  match JsMap.get acs achievementId with
  | None => ret tt
  | Some achievement =>
      if Achievement.unlocked achievement then ret tt
      else
        (store achievementId (Achievement.with_progress achievement progress) ;;
         (if geb progress (Achievement.target achievement)
          then unlockAchievement achievementId
          else ret tt) ;;
         EventBus.emit (ACHIEVEMENT_PROGRESS achievementId progress
                          (Achievement.target achievement)))
  end.

Definition isUnlocked (achievementId : string) : M bool :=
  acs <- read achievements ;;
  ret (nullish (option_map Achievement.unlocked (JsMap.get acs achievementId)) false).

Definition getAchievement (achievementId : string) : M (option Achievement.t) :=
  acs <- read achievements ;; ret (JsMap.get acs achievementId).

Definition getAll : M (list Achievement.t) :=
  acs <- read achievements ;; ret (JsMap.values acs).

Definition getUnlocked : M (list Achievement.t) :=
  all <- getAll ;; ret (List.filter Achievement.unlocked all).

Definition getLocked : M (list Achievement.t) :=
  all <- getAll ;;
  ret (List.filter
         (fun a => negb (Achievement.unlocked a)
                   && negb (truthy_flag (Achievement.hidden a))) all).

Definition getCompletionPercentage : M Q :=
  acs <- read achievements ;;
  let total := JsMap.size acs in
  if Nat.eqb total 0 then ret 0
  else
    (unlocked <- getUnlocked ;;
     ret (inject_Z (Z.of_nat (List.length unlocked))
          / inject_Z (Z.of_nat total) * 100)).

Definition serialize : M (JsMap.t AchievementState.t) :=
  acs <- read achievements ;;
  ret (JsMap.mapValues
         (fun a => AchievementState.mk (Achievement.unlocked a) (Achievement.progress a))
         acs).

(** The callback of [Object.entries(state).forEach] in [deserialize]. *)
Definition restore (entry : string * AchievementState.t) : M unit :=
  let '(id, data) := entry in
  acs <- read achievements ;;
  match JsMap.get acs id with
  | Some achievement =>
      store id
        (Achievement.with_progress
           (Achievement.with_unlocked achievement (AchievementState.unlocked data))
           (AchievementState.progress data))
  | None => ret tt
  end.

Definition deserialize (state : JsMap.t AchievementState.t) : M unit :=
  forEach restore state.

Definition clear : M unit :=
  modify (fun e =>
    set_achievements
      (JsMap.mapValues
         (fun a => Achievement.with_progress (Achievement.with_unlocked a false) 0)
         (achievements e)) e).

End AchievementManager.

(** ** StatisticsManager (systems/StatisticsManager.ts) *)

Module StatisticsManager.

Import GameStatistics.

Definition recordClick : M unit :=
  modify (fun e =>
    let s := stats e in
    set_stats (mk (totalClicks s + 1) (totalGoldEarned s) (totalUpgradesPurchased s)
                 (totalTimePlayed s) (highestGold s) (paradigmChanges s)
                 (prestigeCount s) (fastestClick s) (longestSession s)) e) ;;
  now <- Date_now ;;
  modify (fun e => set_clickTimeWindow (clickTimeWindow e ++ [now]) e) ;;
  modify (fun e =>
    set_clickTimeWindow
      (List.filter (fun t => (now - t <? 1000)%Z) (clickTimeWindow e)) e) ;;
  modify (fun e =>
    let s := stats e in
    let n := Z.of_nat (List.length (clickTimeWindow e)) in
    if (fastestClick s <? n)%Z
    then set_stats (mk (totalClicks s) (totalGoldEarned s) (totalUpgradesPurchased s)
                      (totalTimePlayed s) (highestGold s) (paradigmChanges s)
                      (prestigeCount s) n (longestSession s)) e
    else e).

Definition recordGoldEarned (amount : Q) : M unit :=
  modify (fun e =>
    let s := stats e in
    set_stats (mk (totalClicks s) (totalGoldEarned s + amount)
                 (totalUpgradesPurchased s) (totalTimePlayed s) (highestGold s)
                 (paradigmChanges s) (prestigeCount s) (fastestClick s)
                 (longestSession s)) e).

Definition updateHighestGold (amount : Q) : M unit :=
  modify (fun e =>
    let s := stats e in
    if gtb amount (highestGold s)
    then set_stats (mk (totalClicks s) (totalGoldEarned s)
                      (totalUpgradesPurchased s) (totalTimePlayed s) amount
                      (paradigmChanges s) (prestigeCount s) (fastestClick s)
                      (longestSession s)) e
    else e).

Definition recordUpgradePurchase : M unit :=
  modify (fun e =>
    let s := stats e in
    set_stats (mk (totalClicks s) (totalGoldEarned s)
                 (totalUpgradesPurchased s + 1) (totalTimePlayed s) (highestGold s)
                 (paradigmChanges s) (prestigeCount s) (fastestClick s)
                 (longestSession s)) e).

Definition recordParadigmChange : M unit :=
  modify (fun e =>
    let s := stats e in
    set_stats (mk (totalClicks s) (totalGoldEarned s)
                 (totalUpgradesPurchased s) (totalTimePlayed s) (highestGold s)
                 (paradigmChanges s + 1) (prestigeCount s) (fastestClick s)
                 (longestSession s)) e).

Definition recordPrestige : M unit :=
  modify (fun e =>
    let s := stats e in
    set_stats (mk (totalClicks s) (totalGoldEarned s)
                 (totalUpgradesPurchased s) (totalTimePlayed s) (highestGold s)
                 (paradigmChanges s) (prestigeCount s + 1) (fastestClick s)
                 (longestSession s)) e).

Definition getCurrentSessionTime : M Z :=
  now <- Date_now ;;
  start <- read sessionStartTime ;;
  ret ((now - start) / 1000)%Z.

Definition updateTimePlayed : M unit :=
  sessionTime <- getCurrentSessionTime ;;
  modify (fun e =>
    let s := stats e in
    set_stats (mk (totalClicks s) (totalGoldEarned s) (totalUpgradesPurchased s)
                 (totalTimePlayed s + sessionTime) (highestGold s)
                 (paradigmChanges s) (prestigeCount s) (fastestClick s)
                 (if (longestSession s <? sessionTime)%Z
                  then sessionTime else longestSession s)) e) ;;
  now <- Date_now ;;
  modify (set_sessionStartTime now).

Definition getStatistics : M GameStatistics.t := read stats.

Definition getCurrentStatistics : M GameStatistics.t :=
  s <- read stats ;;
  sessionTime <- getCurrentSessionTime ;;
  ret (mk (totalClicks s) (totalGoldEarned s) (totalUpgradesPurchased s)
         (totalTimePlayed s + sessionTime) (highestGold s) (paradigmChanges s)
         (prestigeCount s) (fastestClick s) (longestSession s)).

Definition serialize : M GameStatistics.t :=
  updateTimePlayed ;; read stats.

Definition deserialize (s : GameStatistics.t) : M unit :=
  modify (set_stats s) ;;
  now <- Date_now ;;
  modify (set_sessionStartTime now).

Definition reset : M unit :=
  modify (set_stats zero) ;;
  now <- Date_now ;;
  modify (set_sessionStartTime now) ;;
  modify (set_clickTimeWindow []).

End StatisticsManager.

(** ** StateManager and the in-memory storage adapter (systems/StateManager.ts)

    The state manager is the one the engine constructs (achievement and
    statistics managers present) with [MemoryStorageAdapter] installed. *)

Module MemoryStorageAdapter.

Definition save (key : string) (state : GameState.t) : M unit :=
  modify (fun e => set_storage (JsMap.set (storage e) key state) e).

Definition load (key : string) : M (option GameState.t) :=
  st <- read storage ;; ret (JsMap.get st key).

Definition delete (key : string) : M unit :=
  modify (fun e => set_storage (JsMap.delete (storage e) key) e).

Definition exists_ (key : string) : M bool :=
  st <- read storage ;; ret (JsMap.has st key).

End MemoryStorageAdapter.

Module StateManager.

Definition snapshot (customState : option (JsMap.t Q)) : M GameState.t :=
  current <- ParadigmManager.getCurrent ;;
  timestamp <- Date_now ;;
  currencies <- CurrencyManager.getAllAsRecord ;;
  upgrades <- UpgradeManager.getAsRecord ;;
  achievements <- AchievementManager.serialize ;;
  statistics <- StatisticsManager.serialize ;;
  ret (GameState.mk timestamp currencies upgrades
         (nullish (option_map Paradigm.id current) "default")
         0 (Some achievements) (Some statistics) customState).

Definition save (key : string) (customState : option (JsMap.t Q)) : M unit :=
  try_catch
    (state <- snapshot customState ;;
     MemoryStorageAdapter.save key state ;;
     EventBus.emit (STATE_SAVED key (GameState.timestamp state)))
    (fun _ => ret tt).

Definition load (key : string) : M (option GameState.t) :=
  try_catch
    (state <- MemoryStorageAdapter.load key ;;
     match state with
     | None => ret None
     | Some state =>
         forEach (fun entry => CurrencyManager.set (fst entry) (snd entry))
           (GameState.currencies state) ;;
         forEach (fun entry => UpgradeManager.setLevel (fst entry) (snd entry))
           (GameState.upgrades state) ;;
         available <- ParadigmManager.isAvailable (GameState.currentParadigm state) ;;
         (if truthy_string (GameState.currentParadigm state) && available
          then ParadigmManager.switchTo (GameState.currentParadigm state)
          else ret tt) ;;
         match GameState.achievements state with
         | Some a => AchievementManager.deserialize a
         | None => ret tt
         end ;;
         match GameState.statistics state with
         | Some s => StatisticsManager.deserialize s
         | None => ret tt
         end ;;
         EventBus.emit (STATE_LOADED key (GameState.timestamp state)) ;;
         ret (Some state)
     end)
    (fun _ => ret None).

Definition delete (key : string) : M unit :=
  try_catch (MemoryStorageAdapter.delete key) (fun _ => ret tt).

Definition exists_ (key : string) : M bool := MemoryStorageAdapter.exists_ key.

End StateManager.

(** ** ClickerGameEngine (index.ts): the facade methods the claims use *)

Module ClickerGameEngine.

Definition click (currencyId : string) (baseAmount : option Q) : M unit :=
  ProductionManager.click currencyId baseAmount ;;
  modify (fun e => set_totalClicks (totalClicks e + 1) e) ;;
  StatisticsManager.recordClick.

Definition saveGame (key : string) : M unit :=
  n <- read totalClicks ;;
  StateManager.save key (Some [("totalClicks", n)]).

Definition loadGame (key : string) : M bool :=
  state <- StateManager.load key ;;
  match state with
  | Some st =>
      match GameState.custom st with
      | Some bag =>
          match JsMap.get bag "totalClicks" with
          | Some n => if truthy_number n then modify (set_totalClicks n) else ret tt
          | None => ret tt
          end
      | None => ret tt
      end ;;
      ret true
  | None => ret false
  end.

Definition hasSavedGame (key : string) : M bool := StateManager.exists_ key.

Definition deleteSavedGame (key : string) : M unit := StateManager.delete key.

Definition purchaseUpgrade (upgradeId : string) : M bool :=
  UpgradeManager.purchase upgradeId.

Definition getUpgradeCost (upgradeId : string) : M Q :=
  upgrade <- UpgradeManager.getUpgrade upgradeId ;;
  match upgrade with
  | None => ret 0
  | Some u => ret (UpgradeManager.calculateCost u)
  end.

Definition getTotalClicks : M Q := read totalClicks.

End ClickerGameEngine.

(** Running a method: its completion and the engine it leaves. *)
Definition result {A : Type} (m : M A) (e : Engine) : completion A := fst (m e).

Definition exec {A : Type} (m : M A) (e : Engine) : Engine := snd (m e).

(** ** UIManager (ui/UIManager.ts)

    The tab manager owns its own state and emits its own two kinds of
    event on the bus, so it is modelled on a state of its own, with the
    state passed explicitly. *)

Module UITab.
Record t : Type := mk {
  id : string;
  name : string;
  icon : option string;
  visible : bool;
  active : bool;
  order : Q;
  activeColor : option string
}.
Definition with_active (tab : t) (a : bool) : t :=
  mk (id tab) (name tab) (icon tab) (visible tab) a (order tab) (activeColor tab).
Definition with_visible (tab : t) (v : bool) : t :=
  mk (id tab) (name tab) (icon tab) v (active tab) (order tab) (activeColor tab).
Definition with_order (tab : t) (o : Q) : t :=
  mk (id tab) (name tab) (icon tab) (visible tab) (active tab) o (activeColor tab).
End UITab.

Inductive UIEvent : Type :=
| TAB_SWITCHED (tabId tabName : string)
| UI_UPDATED (tabId : string) (visible : bool).

Module UIManager.

Record State : Type := mkState {
  tabs : JsMap.t UITab.t;
  activeTab : option string;
  emitted : list UIEvent
}.

Definition new : State := mkState [] None [].

Definition addTab (tab : UITab.t) (s : State) : completion unit * State :=
  if JsMap.has (tabs s) (UITab.id tab)
  then (Throw ("Tab with ID '" ++ UITab.id tab ++ "' already exists"), s)
  else
    if match activeTab s with None => true | Some _ => false end && UITab.active tab
    then (Normal tt,
          mkState (JsMap.set (tabs s) (UITab.id tab) (UITab.with_active tab true))
            (Some (UITab.id tab)) (emitted s))
    else (Normal tt,
          mkState (JsMap.set (tabs s) (UITab.id tab) (UITab.with_active tab false))
            (activeTab s) (emitted s)).

(** [tab] and [current] may be one object; the target is read again after
    the current tab has been deactivated. *)
Definition switchTab (tabId : string) (s : State) : completion unit * State :=
  match JsMap.get (tabs s) tabId with
  | None => (Throw ("Tab '" ++ tabId ++ "' does not exist"), s)
  | Some tab =>
      if negb (UITab.visible tab)
      then (Throw ("Tab '" ++ tabId ++ "' is not visible"), s)
      else
        let tabs1 :=
          match activeTab s with
          | Some c =>
              if truthy_string c
              then match JsMap.get (tabs s) c with
                   | Some current =>
                       JsMap.set (tabs s) c (UITab.with_active current false)
                   | None => tabs s
                   end
              else tabs s
          | None => tabs s
          end in
        let tab' := UITab.with_active (nullish (JsMap.get tabs1 tabId) tab) true in
        (Normal tt,
         mkState (JsMap.set tabs1 tabId tab') (Some tabId)
           (emitted s ++ [TAB_SWITCHED tabId (UITab.name tab')]))
  end.

Definition getActive (s : State) : option UITab.t :=
  match activeTab s with
  | None => None
  | Some c => if negb (truthy_string c) then None else JsMap.get (tabs s) c
  end.

Definition getActiveId (s : State) : option string := activeTab s.

Definition getTab (tabId : string) (s : State) : option UITab.t :=
  JsMap.get (tabs s) tabId.

(** [Array.prototype.sort] is stable; with the comparator
    [a.order - b.order] its result is the stable ordering by [order],
    computed here by insertion. *)
Fixpoint insertByOrder (tab : UITab.t) (sorted : list UITab.t) : list UITab.t :=
  match sorted with
  | [] => [tab]
  | y :: r =>
      if Qle_bool (UITab.order tab) (UITab.order y)
      then tab :: y :: r
      else y :: insertByOrder tab r
  end.

Fixpoint sortByOrder (l : list UITab.t) : list UITab.t :=
  match l with
  | [] => []
  | x :: r => insertByOrder x (sortByOrder r)
  end.

Definition getAll (s : State) : list UITab.t :=
  sortByOrder (JsMap.values (tabs s)).

Definition getVisible (s : State) : list UITab.t :=
  List.filter UITab.visible (getAll s).

Definition setTabVisible (tabId : string) (visible : bool) (s : State)
  : completion unit * State :=
  match JsMap.get (tabs s) tabId with
  | None => (Throw ("Tab '" ++ tabId ++ "' does not exist"), s)
  | Some tab =>
      let s1 := mkState (JsMap.set (tabs s) tabId (UITab.with_visible tab visible))
                  (activeTab s) (emitted s) in
      let '(c, s2) :=
        if negb visible
           && match activeTab s1 with
              | Some a => String.eqb a tabId
              | None => false
              end
        then match getVisible s1 with
             | firstVisible :: _ => switchTab (UITab.id firstVisible) s1
             | [] => (Normal tt, mkState (tabs s1) None (emitted s1))
             end
        else (Normal tt, s1) in
      match c with
      | Throw msg => (Throw msg, s2)
      | Normal _ =>
          (Normal tt,
           mkState (tabs s2) (activeTab s2)
             (emitted s2 ++ [UI_UPDATED tabId visible]))
      end
  end.

Definition setTabOrder (tabId : string) (order : Q) (s : State)
  : completion unit * State :=
  match JsMap.get (tabs s) tabId with
  | None => (Throw ("Tab '" ++ tabId ++ "' does not exist"), s)
  | Some tab =>
      (Normal tt,
       mkState (JsMap.set (tabs s) tabId (UITab.with_order tab order))
         (activeTab s) (emitted s))
  end.

Definition removeTab (tabId : string) (s : State) : completion unit * State :=
  let s1 :=
    if match activeTab s with Some a => String.eqb a tabId | None => false end
    then
      let s0 := mkState (tabs s) None (emitted s) in
      match getVisible s0 with
      | firstVisible :: _ =>
          mkState (tabs s) (Some (UITab.id firstVisible)) (emitted s)
      | [] => s0
      end
    else s in
  (Normal tt, mkState (JsMap.delete (tabs s1) tabId) (activeTab s1) (emitted s1)).

Definition clear (s : State) : completion unit * State :=
  (Normal tt, mkState [] None (emitted s)).

End UIManager.

(** ** EventBus subscriptions (core/EventBus.ts)

    [EventBus.emit] above records what is emitted.  This module models the
    other half of the class, the table of observers.  An observer is a
    JavaScript function; what the bus can tell about it is its identity
    (a number here), and whether a call returns or throws, given by
    [throws].  Observers are assumed not to call back into the bus; the
    wrapper that [once] builds, which is code of the bus, does. *)

Module EventBusObservers.

(** A subscribed function: an observer, or the wrapper [once] builds
    around one (a fresh function every time, numbered by [wrapper]). *)
Inductive Handler : Type :=
| Plain (observer : nat)
| Wrapper (wrapper : nat) (observer : nat).

(** Identity of functions. *)
Definition same (h1 h2 : Handler) : bool :=
  match h1, h2 with
  | Plain f1, Plain f2 => Nat.eqb f1 f2
  | Wrapper w1 _, Wrapper w2 _ => Nat.eqb w1 w2
  | _, _ => false
  end.

Definition observerOf (h : Handler) : nat :=
  match h with Plain f => f | Wrapper _ f => f end.

Section Bus.
Context {D : Type}.
Variable throws : nat -> D -> bool.

Record Bus : Type := mkBus {
  (** [Map<string, Set<Observer>>]: each set in insertion order *)
  observers : JsMap.t (list Handler);
  (** the next wrapper [once] will create *)
  nextWrapper : nat;
  (** every call of an observer made so far: which one, with what data *)
  calls : list (nat * D)
}.

Definition new : Bus := mkBus [] 0 [].

(** [set.add(h)] *)
Definition Set_add (set : list Handler) (h : Handler) : list Handler :=
  if List.existsb (same h) set then set else (set ++ [h])%list.

(** [set.delete(h)] *)
Definition Set_delete (set : list Handler) (h : Handler) : list Handler :=
  List.filter (fun h' => negb (same h h')) set.

Definition subscribe (eventType : string) (h : Handler) (b : Bus) : Bus :=
  let obs :=
    if JsMap.has (observers b) eventType then observers b
    else JsMap.set (observers b) eventType [] in
  mkBus (JsMap.set obs eventType (Set_add (nullish (JsMap.get obs eventType) []) h))
    (nextWrapper b) (calls b).

Definition off (eventType : string) (h : Handler) (b : Bus) : Bus :=
  match JsMap.get (observers b) eventType with
  | None => b
  | Some set =>
      mkBus (JsMap.set (observers b) eventType (Set_delete set h))
        (nextWrapper b) (calls b)
  end.

(** [on(eventType, observer)]; the function it returns is
    [off eventType (Plain observer)]. *)
Definition on (eventType : string) (observer : nat) (b : Bus) : Bus :=
  subscribe eventType (Plain observer) b.

Definition once (eventType : string) (observer : nat) (b : Bus) : Bus :=
  let wrapper := Wrapper (nextWrapper b) observer in
  subscribe eventType wrapper
    (mkBus (observers b) (S (nextWrapper b)) (calls b)).

Definition record (f : nat) (data : D) (b : Bus) : Bus :=
  mkBus (observers b) (nextWrapper b) (calls b ++ [(f, data)]).

(** One iteration of the loop of [emit]: the call, inside [try]/[catch].
    A wrapper calls its observer and then unsubscribes itself; when the
    observer throws, the wrapper is left before it reaches [off]. *)
Definition invoke (eventType : string) (data : D) (b : Bus) (h : Handler) : Bus :=
  match h with
  | Plain f => record f data b
  | Wrapper w f =>
      let b1 := record f data b in
      if throws f data then b1 else off eventType (Wrapper w f) b1
  end.

(** [emit] walks a copy of the set taken when it starts. *)
Definition emit (eventType : string) (data : D) (b : Bus) : Bus :=
  match JsMap.get (observers b) eventType with
  | None => b
  | Some set => List.fold_left (invoke eventType data) set b
  end.

Definition clear (eventType : option string) (b : Bus) : Bus :=
  match eventType with
  | Some t =>
      if truthy_string t
      then mkBus (JsMap.delete (observers b) t) (nextWrapper b) (calls b)
      else mkBus [] (nextWrapper b) (calls b)
  | None => mkBus [] (nextWrapper b) (calls b)
  end.

Definition getObserverCount (eventType : string) (b : Bus) : nat :=
  nullish (option_map (@List.length Handler) (JsMap.get (observers b) eventType)) 0%nat.

(** The observers subscribed to an event type, in subscription order. *)
Definition subscribers (eventType : string) (b : Bus) : list Handler :=
  nullish (JsMap.get (observers b) eventType) [].

End Bus.

End EventBusObservers.

(** ** The numeric core over IEEE 754 binary64

    Costs, purchases and production compute with JavaScript numbers, and
    what they return depends on how each operation rounds.  The methods
    concerned are embedded here a second time, with the same control flow
    as above, over the kernel's binary64 floats: [+], [-], [*], [/] and
    the comparisons are the IEEE 754 operations of JavaScript, NaN, the
    infinities and the two zeros included.  An upgrade's level stays an
    integer. *)

Module Binary64.

Import PrimFloat.
#[local] Set Warnings "-inexact-float".

(** The exact value of a finite number, as a fraction in lowest terms. *)
Definition realValue (x : float) : option Q :=
  match FloatOps.Prim2SF x with
  | SpecFloat.S754_zero _ => Some 0%Q
  | SpecFloat.S754_finite s m e =>
      let magnitude := (inject_Z (Z.pos m) * Qpower 2 e)%Q in
      Some (Qred (if s then (- magnitude)%Q else magnitude))
  | _ => None
  end.

Module Math.

(** [Math.max(a, b)]: NaN if either is NaN, and [+0] is above [-0]. *)
Definition max (a b : float) : float :=
  if PrimFloat.is_nan a || PrimFloat.is_nan b then PrimFloat.nan
  else if PrimFloat.ltb a b then b
  else if PrimFloat.ltb b a then a
  else if PrimFloat.get_sign a then b else a.

(** [Math.ceil(x)]: the least integer not below [x], which is
    representable; [-0] for [x] in [(-1, 0)]; NaN, the infinities and
    the zeros are returned as they are. *)
Definition ceil (x : float) : float :=
  match FloatOps.Prim2SF x with
  | SpecFloat.S754_finite s m e =>
      if (0 <=? e)%Z then x
      else
        let d := (2 ^ (- e))%Z in
        let q := (Z.pos m / d)%Z in
        let r := (Z.pos m mod d)%Z in
        let n := if s then (- q)%Z else if (r =? 0)%Z then q else (q + 1)%Z in
        FloatOps.SF2Prim (SpecFloat.binary_normalize FloatOps.prec FloatOps.emax n 0 s)
  | _ => x
  end.

(** [Math.pow(base, exponent)] at an integral exponent.  ECMAScript fixes
    the results at NaN, the zeros and the infinities and leaves the
    accuracy elsewhere to the implementation; the value taken here is the
    exact power rounded to nearest (ties to even), with overflow to an
    infinity and underflow to a zero. *)
Definition pow (base : float) (exponent : Z) : float :=
  let odd := Z.odd exponent in
  match exponent with
  | Z0 => 1%float
  | Zpos n =>
      match FloatOps.Prim2SF base with
      | SpecFloat.S754_nan => PrimFloat.nan
      | SpecFloat.S754_infinity s =>
          if s && odd then PrimFloat.neg_infinity else PrimFloat.infinity
      | SpecFloat.S754_zero s =>
          if s && odd then PrimFloat.neg_zero else PrimFloat.zero
      | SpecFloat.S754_finite s m e =>
          FloatOps.SF2Prim
            (SpecFloat.binary_round FloatOps.prec FloatOps.emax (s && odd)
               (m ^ n)%positive (e * Z.pos n)%Z)
      end
  | Zneg n =>
      match FloatOps.Prim2SF base with
      | SpecFloat.S754_nan => PrimFloat.nan
      | SpecFloat.S754_infinity s =>
          if s && odd then PrimFloat.neg_zero else PrimFloat.zero
      | SpecFloat.S754_zero s =>
          if s && odd then PrimFloat.neg_infinity else PrimFloat.infinity
      | SpecFloat.S754_finite s m e =>
          FloatOps.SF2Prim
            (SpecFloat.SFdiv FloatOps.prec FloatOps.emax
               (SpecFloat.S754_finite (s && odd) 1 0)
               (SpecFloat.S754_finite false (m ^ n)%positive (e * Z.pos n)%Z))
      end
  end.

End Math.

(** [a >= b] and [a > b]: false when either side is NaN. *)
Definition geb (a b : float) : bool := PrimFloat.leb b a.

Definition gtb (a b : float) : bool := PrimFloat.ltb b a.

(** *** Data (core/types.ts) *)

Module Currency.
Record t : Type := mk {
  id : string;
  name : string;
  amount : float;
  symbol : string;
  color : option string;
  visible : option bool
}.
Definition with_amount (c : t) (a : float) : t :=
  mk (id c) (name c) a (symbol c) (color c) (visible c).
End Currency.

Module Upgrade.
Record t : Type := mk {
  id : string;
  name : string;
  description : string;
  cost : float;
  currencyId : string;
  level : Z;
  purchased : bool;
  effect : float;
  scalable : option bool;
  scaleFactor : option float;
  icon : option string
}.
Definition with_level (u : t) (l : Z) : t :=
  mk (id u) (name u) (description u) (cost u) (currencyId u) l
     (purchased u) (effect u) (scalable u) (scaleFactor u) (icon u).
Definition with_purchased (u : t) (p : bool) : t :=
  mk (id u) (name u) (description u) (cost u) (currencyId u) (level u)
     p (effect u) (scalable u) (scaleFactor u) (icon u).
End Upgrade.

Module Paradigm.
Record t : Type := mk {
  id : string;
  name : string;
  description : string;
  active : bool;
  productionMultiplier : float
}.
End Paradigm.

(** The events these methods emit, with their payloads. *)
Inductive Event : Type :=
| CURRENCY_CHANGED (currencyId : string) (oldAmount newAmount change : float)
| UPGRADE_PURCHASED (upgradeId : string) (level : Z) (cost : float)
| UPGRADE_LEVELED (upgradeId : string) (newLevel : Z) (effect : float)
| PRODUCTION_TICK (deltaTimeMs : float).

(** The state of the four managers involved, and the event trace. *)
Record Engine : Type := mkEngine {
  currencies : JsMap.t Currency.t;
  upgrades : JsMap.t Upgrade.t;
  paradigms : JsMap.t Paradigm.t;
  currentParadigm : option string;
  productionRates : JsMap.t float;
  emitted : list Event
}.

Definition set_currencies (x : JsMap.t Currency.t) (e : Engine) : Engine :=
  mkEngine x (upgrades e) (paradigms e) (currentParadigm e)
    (productionRates e) (emitted e).

Definition set_upgrades (x : JsMap.t Upgrade.t) (e : Engine) : Engine :=
  mkEngine (currencies e) x (paradigms e) (currentParadigm e)
    (productionRates e) (emitted e).

Definition set_emitted (x : list Event) (e : Engine) : Engine :=
  mkEngine (currencies e) (upgrades e) (paradigms e) (currentParadigm e)
    (productionRates e) x.

(** *** Method bodies: state, and exceptions that keep the state *)

Definition M (A : Type) : Type := Engine -> completion A * Engine.

Definition ret {A : Type} (a : A) : M A := fun e => (Normal a, e).

Definition bind {A B : Type} (m : M A) (f : A -> M B) : M B :=
  fun e =>
    match m e with
    | (Normal a, e') => f a e'
    | (Throw msg, e') => (Throw msg, e')
    end.

Definition throw {A : Type} (msg : string) : M A := fun e => (Throw msg, e).

Definition read {A : Type} (f : Engine -> A) : M A := fun e => (Normal (f e), e).

Definition modify (f : Engine -> Engine) : M unit := fun e => (Normal tt, f e).

Declare Scope js64_scope.
Delimit Scope js64_scope with js64.
Notation "x <- m ;; k" := (bind m (fun x => k))
  (at level 100, m at next level, right associativity) : js64_scope.
Notation "m ;; k" := (bind m (fun _ => k))
  (at level 100, right associativity) : js64_scope.
Local Open Scope js64_scope.

Fixpoint forEach {A : Type} (f : A -> M unit) (l : list A) : M unit :=
  match l with
  | [] => ret tt
  | x :: r => f x ;; forEach f r
  end.

Module EventBus.

Definition emit (ev : Event) : M unit :=
  modify (fun e => set_emitted (emitted e ++ [ev]) e).

End EventBus.

(** *** CurrencyManager (systems/CurrencyManager.ts) *)

Module CurrencyManager.

Definition store (currencyId : string) (c : Currency.t) : M unit :=
  modify (fun e => set_currencies (JsMap.set (currencies e) currencyId c) e).

Definition get (currencyId : string) : M float :=
  cs <- read currencies ;;
  ret (nullish (option_map Currency.amount (JsMap.get cs currencyId)) 0%float).

Definition add (currencyId : string) (amount : float) : M float :=
  cs <- read currencies ;;
  match JsMap.get cs currencyId with
  | None => throw ("Currency '" ++ currencyId ++ "' does not exist")
  | Some currency =>
      let oldAmount := Currency.amount currency in
      let currency' :=
        Currency.with_amount currency (Currency.amount currency + amount)%float in
      store currencyId currency' ;;
      EventBus.emit (CURRENCY_CHANGED currencyId oldAmount
                       (Currency.amount currency') amount) ;;
      ret (Currency.amount currency')
  end.

Definition subtract (currencyId : string) (amount : float) : M float :=
  cs <- read currencies ;;
  match JsMap.get cs currencyId with
  | None => throw ("Currency '" ++ currencyId ++ "' does not exist")
  | Some currency =>
      let oldAmount := Currency.amount currency in
      let currency' :=
        Currency.with_amount currency
          (Math.max 0%float (Currency.amount currency - amount)%float) in
      store currencyId currency' ;;
      EventBus.emit (CURRENCY_CHANGED currencyId oldAmount
                       (Currency.amount currency') (- amount)%float) ;;
      ret (Currency.amount currency')
  end.

Definition has (currencyId : string) (amount : float) : M bool :=
  a <- get currencyId ;; ret (geb a amount).

End CurrencyManager.

(** *** UpgradeManager (systems/UpgradeManager.ts) *)

Module UpgradeManager.

Definition store (upgradeId : string) (u : Upgrade.t) : M unit :=
  modify (fun e => set_upgrades (JsMap.set (upgrades e) upgradeId u) e).

Definition calculateCost (upgrade : Upgrade.t) : float :=
  if negb (truthy_flag (Upgrade.scalable upgrade))
  then Upgrade.cost upgrade
  else
    let scaleFactor := nullish (Upgrade.scaleFactor upgrade) 1.15%float in
    Math.ceil (Upgrade.cost upgrade * Math.pow scaleFactor (Upgrade.level upgrade))%float.

Definition purchase (upgradeId : string) : M bool :=
  us <- read upgrades ;;
  match JsMap.get us upgradeId with
  | None => throw ("Upgrade '" ++ upgradeId ++ "' does not exist")
  | Some upgrade =>
      let cost := calculateCost upgrade in
      enough <- CurrencyManager.has (Upgrade.currencyId upgrade) cost ;;
      if negb enough then ret false
      else
        (CurrencyManager.subtract (Upgrade.currencyId upgrade) cost ;;
         let upgrade' :=
           Upgrade.with_purchased
             (Upgrade.with_level upgrade (Upgrade.level upgrade + 1)) true in
         store upgradeId upgrade' ;;
         EventBus.emit (UPGRADE_PURCHASED upgradeId (Upgrade.level upgrade') cost) ;;
         EventBus.emit (UPGRADE_LEVELED upgradeId (Upgrade.level upgrade')
                          (Upgrade.effect upgrade')) ;;
         ret true)
  end.

Definition getAll : M (list Upgrade.t) :=
  us <- read upgrades ;; ret (JsMap.values us).

(** [u.id.startsWith(pattern)] is [String.prefix pattern u.id]; [reduce]
    multiplies from the left, starting at 1. *)
Definition getTotalEffect (pattern : string) : M float :=
  all <- getAll ;;
  let upgrades := List.filter (fun u => String.prefix pattern (Upgrade.id u)) all in
  ret (List.fold_left (fun total u => (total * Upgrade.effect u)%float)
         upgrades 1%float).

Definition setLevel (upgradeId : string) (level : Z) : M unit :=
  us <- read upgrades ;;
  match JsMap.get us upgradeId with
  | None => throw ("Upgrade '" ++ upgradeId ++ "' does not exist")
  | Some upgrade => store upgradeId (Upgrade.with_level upgrade (Z.max 0 level))
  end.

Definition reset : M unit :=
  modify (fun e =>
    set_upgrades
      (JsMap.mapValues
         (fun u => Upgrade.with_purchased (Upgrade.with_level u 0) false)
         (upgrades e)) e).

End UpgradeManager.

(** *** ParadigmManager (systems/ParadigmManager.ts) *)

Module ParadigmManager.

Definition getCurrent : M (option Paradigm.t) :=
  cur <- read currentParadigm ;;
  match cur with
  | None => ret None
  | Some c =>
      if negb (truthy_string c) then ret None
      else (ps <- read paradigms ;; ret (JsMap.get ps c))
  end.

Definition getCurrentMultiplier : M float :=
  current <- getCurrent ;;
  ret (nullish (option_map Paradigm.productionMultiplier current) 1%float).

End ParadigmManager.

(** *** ProductionManager (systems/ProductionManager.ts) *)

Module ProductionManager.

(** The callback of [productionRates.forEach] in [tick]. *)
Definition produce (deltaSeconds paradigmMultiplier : float) (entry : string * float)
  : M unit :=
  let '(currencyId, rate) := entry in
  if gtb rate 0%float
  then (let productionAmount := (rate * deltaSeconds * paradigmMultiplier)%float in
        CurrencyManager.add currencyId productionAmount ;; ret tt)
  else ret tt.

Definition tick (deltaTimeMs : float) : M unit :=
  let deltaSeconds := (deltaTimeMs / 1000)%float in
  paradigmMultiplier <- ParadigmManager.getCurrentMultiplier ;;
  rates <- read productionRates ;;
  forEach (produce deltaSeconds paradigmMultiplier) rates ;;
  EventBus.emit (PRODUCTION_TICK deltaTimeMs).

End ProductionManager.

(** Running a method: its completion and the engine it leaves. *)
Definition result {A : Type} (m : M A) (e : Engine) : completion A := fst (m e).

Definition exec {A : Type} (m : M A) (e : Engine) : Engine := snd (m e).

(** *** Observations *)

(** What [CurrencyManager.get] returns. *)
Definition balance (e : Engine) (currencyId : string) : float :=
  nullish (option_map Currency.amount (JsMap.get (currencies e) currencyId)) 0%float.

(** What [ParadigmManager.getCurrentMultiplier] returns. *)
Definition currentMultiplier (e : Engine) : float :=
  match currentParadigm e with
  | Some c =>
      if truthy_string c
      then nullish (option_map Paradigm.productionMultiplier
                      (JsMap.get (paradigms e) c)) 1%float
      else 1%float
  | None => 1%float
  end.

(** What [ProductionManager.getProductionRate] returns. *)
Definition rateOf (e : Engine) (currencyId : string) : float :=
  nullish (JsMap.get (productionRates e) currencyId) 0%float.

(** Every id with a positive production rate is a registered currency. *)
Definition ratesRegistered (e : Engine) : Prop :=
  forall id rate, JsMap.get (productionRates e) id = Some rate ->
                  gtb rate 0%float = true ->
                  JsMap.get (currencies e) id <> None.

Definition isCurrencyChanged (ev : Event) : Prop :=
  match ev with CURRENCY_CHANGED _ _ _ _ => True | _ => False end.

(** The amount the loop of [tick] over [rates] leaves in a currency that
    held [a]: [ds] seconds under paradigm multiplier [pm]. *)
Fixpoint creditedTo (rates : JsMap.t float) (ds pm : float)
    (currencyId : string) (a : float) : float :=
  match rates with
  | [] => a
  | (k, r) :: rest =>
      creditedTo rest ds pm currencyId
        (if String.eqb k currencyId && gtb r 0%float
         then (a + r * ds * pm)%float else a)
  end.

(** *** Sample states *)

Definition gold (amount : float) : Currency.t :=
  Currency.mk "gold" "Gold" amount "G" None None.

(** An upgrade paid in gold; scalable when a factor is given. *)
Definition sword (cost : float) (scaleFactor : option float) (level : Z) : Upgrade.t :=
  Upgrade.mk "sword" "Sword" "A sharper sword" cost "gold" level false 2%float
    (match scaleFactor with Some _ => Some true | None => None end)
    scaleFactor None.

(** A free upgrade paid in a currency that is not registered. *)
Definition gift : Upgrade.t :=
  Upgrade.mk "gift" "Gift" "Costs nothing" 0%float "ghost" 0 false 1%float
    None None None.

Definition shop (amount : float) (u : Upgrade.t) : Engine :=
  mkEngine [("gold", gold amount)] [(Upgrade.id u, u)] [] None [] [].

(** What [getTotalEffect] looks at in an upgrade: its id and its effect. *)
Definition idAndEffect (u : Upgrade.t) : string * float :=
  (Upgrade.id u, Upgrade.effect u).

(** The sword (effect 2), a gem for it (effect 1.1) and boots (effect 3),
    none of them purchased. *)
Definition armoury : Engine :=
  mkEngine [("gold", gold 150%float)]
    [("sword", sword 100%float (Some 1.15%float) 0);
     ("sword-gem",
      Upgrade.mk "sword-gem" "Gem" "A gem for the sword" 20%float "gold" 0 false
        1.1%float None None None);
     ("boots",
      Upgrade.mk "boots" "Boots" "Faster feet" 30%float "gold" 0 false
        3%float None None None)]
    [] None [] [].

Definition bronze (multiplier : float) : Paradigm.t :=
  Paradigm.mk "bronze" "Bronze Age" "The first age" true multiplier.

(** Gold produced at [rate] per second under a paradigm of the given
    multiplier. *)
Definition farm (amount rate multiplier : float) : Engine :=
  mkEngine [("gold", gold amount)] [] [("bronze", bronze multiplier)]
    (Some "bronze") [("gold", rate)] [].

(** A rate was set for ["ghost"], which is not a currency, before the
    rate of gold. *)
Definition limbo : Engine :=
  mkEngine [("gold", gold 5%float)] [] [] None
    [("ghost", 1%float); ("gold", 10%float)] [].

End Binary64.

(** ** Observations of an engine state *)

(** What [CurrencyManager.get] returns. *)
Definition balance (e : Engine) (currencyId : string) : Q :=
  nullish (option_map Currency.amount (JsMap.get (currencies e) currencyId)) 0.

(** A key is present in a map. *)
Definition registered {V : Type} (m : JsMap.t V) (k : string) : Prop :=
  JsMap.get m k <> None.

(** The paradigms whose [active] flag is set. *)
Definition activeParadigms (e : Engine) : list (string * Paradigm.t) :=
  List.filter (fun kv => Paradigm.active (snd kv)) (paradigms e).

(** One entry per key, as in a JavaScript [Map]. *)
Definition uniqueKeys {V : Type} (m : JsMap.t V) : Prop := NoDup (JsMap.keys m).

(** What [ParadigmManager.getCurrentMultiplier] returns. *)
Definition currentMultiplier (e : Engine) : Q :=
  match currentParadigm e with
  | Some c =>
      if truthy_string c
      then nullish (option_map Paradigm.productionMultiplier
                      (JsMap.get (paradigms e) c)) 1
      else 1
  | None => 1
  end.

Definition isCurrencyChanged (ev : Event) : Prop :=
  match ev with CURRENCY_CHANGED _ _ _ _ => True | _ => False end.

(** What [ParadigmManager.getCurrent] returns. *)
Definition currentOf (e : Engine) : option Paradigm.t :=
  match currentParadigm e with
  | None => None
  | Some c => if negb (truthy_string c) then None else JsMap.get (paradigms e) c
  end.


(** What [ProductionManager.getClickMultiplier] returns. *)
Definition clickMultiplierOf (e : Engine) (currencyId : string) : Q :=
  nullish (JsMap.get (clickMultipliers e) currencyId) 1.

Definition isStateLoaded (ev : Event) : Prop :=
  match ev with STATE_LOADED _ _ => True | _ => False end.

(** Display order of tabs: ascending [order]. *)
Definition byOrder (a b : UITab.t) : Prop := UITab.order a <= UITab.order b.

(** ** Concrete engines used by the examples below *)

Definition gold (a : Q) : Currency.t :=
  Currency.mk "gold" "Gold" a "G" None None None.

(** An engine with the single currency [gold] holding [a]. *)
Definition bank (a : Q) : Engine :=
  exec (CurrencyManager.addCurrency (gold a)) (newEngine 0).

(** A scalable upgrade of base cost 100 and scale factor 1.15. *)
Definition sword (level : Z) : Upgrade.t :=
  Upgrade.mk "sword" "Sword" "A sharper sword" 100 "gold" level false (11 # 10)
    (Some true) (Some (115 # 100)) None.

(** [bank a] with the upgrade [sword] registered at [level]. *)
Definition shop (a : Q) (level : Z) : Engine :=
  exec (UpgradeManager.addUpgrade (sword level)) (bank a).

(** An achievement with target 10. *)
Definition firstSteps (unlocked : bool) (progress : Q) : Achievement.t :=
  Achievement.mk "first-steps" "First steps" "Click ten times" None
    unlocked progress 10 None None None.

(** An engine with [firstSteps], locked, at progress 0. *)
Definition trophyRoom : Engine :=
  exec (AchievementManager.addAchievement (firstSteps false 0)) (newEngine 0).

Definition era (id : string) (active : bool) (multiplier : Q) : Paradigm.t :=
  Paradigm.mk id id "" active multiplier None.

(** A paradigm whose id is the empty string, registered as active. *)
Definition namelessEra : Engine :=
  exec (ParadigmManager.addParadigm (era "" true 2)) (newEngine 0).

(** ... then a second paradigm, and a switch to it. *)
Definition namelessThenBronze : Engine :=
  exec (ParadigmManager.switchTo "bronze")
    (exec (ParadigmManager.addParadigm (era "bronze" false 3)) namelessEra).

(** Sequences of [register]/[switchTo] calls; a call that throws leaves
    the caller free to go on with the next one. *)
Inductive ParadigmCall : Type :=
| Register (p : Paradigm.t)
| SwitchTo (paradigmId : string).

Definition call (c : ParadigmCall) : M unit :=
  match c with
  | Register p => ParadigmManager.addParadigm p
  | SwitchTo paradigmId => ParadigmManager.switchTo paradigmId
  end.

Fixpoint runCalls (cs : list ParadigmCall) (e : Engine) : Engine :=
  match cs with
  | [] => e
  | c :: r => runCalls r (exec (call c) e)
  end.

(** No call registers a paradigm under the empty id. *)
Definition namedCall (c : ParadigmCall) : Prop :=
  match c with
  | Register p => Paradigm.id p <> ""
  | SwitchTo _ => True
  end.

(** The paradigm manager's invariant. *)
Definition paradigmInv (e : Engine) : Prop :=
  uniqueKeys (paradigms e) /\
  ~ registered (paradigms e) "" /\
  (forall k q, JsMap.get (paradigms e) k = Some q ->
               Paradigm.active q = true -> currentParadigm e = Some k) /\
  (forall c, currentParadigm e = Some c ->
             exists p, JsMap.get (paradigms e) c = Some p /\
                       Paradigm.active p = true).

(** [bank 5] with an inactive paradigm registered under the id ["default"]
    and no active paradigm. *)
Definition limbo : Engine :=
  exec (ParadigmManager.addParadigm (era "default" false 2)) (bank 5).



(** [n] clicks on a currency through the engine facade. *)
Fixpoint clicks (n : nat) (currencyId : string) (e : Engine) : Engine :=
  match n with
  | O => e
  | S n' => clicks n' currencyId (exec (ClickerGameEngine.click currencyId None) e)
  end.

(** A full game: gold 120, the sword upgrade at level 2, paradigm
    [bronze] active, one achievement half way, three clicks made. *)
Definition midGame : Engine :=
  clicks 3 "gold"
    (exec (AchievementManager.updateProgress "first-steps" 5)
       (exec (AchievementManager.addAchievement (firstSteps false 0))
          (exec (ParadigmManager.addParadigm (era "bronze" true 2))
             (exec (UpgradeManager.addUpgrade (sword 2)) (bank 114))))).






(** Successive [updateProgress] calls on one achievement. *)
Fixpoint runProgress (ps : list Q) (achievementId : string) (e : Engine) : Engine :=
  match ps with
  | [] => e
  | p :: r =>
      runProgress r achievementId
        (exec (AchievementManager.updateProgress achievementId p) e)
  end.

(** The number of [achievement:unlocked] events for an id in a trace. *)
Definition unlockCount (achievementId : string) (evs : list Event) : nat :=
  List.length
    (List.filter
       (fun ev =>
          match ev with
          | ACHIEVEMENT_UNLOCKED id _ => String.eqb id achievementId
          | _ => false
          end) evs).

(** Whether some reported progress reaches the target. *)
Definition reaches (target : Q) (ps : list Q) : bool :=
  List.existsb (fun p => geb p target) ps.

(** Wall-clock time passing between two calls. *)
Definition advanceClock (ms : Z) (e : Engine) : Engine :=
  mkEngine (currencies e) (upgrades e) (paradigms e) (currentParadigm e)
    (productionRates e) (clickMultipliers e) (achievements e) (stats e)
    (sessionStartTime e) (clickTimeWindow e) (storage e) (totalClicks e)
    (clock e + ms)%Z (emitted e).

(** Tabs. *)
Definition tab (id : string) (visible active : bool) (order : Q) : UITab.t :=
  UITab.mk id id None visible active order None.

Inductive TabCall : Type :=
| AddTab (t : UITab.t)
| SwitchTab (tabId : string).

Definition tabCall (c : TabCall) (s : UIManager.State) : UIManager.State :=
  match c with
  | AddTab t => snd (UIManager.addTab t s)
  | SwitchTab tabId => snd (UIManager.switchTab tabId s)
  end.

Fixpoint runTabCalls (cs : list TabCall) (s : UIManager.State) : UIManager.State :=
  match cs with
  | [] => s
  | c :: r => runTabCalls r (tabCall c s)
  end.

Definition namedTabCall (c : TabCall) : Prop :=
  match c with
  | AddTab t => UITab.id t <> ""
  | SwitchTab _ => True
  end.

(** The tabs whose [active] flag is set. *)
Definition activeTabs (s : UIManager.State) : list (string * UITab.t) :=
  List.filter (fun kv => UITab.active (snd kv)) (UIManager.tabs s).

(** The tab manager's invariant. *)
Definition tabInv (s : UIManager.State) : Prop :=
  uniqueKeys (UIManager.tabs s) /\
  ~ registered (UIManager.tabs s) "" /\
  (forall k t, JsMap.get (UIManager.tabs s) k = Some t ->
               UITab.active t = true -> UIManager.activeTab s = Some k) /\
  (forall c, UIManager.activeTab s = Some c ->
             exists t, JsMap.get (UIManager.tabs s) c = Some t /\
                       UITab.active t = true).

(** Every tab is stored under its own id. *)
Definition tabsKeyedById (s : UIManager.State) : Prop :=
  forall k t, JsMap.get (UIManager.tabs s) k = Some t -> UITab.id t = k.

(** Three tabs, the first one active. *)
Definition threeTabs : UIManager.State :=
  runTabCalls [AddTab (tab "main" true true 2); AddTab (tab "shop" true false 1);
               AddTab (tab "stats" false false 0)] UIManager.new.

(** Event bus observers: the handlers of [l] whose call at [data] ends
    with the handler unsubscribing itself (the wrappers of [once] whose
    observer returns normally), tested against a handler [h]. *)
Definition unsubscribedBy {D : Type} (throws : nat -> D -> bool) (data : D)
    (l : list EventBusObservers.Handler) (h : EventBusObservers.Handler) : bool :=
  List.existsb
    (fun h' =>
       match h' with
       | EventBusObservers.Wrapper _ f =>
           negb (throws f data) && EventBusObservers.same h' h
       | EventBusObservers.Plain _ => false
       end) l.

(** No wrapper numbered [w] or above is subscribed to the event type. *)
Definition wrappersBelow {D : Type} (w : nat) (eventType : string)
    (b : @EventBusObservers.Bus D) : Prop :=
  forall w' f, In (EventBusObservers.Wrapper w' f)
                 (EventBusObservers.subscribers eventType b) -> (w' < w)%nat.

(** Observer 7 always throws; the others return. *)
Definition grumpy (f : nat) (data : string) : bool := Nat.eqb f 7.

(** A bus with observer 1 subscribed to ["tick"], then observers 3 and 7
    subscribed once. *)
Definition busyBus : @EventBusObservers.Bus string :=
  EventBusObservers.once "tick" 7
    (EventBusObservers.once "tick" 3
       (EventBusObservers.on "tick" 1 EventBusObservers.new)).

(** [threeTabs] after switching to the shop tab, the first visible one. *)
Definition shopOpen : UIManager.State :=
  snd (UIManager.switchTab "shop" threeTabs).

(** * Properties *)

(** ** Maps *)

Section JsMapFacts.
Context {V : Type}.
Implicit Types (m : JsMap.t V) (k : string) (v : V).

Lemma get_set_same m k v : JsMap.get (JsMap.set m k v) k = Some v.
Proof.
  induction m as [|[k' v'] r IH]; simpl.
  - now rewrite String.eqb_refl.
  - destruct (String.eqb k k') eqn:E; simpl.
    + now rewrite String.eqb_refl.
    + now rewrite E.
Qed.

Lemma get_set_other m k k' v :
  k <> k' -> JsMap.get (JsMap.set m k v) k' = JsMap.get m k'.
Proof.
  intros Hne. induction m as [|[k0 v0] r IH]; simpl.
  - destruct (String.eqb k' k) eqn:E; [|reflexivity].
    apply String.eqb_eq in E. congruence.
  - destruct (String.eqb k k0) eqn:E; simpl.
    + apply String.eqb_eq in E. subst k0.
      destruct (String.eqb k' k) eqn:E'; [|reflexivity].
      apply String.eqb_eq in E'. congruence.
    + now rewrite IH.
Qed.

Lemma get_set m k k' v :
  JsMap.get (JsMap.set m k v) k' =
  if String.eqb k k' then Some v else JsMap.get m k'.
Proof.
  destruct (String.eqb k k') eqn:E.
  - apply String.eqb_eq in E. subst. apply get_set_same.
  - apply String.eqb_neq in E. now apply get_set_other.
Qed.

Lemma keys_set_present m k v :
  registered m k -> JsMap.keys (JsMap.set m k v) = JsMap.keys m.
Proof.
  unfold registered. induction m as [|[k' v'] r IH]; simpl; intros H.
  - congruence.
  - destruct (String.eqb k k') eqn:E; simpl.
    + apply String.eqb_eq in E. now subst.
    + f_equal. now apply IH.
Qed.

Lemma keys_set_absent m k v :
  JsMap.get m k = None -> JsMap.keys (JsMap.set m k v) = (JsMap.keys m ++ [k])%list.
Proof.
  induction m as [|[k' v'] r IH]; simpl; intros H.
  - reflexivity.
  - destruct (String.eqb k k') eqn:E; [discriminate|].
    simpl. f_equal. now apply IH.
Qed.

Lemma registered_iff_key m k : registered m k <-> In k (JsMap.keys m).
Proof.
  unfold registered. induction m as [|[k' v'] r IH]; simpl.
  - split; [congruence | tauto].
  - destruct (String.eqb k k') eqn:E.
    + apply String.eqb_eq in E. subst. split; [now left | congruence].
    + apply String.eqb_neq in E. rewrite IH. split; [now right|].
      intros [H|H]; [congruence | exact H].
Qed.

Lemma get_None_iff_key m k : JsMap.get m k = None <-> ~ In k (JsMap.keys m).
Proof.
  rewrite <- registered_iff_key. unfold registered.
  destruct (JsMap.get m k); intuition congruence.
Qed.

Lemma set_uniqueKeys m k v : uniqueKeys m -> uniqueKeys (JsMap.set m k v).
Proof.
  unfold uniqueKeys. intros H.
  destruct (JsMap.get m k) eqn:E.
  - rewrite keys_set_present; [exact H | unfold registered; congruence].
  - rewrite keys_set_absent by exact E.
    apply get_None_iff_key in E.
    apply NoDup_app; [exact H | repeat constructor; simpl; tauto |].
    intros x Hx [<-|[]]. tauto.
Qed.

Lemma has_true_iff m k : JsMap.has m k = true <-> registered m k.
Proof.
  unfold JsMap.has, registered. destruct (JsMap.get m k); split; congruence.
Qed.

Lemma get_In m k v : JsMap.get m k = Some v -> In (k, v) m.
Proof.
  induction m as [|[k' v'] r IH]; simpl; [discriminate|].
  destruct (String.eqb k k') eqn:E.
  - apply String.eqb_eq in E. intros [= ->]. subst. now left.
  - intros H. right. now apply IH.
Qed.

Lemma In_get m k v : uniqueKeys m -> In (k, v) m -> JsMap.get m k = Some v.
Proof.
  unfold uniqueKeys. induction m as [|[k' v'] r IH]; simpl; [tauto|].
  intros Hnd [H|H].
  - injection H as -> ->. now rewrite String.eqb_refl.
  - inversion Hnd as [|? ? Hnotin Hnd']; subst.
    destruct (String.eqb k k') eqn:E.
    + apply String.eqb_eq in E. subst. exfalso. apply Hnotin.
      change k' with (fst (k', v)). now apply in_map.
    + now apply IH.
Qed.

End JsMapFacts.

Lemma get_mapValues {V W : Type} (f : V -> W) (m : JsMap.t V) (k : string) :
  JsMap.get (JsMap.mapValues f m) k = option_map f (JsMap.get m k).
Proof.
  induction m as [|[k' v'] r IH]; simpl; [reflexivity|].
  now destruct (String.eqb k k').
Qed.

Lemma keys_mapValues {V W : Type} (f : V -> W) (m : JsMap.t V) :
  JsMap.keys (JsMap.mapValues f m) = JsMap.keys m.
Proof.
  unfold JsMap.keys, JsMap.mapValues. rewrite map_map. reflexivity.
Qed.

(** ** Numbers *)

Lemma geb_true a b : geb a b = true <-> b <= a.
Proof. unfold geb. apply Qle_bool_iff. Qed.

Lemma geb_false a b : geb a b = false <-> a < b.
Proof.
  unfold geb. split; intros H.
  - apply Qnot_le_lt. intros Hle. apply Qle_bool_iff in Hle. congruence.
  - destruct (Qle_bool b a) eqn:E; [|reflexivity].
    apply Qle_bool_iff in E. exfalso. apply (Qlt_not_le _ _ H E).
Qed.

Lemma gtb_true a b : gtb a b = true <-> b < a.
Proof.
  unfold gtb. rewrite negb_true_iff. apply (geb_false b a).
Qed.

Lemma gtb_false a b : gtb a b = false <-> a <= b.
Proof.
  unfold gtb. rewrite negb_false_iff. apply Qle_bool_iff.
Qed.

Lemma max0_nonneg a : 0 <= Math.max 0 a.
Proof. apply Q.le_max_l. Qed.


(** ** Running the currency methods *)

Lemma get_run e id : CurrencyManager.get id e = (Normal (balance e id), e).
Proof. reflexivity. Qed.

Lemma has_run e id a : CurrencyManager.has id a e = (Normal (geb (balance e id) a), e).
Proof. reflexivity. Qed.

Lemma set_run e id c a :
  JsMap.get (currencies e) id = Some c ->
  CurrencyManager.set id a e =
  (Normal tt,
   set_emitted
     (emitted e ++ [CURRENCY_CHANGED id (Currency.amount c) (Math.max 0 a)
                      (Math.max 0 a - Currency.amount c)])
     (set_currencies
        (JsMap.set (currencies e) id (Currency.with_amount c (Math.max 0 a))) e)).
Proof.
  intros H. unfold CurrencyManager.set. cbv [bind read]. now rewrite H.
Qed.

Lemma add_run e id c a :
  JsMap.get (currencies e) id = Some c ->
  CurrencyManager.add id a e =
  (Normal (Currency.amount c + a),
   set_emitted
     (emitted e ++ [CURRENCY_CHANGED id (Currency.amount c) (Currency.amount c + a) a])
     (set_currencies
        (JsMap.set (currencies e) id
           (Currency.with_amount c (Currency.amount c + a))) e)).
Proof.
  intros H. unfold CurrencyManager.add. cbv [bind read]. now rewrite H.
Qed.

Lemma subtract_run e id c a :
  JsMap.get (currencies e) id = Some c ->
  CurrencyManager.subtract id a e =
  (Normal (Math.max 0 (Currency.amount c - a)),
   set_emitted
     (emitted e ++ [CURRENCY_CHANGED id (Currency.amount c)
                      (Math.max 0 (Currency.amount c - a)) (- a)])
     (set_currencies
        (JsMap.set (currencies e) id
           (Currency.with_amount c (Math.max 0 (Currency.amount c - a)))) e)).
Proof.
  intros H. unfold CurrencyManager.subtract. cbv [bind read]. now rewrite H.
Qed.

Lemma unknown_currency_throws e id a :
  JsMap.get (currencies e) id = None ->
  CurrencyManager.set id a e = (Throw ("Currency '" ++ id ++ "' does not exist"), e) /\
  CurrencyManager.add id a e = (Throw ("Currency '" ++ id ++ "' does not exist"), e) /\
  CurrencyManager.subtract id a e = (Throw ("Currency '" ++ id ++ "' does not exist"), e).
Proof.
  intros H. unfold CurrencyManager.set, CurrencyManager.add, CurrencyManager.subtract.
  cbv [bind read]. now rewrite H.
Qed.

(** [set] and [subtract] clamp at zero. *)
Lemma set_clamps e id c a :
  JsMap.get (currencies e) id = Some c ->
  0 <= balance (exec (CurrencyManager.set id a) e) id.
Proof.
  intros H. unfold exec. rewrite (set_run _ _ _ _ H). unfold balance. simpl.
  rewrite get_set_same. simpl. apply max0_nonneg.
Qed.

Lemma subtract_clamps e id c a :
  JsMap.get (currencies e) id = Some c ->
  0 <= balance (exec (CurrencyManager.subtract id a) e) id.
Proof.
  intros H. unfold exec. rewrite (subtract_run _ _ _ _ H). unfold balance. simpl.
  rewrite get_set_same. simpl. apply max0_nonneg.
Qed.

(** [add] keeps a balance non-negative only for a non-negative argument. *)
Lemma add_nonneg e id c a :
  JsMap.get (currencies e) id = Some c ->
  0 <= Currency.amount c -> 0 <= a ->
  0 <= balance (exec (CurrencyManager.add id a) e) id.
Proof.
  intros H Hc Ha. unfold exec. rewrite (add_run _ _ _ _ H). unfold balance. simpl.
  rewrite get_set_same. simpl. lra.
Qed.

(** C1 (as the code behaves): [add] does not clamp.  From a balance of 0,
    [add('gold', -5)] stores and returns -5, a negative amount, whereas
    [set] and [subtract] with the same effect leave 0. *)
Theorem add_negative_amount_is_not_clamped :
  balance (bank 0) "gold" == 0 /\
  result (CurrencyManager.add "gold" (-5)) (bank 0) = Normal (-5) /\
  balance (exec (CurrencyManager.add "gold" (-5)) (bank 0)) "gold" == -5 /\
  balance (exec (CurrencyManager.add "gold" (-5)) (bank 0)) "gold" < 0 /\
  balance (exec (CurrencyManager.subtract "gold" 5) (bank 0)) "gold" == 0 /\
  balance (exec (CurrencyManager.set "gold" (-5)) (bank 0)) "gold" == 0.
Proof. repeat split; vm_compute; reflexivity. Qed.

(** ** Upgrades: cost and purchase *)



(** The backing currency must exist: for a free upgrade on an unregistered
    currency, [has] succeeds on the default balance 0 and [subtract]
    throws. *)
Lemma purchase_unregistered_currency_throws
  (e : Engine) (upgradeId : string) (u : Upgrade.t) :
  JsMap.get (upgrades e) upgradeId = Some u ->
  JsMap.get (currencies e) (Upgrade.currencyId u) = None ->
  UpgradeManager.calculateCost u <= 0 ->
  UpgradeManager.purchase upgradeId e =
  (Throw ("Currency '" ++ Upgrade.currencyId u ++ "' does not exist"), e).
Proof.
  intros Hu Hc Hle. unfold UpgradeManager.purchase. cbv [bind read].
  rewrite Hu, has_run. unfold balance. rewrite Hc. simpl.
  apply geb_true in Hle. rewrite Hle. simpl.
  destruct (unknown_currency_throws e (Upgrade.currencyId u)
              (UpgradeManager.calculateCost u) Hc) as (_ & _ & ->).
  reflexivity.
Qed.

(** ** Achievements *)

Lemma unlockAchievement_run e id a :
  JsMap.get (achievements e) id = Some a ->
  Achievement.unlocked a = false ->
  let a' := Achievement.with_progress (Achievement.with_unlocked a true)
              (Achievement.target a) in
  AchievementManager.unlockAchievement id e =
  (Normal tt,
   set_emitted (emitted e ++ [ACHIEVEMENT_UNLOCKED id a'])
     (set_achievements (JsMap.set (achievements e) id a') e)).
Proof.
  intros Ha Hu a'. unfold AchievementManager.unlockAchievement.
  cbv [bind read]. rewrite Ha, Hu. reflexivity.
Qed.

(** C9 (as the code behaves).  For a registered achievement that is still
    locked, [updateProgress] always ends by emitting [achievement:progress]
    with the progress it was given.  When the progress reaches the target
    the achievement is unlocked first: the flag is set, the stored progress
    becomes the target, and [achievement:unlocked] is emitted before the
    progress event.  Below the target only the progress event is emitted
    and the stored progress is the one given. *)
Theorem updateProgress_events
  (e : Engine) (id : string) (a : Achievement.t) (progress : Q) :
  JsMap.get (achievements e) id = Some a ->
  Achievement.unlocked a = false ->
  let e' := exec (AchievementManager.updateProgress id progress) e in
  result (AchievementManager.updateProgress id progress) e = Normal tt /\
  (Achievement.target a <= progress ->
   exists a',
     JsMap.get (achievements e') id = Some a' /\
     Achievement.unlocked a' = true /\
     Achievement.progress a' = Achievement.target a /\
     emitted e' =
       (emitted e ++
        [ACHIEVEMENT_UNLOCKED id a';
         ACHIEVEMENT_PROGRESS id progress (Achievement.target a)])%list) /\
  (progress < Achievement.target a ->
   exists a',
     JsMap.get (achievements e') id = Some a' /\
     Achievement.unlocked a' = false /\
     Achievement.progress a' = progress /\
     emitted e' =
       (emitted e ++
        [ACHIEVEMENT_PROGRESS id progress (Achievement.target a)])%list).
Proof.
  intros Ha Hu e'. subst e'.
  unfold result, exec, AchievementManager.updateProgress.
  cbv [bind read]. rewrite Ha, Hu.
  cbv [AchievementManager.store modify].
  destruct (geb progress (Achievement.target a)) eqn:Hcmp.
  - rewrite (unlockAchievement_run _ id (Achievement.with_progress a progress)).
    + simpl. split; [reflexivity|]. split.
      * intros _. eexists. rewrite get_set_same.
        split; [reflexivity|]. split; [reflexivity|]. split; [reflexivity|].
        rewrite <- app_assoc. reflexivity.
      * intros Hlt. apply geb_false in Hlt. congruence.
    + simpl. apply get_set_same.
    + exact Hu.
  - simpl. split; [reflexivity|]. split.
    + intros Hle. apply geb_true in Hle. congruence.
    + intros _. eexists. rewrite get_set_same.
      split; [reflexivity|]. split; [exact Hu|]. split; reflexivity.
Qed.

Lemma updateProgress_events_witness :
  result (AchievementManager.updateProgress "first-steps" 4) trophyRoom = Normal tt /\
  emitted (exec (AchievementManager.updateProgress "first-steps" 4) trophyRoom) =
    [ACHIEVEMENT_PROGRESS "first-steps" 4 10].
Proof.
  destruct (updateProgress_events trophyRoom "first-steps" (firstSteps false 0) 4
              eq_refl eq_refl) as (H1 & _ & H3).
  split; [exact H1|].
  destruct H3 as (a' & _ & _ & _ & H); [reflexivity | exact H].
Defined.

(** C9 as stated fails: reaching the target publishes [achievement:progress]
    as well, after [achievement:unlocked]. *)
Lemma updateProgress_unlock_also_publishes_progress :
  JsMap.get (achievements trophyRoom) "first-steps" = Some (firstSteps false 0) /\
  Achievement.unlocked (firstSteps false 0) = false /\
  Achievement.target (firstSteps false 0) <= 10 /\
  emitted (exec (AchievementManager.updateProgress "first-steps" 10) trophyRoom) =
    [ACHIEVEMENT_UNLOCKED "first-steps" (firstSteps true 10);
     ACHIEVEMENT_PROGRESS "first-steps" 10 10] /\
  In (ACHIEVEMENT_PROGRESS "first-steps" 10 10)
     (emitted (exec (AchievementManager.updateProgress "first-steps" 10) trophyRoom)).
Proof.
  split; [reflexivity|]. split; [reflexivity|].
  split; [vm_compute; discriminate|].
  split; [reflexivity|]. right. left. reflexivity.
Qed.

(** Once unlocked, [updateProgress] changes nothing and emits nothing. *)
Lemma updateProgress_unlocked_noop e id a progress :
  JsMap.get (achievements e) id = Some a ->
  Achievement.unlocked a = true ->
  AchievementManager.updateProgress id progress e = (Normal tt, e).
Proof.
  intros Ha Hu. unfold AchievementManager.updateProgress.
  cbv [bind read]. now rewrite Ha, Hu.
Qed.

Lemma duplicate_currency_throws e (c : Currency.t) :
  registered (currencies e) (Currency.id c) ->
  CurrencyManager.addCurrency c e =
  (Throw ("Currency with ID '" ++ Currency.id c ++ "' already exists"), e).
Proof.
  intros H. apply has_true_iff in H.
  unfold CurrencyManager.addCurrency. cbv [bind read]. now rewrite H.
Qed.

Lemma duplicate_upgrade_throws e (u : Upgrade.t) :
  registered (upgrades e) (Upgrade.id u) ->
  UpgradeManager.addUpgrade u e =
  (Throw ("Upgrade with ID '" ++ Upgrade.id u ++ "' already exists"), e).
Proof.
  intros H. apply has_true_iff in H.
  unfold UpgradeManager.addUpgrade. cbv [bind read]. now rewrite H.
Qed.

Lemma duplicate_paradigm_throws e (p : Paradigm.t) :
  registered (paradigms e) (Paradigm.id p) ->
  ParadigmManager.addParadigm p e =
  (Throw ("Paradigm with ID '" ++ Paradigm.id p ++ "' already exists"), e).
Proof.
  intros H. apply has_true_iff in H.
  unfold ParadigmManager.addParadigm. cbv [bind read]. now rewrite H.
Qed.

(** C10. [addAchievement] completes normally in every engine and emits
    nothing; afterwards the achievement stored under the id is the one
    given, so an earlier entry with that id (its unlocked flag and progress
    included) is gone, and no entry is added for it.  Registering a
    currency, an upgrade or a paradigm under an id already in use throws
    and changes nothing. *)
Theorem addAchievement_replaces (e : Engine) (a : Achievement.t) :
  let e' := exec (AchievementManager.addAchievement a) e in
  result (AchievementManager.addAchievement a) e = Normal tt /\
  JsMap.get (achievements e') (Achievement.id a) = Some a /\
  emitted e' = emitted e /\
  (registered (achievements e) (Achievement.id a) ->
   JsMap.keys (achievements e') = JsMap.keys (achievements e)) /\
  (forall c : Currency.t,
     registered (currencies e) (Currency.id c) ->
     exists msg, CurrencyManager.addCurrency c e = (Throw msg, e)) /\
  (forall u : Upgrade.t,
     registered (upgrades e) (Upgrade.id u) ->
     exists msg, UpgradeManager.addUpgrade u e = (Throw msg, e)) /\
  (forall p : Paradigm.t,
     registered (paradigms e) (Paradigm.id p) ->
     exists msg, ParadigmManager.addParadigm p e = (Throw msg, e)).
Proof.
  intros e'. subst e'. unfold result, exec. simpl.
  split; [reflexivity|]. split; [apply get_set_same|]. split; [reflexivity|].
  split; [apply keys_set_present|].
  split; [|split].
  - intros c H. eexists. now apply duplicate_currency_throws.
  - intros u H. eexists. now apply duplicate_upgrade_throws.
  - intros p H. eexists. now apply duplicate_paradigm_throws.
Qed.

(** ** Paradigms *)

(** C5 (as the code behaves).  [switchTo] and [getCurrent] test the current
    id for truthiness, so a paradigm registered under the empty id is never
    seen as current: while it is the only active paradigm, with multiplier
    2, [getCurrentMultiplier] returns 1; and switching away from it does
    not clear its flag, leaving two paradigms active. *)
Theorem empty_id_breaks_single_active_paradigm :
  activeParadigms namelessEra = [("", era "" true 2)] /\
  result ParadigmManager.getCurrentMultiplier namelessEra = Normal 1 /\
  activeParadigms namelessThenBronze =
    [("", era "" true 2); ("bronze", era "bronze" true 3)] /\
  List.length (activeParadigms namelessThenBronze) = 2%nat.
Proof. repeat split. Qed.

Lemma getCurrentMultiplier_run e :
  ParadigmManager.getCurrentMultiplier e =
  (Normal
     (match currentParadigm e with
      | Some c =>
          if truthy_string c
          then nullish (option_map Paradigm.productionMultiplier
                          (JsMap.get (paradigms e) c)) 1
          else 1
      | None => 1
      end), e).
Proof.
  unfold ParadigmManager.getCurrentMultiplier, ParadigmManager.getCurrent.
  cbv [bind read]. destruct (currentParadigm e) as [c|]; [|reflexivity].
  destruct (truthy_string c); reflexivity.
Qed.

Lemma truthy_string_iff s : truthy_string s = true <-> s <> "".
Proof.
  unfold truthy_string. rewrite negb_true_iff. apply String.eqb_neq.
Qed.

Lemma paradigmInv_new now : paradigmInv (newEngine now).
Proof.
  repeat split; simpl; try discriminate.
  - constructor.
  - unfold registered. simpl. tauto.
Qed.

Lemma addParadigm_inv e p :
  Paradigm.id p <> "" -> paradigmInv e ->
  paradigmInv (exec (ParadigmManager.addParadigm p) e).
Proof.
  intros Hid (Huniq & Hnoempty & Hact & Hcur).
  unfold exec, ParadigmManager.addParadigm. cbv [bind read].
  destruct (JsMap.has (paradigms e) (Paradigm.id p)) eqn:Hhas.
  { simpl. repeat split; assumption. }
  assert (Hfresh : JsMap.get (paradigms e) (Paradigm.id p) = None).
  { unfold JsMap.has in Hhas. now destruct (JsMap.get (paradigms e) (Paradigm.id p)). }
  destruct (Paradigm.active p) eqn:Hp; simpl.
  - destruct (currentParadigm e) as [c|] eqn:Hc; simpl.
    + (* another paradigm is current: the flag is forced to false *)
      repeat split; simpl.
      * now apply set_uniqueKeys.
      * unfold registered. rewrite get_set_other by exact Hid. exact Hnoempty.
      * intros k q. rewrite get_set, Hc.
        destruct (String.eqb (Paradigm.id p) k); [intros [= <-]; discriminate|].
        apply Hact.
      * rewrite Hc. intros c' [= <-]. destruct (Hcur c eq_refl) as (q & Hq & Hqa).
        exists q. split; [|exact Hqa]. rewrite get_set_other; [exact Hq|].
        intros <-. congruence.
    + (* the first active paradigm becomes current *)
      repeat split; simpl.
      * now apply set_uniqueKeys.
      * unfold registered. rewrite get_set_other by exact Hid. exact Hnoempty.
      * intros k q. rewrite get_set.
        destruct (String.eqb (Paradigm.id p) k) eqn:E.
        -- apply String.eqb_eq in E. now subst.
        -- intros Hq Hqa. specialize (Hact k q Hq Hqa). congruence.
      * intros c' [= <-]. exists p. rewrite get_set_same. now split.
  - repeat split; simpl.
    + now apply set_uniqueKeys.
    + unfold registered. rewrite get_set_other by exact Hid. exact Hnoempty.
    + intros k q. rewrite get_set.
      destruct (String.eqb (Paradigm.id p) k); [intros [= <-]; congruence|].
      apply Hact.
    + intros c Hc. destruct (Hcur c Hc) as (q & Hq & Hqa).
      exists q. split; [|exact Hqa]. rewrite get_set_other; [exact Hq|].
      intros <-. congruence.
Qed.

Lemma switchTo_inv e id :
  paradigmInv e -> paradigmInv (exec (ParadigmManager.switchTo id) e).
Proof.
  intros (Huniq & Hnoempty & Hact & Hcur).
  unfold exec, ParadigmManager.switchTo. cbv [bind read].
  destruct (JsMap.has (paradigms e) id) eqn:Hhas; simpl.
  2:{ repeat split; assumption. }
  assert (Hreg : registered (paradigms e) id) by now apply has_true_iff.
  assert (Hid : id <> "") by (intros ->; tauto).
  destruct (currentParadigm e) as [c|] eqn:Hc.
  - destruct (Hcur c eq_refl) as (pc & Hpc & Hpca).
    assert (Hcne : c <> "") by (intros ->; apply Hnoempty; unfold registered; congruence).
    apply truthy_string_iff in Hcne. rewrite Hcne, Hpc.
    cbv [ParadigmManager.store modify]. simpl.
    destruct (JsMap.get (JsMap.set (paradigms e) c (Paradigm.with_active pc false)) id)
      as [np|] eqn:Hnp.
    2:{ exfalso. rewrite get_set in Hnp.
        destruct (String.eqb c id); [discriminate | contradiction]. }
    simpl. repeat split; simpl.
    + now do 2 apply set_uniqueKeys.
    + unfold registered. rewrite get_set_other by exact Hid.
      rewrite get_set_other; [exact Hnoempty|].
      now apply truthy_string_iff.
    + intros k q. rewrite get_set.
      destruct (String.eqb id k) eqn:E.
      * apply String.eqb_eq in E. now subst.
      * rewrite get_set. destruct (String.eqb c k) eqn:E'.
        -- intros [= <-]. discriminate.
        -- intros Hq Hqa. specialize (Hact k q Hq Hqa).
           injection Hact as ->. now rewrite String.eqb_refl in E'.
    + intros c' [= <-]. eexists. rewrite get_set_same. now split.
  - cbv [ParadigmManager.store modify]. simpl.
    destruct (JsMap.get (paradigms e) id) as [np|] eqn:Hnp; [|contradiction].
    simpl. repeat split; simpl.
    + now apply set_uniqueKeys.
    + unfold registered. rewrite get_set_other by exact Hid. exact Hnoempty.
    + intros k q. rewrite get_set.
      destruct (String.eqb id k) eqn:E.
      * apply String.eqb_eq in E. now subst.
      * intros Hq Hqa. specialize (Hact k q Hq Hqa). discriminate.
    + intros c' [= <-]. eexists. rewrite get_set_same. now split.
Qed.

Lemma runCalls_inv cs : forall e,
  Forall namedCall cs -> paradigmInv e -> paradigmInv (runCalls cs e).
Proof.
  induction cs as [|c r IH]; intros e Hall Hinv; simpl; [exact Hinv|].
  inversion Hall as [|? ? Hc Hr]; subst.
  apply IH; [exact Hr|].
  destruct c as [p|id]; simpl in *.
  - now apply addParadigm_inv.
  - now apply switchTo_inv.
Qed.

(** In a map with one entry per key, entries that all carry the same key
    are at most one. *)
Lemma same_key_at_most_one {V : Type} (f : string * V -> bool) (c : string) :
  forall m : JsMap.t V,
    uniqueKeys m ->
    (forall kv, In kv (List.filter f m) -> fst kv = c) ->
    (List.length (List.filter f m) <= 1)%nat.
Proof.
  unfold uniqueKeys. induction m as [|[k v] r IH]; simpl; intros Hnd Hall.
  - lia.
  - inversion Hnd as [|? ? Hnotin Hnd']; subst.
    assert (Hrest : forall kv, In kv (List.filter f r) -> fst kv = c).
    { intros kv Hin. apply Hall. destruct (f (k, v)); [now right | exact Hin]. }
    assert (Hhead : f (k, v) = true -> k = c).
    { intros Hf. apply (Hall (k, v)). rewrite Hf. now left. }
    destruct (f (k, v)); simpl.
    + specialize (Hhead eq_refl). subst k.
      assert (Hnone : forall kv, In kv (List.filter f r) -> False).
      { intros kv Hin. apply Hnotin. rewrite <- (Hrest kv Hin).
        apply in_map. apply filter_In in Hin. tauto. }
      destruct (List.filter f r) as [|x l]; [simpl; lia|].
      exfalso. apply (Hnone x). now left.
    + now apply IH.
Qed.

Lemma paradigmInv_at_most_one e :
  paradigmInv e -> (List.length (activeParadigms e) <= 1)%nat.
Proof.
  intros (Huniq & _ & Hact & _). unfold activeParadigms.
  destruct (currentParadigm e) as [c|] eqn:Hc.
  - apply (same_key_at_most_one _ c); [exact Huniq|].
    intros [k q] Hin. apply filter_In in Hin. destruct Hin as (Hin & Hqa).
    simpl in *. apply (In_get _ _ _ Huniq) in Hin.
    specialize (Hact k q Hin Hqa). congruence.
  - destruct (List.filter _ _) as [|[k q] r] eqn:Hf; simpl; [lia|].
    assert (Hin : In (k, q) (List.filter (fun kv => Paradigm.active (snd kv)) (paradigms e)))
      by (rewrite Hf; now left).
    apply filter_In in Hin. destruct Hin as (Hin & Hqa). simpl in *.
    apply (In_get _ _ _ Huniq) in Hin.
    specialize (Hact k q Hin Hqa). discriminate.
Qed.

Lemma paradigmInv_multiplier e :
  paradigmInv e ->
  (activeParadigms e = [] ->
   result ParadigmManager.getCurrentMultiplier e = Normal 1) /\
  (forall k p, In (k, p) (activeParadigms e) ->
   result ParadigmManager.getCurrentMultiplier e =
   Normal (Paradigm.productionMultiplier p)).
Proof.
  intros (Huniq & Hnoempty & Hact & Hcur).
  unfold result. rewrite getCurrentMultiplier_run. simpl. split.
  - intros Hnone. destruct (currentParadigm e) as [c|] eqn:Hc; [|reflexivity].
    destruct (Hcur c eq_refl) as (p & Hp & Hpa).
    assert (Hin : In (c, p) (activeParadigms e)).
    { unfold activeParadigms. apply filter_In. split; [now apply get_In | exact Hpa]. }
    rewrite Hnone in Hin. contradiction.
  - intros k p Hin. unfold activeParadigms in Hin.
    apply filter_In in Hin. destruct Hin as (Hin & Hpa). simpl in Hpa.
    apply (In_get _ _ _ Huniq) in Hin.
    rewrite (Hact k p Hin Hpa).
    assert (Hk : k <> "") by (intros ->; apply Hnoempty; unfold registered; congruence).
    apply truthy_string_iff in Hk. rewrite Hk, Hin. reflexivity.
Qed.

(** X6. The single-active-paradigm property, for paradigms with non-empty ids:
    after any sequence of [register]/[switchTo] calls on a new engine, at
    most one paradigm is flagged active, and [getCurrentMultiplier] is that
    paradigm's multiplier, or 1 when none is. *)
Theorem named_paradigms_single_active (now : Z) (cs : list ParadigmCall) :
  Forall namedCall cs ->
  let e := runCalls cs (newEngine now) in
  (List.length (activeParadigms e) <= 1)%nat /\
  (activeParadigms e = [] ->
   result ParadigmManager.getCurrentMultiplier e = Normal 1) /\
  (forall k p, In (k, p) (activeParadigms e) ->
   result ParadigmManager.getCurrentMultiplier e =
   Normal (Paradigm.productionMultiplier p)).
Proof.
  intros Hall e.
  assert (Hinv : paradigmInv e)
    by (apply runCalls_inv; [exact Hall | apply paradigmInv_new]).
  split; [now apply paradigmInv_at_most_one | now apply paradigmInv_multiplier].
Qed.

Lemma named_paradigms_single_active_witness :
  let cs := [Register (era "stone" true 1); Register (era "bronze" true 3);
             SwitchTo "bronze"; SwitchTo "iron"] in
  Forall namedCall cs /\
  (List.length (activeParadigms (runCalls cs (newEngine 0))) <= 1)%nat /\
  result ParadigmManager.getCurrentMultiplier (runCalls cs (newEngine 0)) =
  Normal (Paradigm.productionMultiplier (era "bronze" true 3)).
Proof.
  intros cs.
  assert (Hnamed : Forall namedCall cs) by (repeat constructor; discriminate).
  split; [exact Hnamed|].
  pose proof (named_paradigms_single_active 0 cs Hnamed) as H. cbv zeta in H.
  destruct H as (H1 & _ & H3). split; [exact H1|].
  apply (H3 "bronze"). vm_compute. left. reflexivity.
Defined.

(** ** Production *)

Lemma engine_eta e :
  set_emitted (emitted e ++ []) (set_currencies (currencies e) e) = e.
Proof. destruct e. unfold set_emitted, set_currencies. simpl. now rewrite app_nil_r. Qed.

Lemma registered_set {V : Type} (m : JsMap.t V) k k' v :
  registered m k' -> registered (JsMap.set m k v) k'.
Proof.
  unfold registered. rewrite get_set. now destruct (String.eqb k k').
Qed.

Lemma getCurrentMultiplier_value e :
  ParadigmManager.getCurrentMultiplier e = (Normal (currentMultiplier e), e).
Proof. apply getCurrentMultiplier_run. Qed.

(** ** Saving and loading *)

Lemma get_cons {V : Type} (k : string) (v : V) (m : JsMap.t V) (id : string) :
  JsMap.get ((k, v) :: m) id = if String.eqb id k then Some v else JsMap.get m id.
Proof. reflexivity. Qed.

Lemma registered_cons {V : Type} (k : string) (v : V) (m : JsMap.t V) (id : string) :
  registered m id -> registered ((k, v) :: m) id.
Proof.
  unfold registered. rewrite get_cons. now destruct (String.eqb id k).
Qed.

Lemma registered_head {V : Type} (k : string) (v : V) (m : JsMap.t V) :
  registered ((k, v) :: m) k.
Proof.
  unfold registered. rewrite get_cons, String.eqb_refl. discriminate.
Qed.

Lemma uniqueKeys_cons {V : Type} (k : string) (v : V) (m : JsMap.t V) :
  uniqueKeys ((k, v) :: m) -> JsMap.get m k = None /\ uniqueKeys m.
Proof.
  unfold uniqueKeys. simpl. intros H. inversion H; subst.
  split; [now apply get_None_iff_key | assumption].
Qed.

(** The first loop of [load]: each saved amount is written with [set]. *)
Lemma restore_currencies : forall (saved : JsMap.t Q) (e : Engine),
  uniqueKeys saved ->
  (forall k, registered saved k -> registered (currencies e) k) ->
  exists cs' evs,
    forEach (fun entry => CurrencyManager.set (fst entry) (snd entry)) saved e =
      (Normal tt, set_emitted (emitted e ++ evs) (set_currencies cs' e)) /\
    Forall isCurrencyChanged evs /\
    JsMap.keys cs' = JsMap.keys (currencies e) /\
    forall id,
      JsMap.get cs' id =
      match JsMap.get saved id with
      | Some a =>
          option_map (fun c => Currency.with_amount c (Math.max 0 a))
            (JsMap.get (currencies e) id)
      | None => JsMap.get (currencies e) id
      end.
Proof.
  induction saved as [|[k a] rest IH]; intros e Huniq Hreg.
  - exists (currencies e), []. simpl. unfold ret. rewrite engine_eta.
    repeat split. constructor.
  - apply uniqueKeys_cons in Huniq. destruct Huniq as (Hfresh & Huniq).
    pose proof (Hreg k (registered_head k a rest)) as Hk. unfold registered in Hk.
    destruct (JsMap.get (currencies e) k) as [c|] eqn:Hc; [|contradiction].
    simpl. cbv [bind]. rewrite (set_run _ _ _ _ Hc).
    set (c' := Currency.with_amount c (Math.max 0 a)).
    set (ev := CURRENCY_CHANGED k (Currency.amount c) (Math.max 0 a)
                 (Math.max 0 a - Currency.amount c)).
    set (e1 := set_emitted (emitted e ++ [ev])
                 (set_currencies (JsMap.set (currencies e) k c') e)).
    destruct (IH e1 Huniq) as (cs' & evs & Hrun & Hevs & Hkeys & Hget).
    { intros k' Hk'. subst e1. simpl. apply registered_set.
      apply Hreg. now apply registered_cons. }
    exists cs', (ev :: evs). rewrite Hrun. subst e1. simpl.
    split; [|split; [|split]].
    + unfold set_emitted, set_currencies. simpl. rewrite <- app_assoc. reflexivity.
    + constructor; [exact I | exact Hevs].
    + rewrite Hkeys. simpl. apply keys_set_present. unfold registered. congruence.
    + intros id. rewrite (Hget id). simpl. rewrite get_set.
      destruct (String.eqb id k) eqn:E.
      * apply String.eqb_eq in E. subst id.
        now rewrite String.eqb_refl, Hfresh, Hc.
      * now rewrite String.eqb_sym, E.
Qed.

Lemma setLevel_run e id u level :
  JsMap.get (upgrades e) id = Some u ->
  UpgradeManager.setLevel id level e =
  (Normal tt,
   set_upgrades (JsMap.set (upgrades e) id (Upgrade.with_level u (Z.max 0 level))) e).
Proof.
  intros H. unfold UpgradeManager.setLevel. cbv [bind read]. now rewrite H.
Qed.

Lemma setLevel_unknown_throws e id level :
  JsMap.get (upgrades e) id = None ->
  UpgradeManager.setLevel id level e =
  (Throw ("Upgrade '" ++ id ++ "' does not exist"), e).
Proof.
  intros H. unfold UpgradeManager.setLevel. cbv [bind read]. now rewrite H.
Qed.

Lemma upgrades_eta e : set_upgrades (upgrades e) e = e.
Proof. now destruct e. Qed.

(** The second loop of [load]: each saved level is written with [setLevel]. *)
Lemma restore_upgrades : forall (saved : JsMap.t Z) (e : Engine),
  uniqueKeys saved ->
  (forall k, registered saved k -> registered (upgrades e) k) ->
  exists us',
    forEach (fun entry => UpgradeManager.setLevel (fst entry) (snd entry)) saved e =
      (Normal tt, set_upgrades us' e) /\
    JsMap.keys us' = JsMap.keys (upgrades e) /\
    forall id,
      JsMap.get us' id =
      match JsMap.get saved id with
      | Some l =>
          option_map (fun u => Upgrade.with_level u (Z.max 0 l))
            (JsMap.get (upgrades e) id)
      | None => JsMap.get (upgrades e) id
      end.
Proof.
  induction saved as [|[k l] rest IH]; intros e Huniq Hreg.
  - exists (upgrades e). simpl. unfold ret. rewrite upgrades_eta. repeat split.
  - apply uniqueKeys_cons in Huniq. destruct Huniq as (Hfresh & Huniq).
    pose proof (Hreg k (registered_head k l rest)) as Hk. unfold registered in Hk.
    destruct (JsMap.get (upgrades e) k) as [u|] eqn:Hu; [|contradiction].
    simpl. cbv [bind]. rewrite (setLevel_run _ _ _ _ Hu).
    set (u' := Upgrade.with_level u (Z.max 0 l)).
    set (e1 := set_upgrades (JsMap.set (upgrades e) k u') e).
    destruct (IH e1 Huniq) as (us' & Hrun & Hkeys & Hget).
    { intros k' Hk'. subst e1. simpl. apply registered_set.
      apply Hreg. now apply registered_cons. }
    exists us'. rewrite Hrun. subst e1. simpl.
    split; [reflexivity|]. split.
    + rewrite Hkeys. simpl. apply keys_set_present. unfold registered. congruence.
    + intros id. rewrite (Hget id). simpl. rewrite get_set.
      destruct (String.eqb id k) eqn:E.
      * apply String.eqb_eq in E. subst id.
        now rewrite String.eqb_refl, Hfresh, Hu.
      * now rewrite String.eqb_sym, E.
Qed.

Lemma achievements_eta e : set_achievements (achievements e) e = e.
Proof. now destruct e. Qed.

(** [deserialize]: a saved entry overwrites the flag and the progress of
    the achievement registered under its id, and is skipped when there is
    none. *)
Lemma deserialize_run : forall (saved : JsMap.t AchievementState.t) (e : Engine),
  uniqueKeys saved ->
  exists acs',
    AchievementManager.deserialize saved e = (Normal tt, set_achievements acs' e) /\
    JsMap.keys acs' = JsMap.keys (achievements e) /\
    forall id,
      JsMap.get acs' id =
      match JsMap.get saved id with
      | Some d =>
          option_map
            (fun a =>
               Achievement.with_progress
                 (Achievement.with_unlocked a (AchievementState.unlocked d))
                 (AchievementState.progress d))
            (JsMap.get (achievements e) id)
      | None => JsMap.get (achievements e) id
      end.
Proof.
  unfold AchievementManager.deserialize.
  induction saved as [|[k d] rest IH]; intros e Huniq.
  - exists (achievements e). simpl. unfold ret. rewrite achievements_eta. repeat split.
  - apply uniqueKeys_cons in Huniq. destruct Huniq as (Hfresh & Huniq).
    simpl. cbv [bind read].
    destruct (JsMap.get (achievements e) k) as [a|] eqn:Ha.
    + cbv [AchievementManager.store modify].
      set (a' := Achievement.with_progress
                   (Achievement.with_unlocked a (AchievementState.unlocked d))
                   (AchievementState.progress d)).
      set (e1 := set_achievements (JsMap.set (achievements e) k a') e).
      destruct (IH e1 Huniq) as (acs' & Hrun & Hkeys & Hget).
      exists acs'. rewrite Hrun. subst e1. simpl.
      split; [reflexivity|]. split.
      * rewrite Hkeys. simpl. apply keys_set_present. unfold registered. congruence.
      * intros id. rewrite (Hget id). simpl. rewrite get_set.
        destruct (String.eqb id k) eqn:E.
        -- apply String.eqb_eq in E. subst id.
           now rewrite String.eqb_refl, Hfresh, Ha.
        -- now rewrite String.eqb_sym, E.
    + cbv [ret]. destruct (IH e Huniq) as (acs' & Hrun & Hkeys & Hget).
      exists acs'. rewrite Hrun. split; [reflexivity|]. split; [exact Hkeys|].
      intros id. rewrite (Hget id).
      destruct (String.eqb id k) eqn:E; [|reflexivity].
      apply String.eqb_eq in E. subst id. now rewrite Hfresh, Ha.
Qed.

Lemma getCurrent_run e : ParadigmManager.getCurrent e = (Normal (currentOf e), e).
Proof.
  unfold ParadigmManager.getCurrent, currentOf. cbv [bind read].
  destruct (currentParadigm e) as [c|]; [|reflexivity].
  now destruct (truthy_string c).
Qed.

(** [switchTo] when no current paradigm has to be deactivated. *)
Ltac plain_switch e id np Hnp :=
  cbv [ret ParadigmManager.store modify EventBus.emit bind]; simpl; rewrite Hnp;
  exists (JsMap.set (paradigms e) id (Paradigm.with_active np true)), np;
  split; [reflexivity|];
  split; [apply get_set_same
         | apply keys_set_present; unfold registered; congruence].

(** [switchTo] a registered paradigm: it becomes the current one, flagged
    active, and one [paradigm:changed] is emitted. *)
Lemma switchTo_run e id :
  registered (paradigms e) id ->
  exists ps' np,
    ParadigmManager.switchTo id e =
      (Normal tt,
       set_emitted
         (emitted e ++ [PARADIGM_CHANGED id (Paradigm.name np)
                          (Paradigm.productionMultiplier np)])
         (set_currentParadigm (Some id) (set_paradigms ps' e))) /\
    JsMap.get ps' id = Some (Paradigm.with_active np true) /\
    JsMap.keys ps' = JsMap.keys (paradigms e).
Proof.
  intros Hreg. pose proof Hreg as Hhas. apply has_true_iff in Hhas.
  unfold ParadigmManager.switchTo. cbv [bind read]. rewrite Hhas. simpl.
  assert (Hplain : exists np, JsMap.get (paradigms e) id = Some np).
  { unfold registered in Hreg. destruct (JsMap.get (paradigms e) id) as [np|]; [|contradiction].
    now exists np. }
  destruct Hplain as (np0 & Hnp0).
  destruct (currentParadigm e) as [c|]; [|plain_switch e id np0 Hnp0].
  destruct (truthy_string c); [|plain_switch e id np0 Hnp0].
  destruct (JsMap.get (paradigms e) c) as [current|] eqn:Hc;
    [|plain_switch e id np0 Hnp0].
  cbv [ParadigmManager.store modify]. simpl.
  set (ps1 := JsMap.set (paradigms e) c (Paradigm.with_active current false)).
  assert (Hreg1 : registered ps1 id) by (subst ps1; now apply registered_set).
  unfold registered in Hreg1.
  destruct (JsMap.get ps1 id) as [np|] eqn:Hnp; [|contradiction].
  exists (JsMap.set ps1 id (Paradigm.with_active np true)), np.
  split; [reflexivity|]. split; [apply get_set_same|].
  rewrite keys_set_present by (unfold registered; congruence).
  subst ps1. apply keys_set_present. unfold registered. congruence.
Qed.

Lemma load_run e key st acs s :
  JsMap.get (storage e) key = Some st ->
  GameState.achievements st = Some acs ->
  GameState.statistics st = Some s ->
  uniqueKeys (GameState.currencies st) ->
  uniqueKeys (GameState.upgrades st) ->
  uniqueKeys acs ->
  (forall k, registered (GameState.currencies st) k -> registered (currencies e) k) ->
  (forall k, registered (GameState.upgrades st) k -> registered (upgrades e) k) ->
  exists e2,
    StateManager.load key e = (Normal (Some st), e2) /\
    (forall id,
       JsMap.get (currencies e2) id =
       match JsMap.get (GameState.currencies st) id with
       | Some a =>
           option_map (fun c => Currency.with_amount c (Math.max 0 a))
             (JsMap.get (currencies e) id)
       | None => JsMap.get (currencies e) id
       end) /\
    (forall id,
       JsMap.get (upgrades e2) id =
       match JsMap.get (GameState.upgrades st) id with
       | Some l =>
           option_map (fun u => Upgrade.with_level u (Z.max 0 l))
             (JsMap.get (upgrades e) id)
       | None => JsMap.get (upgrades e) id
       end) /\
    currentParadigm e2 =
      (if truthy_string (GameState.currentParadigm st)
          && JsMap.has (paradigms e) (GameState.currentParadigm st)
       then Some (GameState.currentParadigm st)
       else currentParadigm e) /\
    (forall id,
       JsMap.get (achievements e2) id =
       match JsMap.get acs id with
       | Some d =>
           option_map
             (fun a =>
                Achievement.with_progress
                  (Achievement.with_unlocked a (AchievementState.unlocked d))
                  (AchievementState.progress d))
             (JsMap.get (achievements e) id)
       | None => JsMap.get (achievements e) id
       end) /\
    stats e2 = s /\
    storage e2 = storage e /\
    totalClicks e2 = totalClicks e /\
    exists evs,
      emitted e2 = (emitted e ++ evs ++ [STATE_LOADED key (GameState.timestamp st)])%list.
Proof.
  intros Hst Hacs Hs Ucs Uus Uacs Rcs Rus.
  unfold StateManager.load. cbv [try_catch bind MemoryStorageAdapter.load read ret].
  rewrite Hst.
  destruct (restore_currencies _ e Ucs Rcs) as (cs' & evs & Hrun1 & Hevs & Hk1 & Hg1).
  rewrite Hrun1.
  destruct (restore_upgrades _ (set_emitted (emitted e ++ evs) (set_currencies cs' e))
              Uus Rus) as (us' & Hrun2 & Hk2 & Hg2).
  rewrite Hrun2. cbv [ParadigmManager.isAvailable bind read ret].
  rewrite Hacs, Hs.
  change (paradigms (set_upgrades us' (set_emitted (emitted e ++ evs) (set_currencies cs' e))))
    with (paradigms e).
  destruct (truthy_string (GameState.currentParadigm st)
            && JsMap.has (paradigms e) (GameState.currentParadigm st)) eqn:Hsw.
  - apply andb_true_iff in Hsw. destruct Hsw as (_ & Hhas).
    apply has_true_iff in Hhas.
    destruct (switchTo_run
                (set_upgrades us' (set_emitted (emitted e ++ evs) (set_currencies cs' e)))
                (GameState.currentParadigm st) Hhas) as (ps' & np & Hrun3 & _ & _).
    rewrite Hrun3.
    match goal with
    | |- context [AchievementManager.deserialize acs ?E] =>
        destruct (deserialize_run acs E Uacs) as (acs' & Hrun4 & Hk4 & Hg4)
    end.
    rewrite Hrun4.
    cbv [StatisticsManager.deserialize bind modify Date_now read EventBus.emit].
    eexists. split; [reflexivity|]. simpl.
    split; [exact Hg1|]. split; [exact Hg2|]. split; [reflexivity|].
    split; [exact Hg4|]. split; [reflexivity|]. split; [reflexivity|].
    split; [reflexivity|].
    exists (evs ++ [PARADIGM_CHANGED (GameState.currentParadigm st) (Paradigm.name np)
                      (Paradigm.productionMultiplier np)])%list.
    rewrite <- !app_assoc. reflexivity.
  - match goal with
    | |- context [AchievementManager.deserialize acs ?E] =>
        destruct (deserialize_run acs E Uacs) as (acs' & Hrun4 & Hk4 & Hg4)
    end.
    rewrite Hrun4.
    cbv [StatisticsManager.deserialize bind modify Date_now read EventBus.emit].
    eexists. split; [reflexivity|]. simpl.
    split; [exact Hg1|]. split; [exact Hg2|]. split; [reflexivity|].
    split; [exact Hg4|]. split; [reflexivity|]. split; [reflexivity|].
    split; [reflexivity|].
    exists evs. rewrite <- !app_assoc. reflexivity.
Qed.

Lemma snapshot_run custom e :
  exists s',
    StateManager.snapshot custom e =
    (Normal
       (GameState.mk (clock e)
          (JsMap.mapValues Currency.amount (currencies e))
          (JsMap.mapValues Upgrade.level (upgrades e))
          (nullish (option_map Paradigm.id (currentOf e)) "default")
          0
          (Some (JsMap.mapValues
                   (fun a => AchievementState.mk (Achievement.unlocked a)
                               (Achievement.progress a))
                   (achievements e)))
          (Some s') custom),
     set_sessionStartTime (clock e) (set_stats s' e)).
Proof.
  unfold StateManager.snapshot. cbv [bind]. rewrite getCurrent_run.
  eexists. reflexivity.
Qed.

Lemma save_run key custom e :
  exists s',
    let st :=
      GameState.mk (clock e)
        (JsMap.mapValues Currency.amount (currencies e))
        (JsMap.mapValues Upgrade.level (upgrades e))
        (nullish (option_map Paradigm.id (currentOf e)) "default")
        0
        (Some (JsMap.mapValues
                 (fun a => AchievementState.mk (Achievement.unlocked a)
                             (Achievement.progress a))
                 (achievements e)))
        (Some s') custom in
    StateManager.save key custom e =
    (Normal tt,
     set_emitted (emitted e ++ [STATE_SAVED key (clock e)])
       (set_storage (JsMap.set (storage e) key st)
          (set_sessionStartTime (clock e) (set_stats s' e)))).
Proof.
  destruct (snapshot_run custom e) as (s' & Hsnap). exists s'.
  unfold StateManager.save. cbv [try_catch bind]. rewrite Hsnap. reflexivity.
Qed.

Lemma uniqueKeys_mapValues {V W : Type} (f : V -> W) (m : JsMap.t V) :
  uniqueKeys m -> uniqueKeys (JsMap.mapValues f m).
Proof. unfold uniqueKeys. now rewrite keys_mapValues. Qed.

Lemma registered_mapValues {V W : Type} (f : V -> W) (m : JsMap.t V) k :
  registered (JsMap.mapValues f m) k -> registered m k.
Proof.
  unfold registered. rewrite get_mapValues. destruct (JsMap.get m k); simpl; congruence.
Qed.



Lemma singleton_uniqueKeys {V : Type} (k : string) (v : V) : uniqueKeys [(k, v)].
Proof. unfold uniqueKeys. simpl. repeat constructor. simpl. tauto. Qed.



(** In every engine, the snapshot's [totalClicks] field is 0 and its
    [custom] field is the bag that was passed. *)
Lemma snapshot_totalClicks_constant (e : Engine) (custom : option (JsMap.t Q)) :
  exists st, result (StateManager.snapshot custom) e = Normal st /\
             GameState.totalClicks st = 0 /\
             GameState.custom st = custom.
Proof.
  destruct (snapshot_run custom e) as (s' & Hsnap).
  eexists. unfold result. rewrite Hsnap. cbn [fst]. repeat split.
Qed.

(** C8 (as the code behaves).  [snapshot] writes the constant 0 in the
    [totalClicks] field: after three clicks the engine's counter is 3 and
    the snapshot's field is 0.  The counter travels in [custom.totalClicks]
    instead, and [loadGame] restores it only when it is non-zero: a game
    saved at 0 clicks and loaded after two more clicks keeps the counter
    at 2, while one saved at 3 clicks goes back to 3. *)
Theorem snapshot_totalClicks_field_is_zero :
  result ClickerGameEngine.getTotalClicks midGame = Normal 3 /\
  (exists st, result (StateManager.snapshot None) midGame = Normal st /\
              GameState.totalClicks st = 0) /\
  totalClicks (exec (ClickerGameEngine.loadGame "slot")
                 (clicks 2 "gold" (exec (ClickerGameEngine.saveGame "slot") (bank 0))))
  = 2 /\
  totalClicks (exec (ClickerGameEngine.loadGame "slot")
                 (clicks 2 "gold" (exec (ClickerGameEngine.saveGame "slot") midGame)))
  = 3.
Proof.
  split; [vm_compute; reflexivity|].
  split.
  { destruct (snapshot_totalClicks_constant midGame None) as (st' & Hst' & Hzero & _).
    exists st'. split; [exact Hst' | exact Hzero]. }
  split; vm_compute; reflexivity.
Qed.

Lemma addAchievement_replaces_witness :
  let e := exec (AchievementManager.updateProgress "first-steps" 10) trophyRoom in
  JsMap.get (achievements e) "first-steps" = Some (firstSteps true 10) /\
  registered (achievements e) (Achievement.id (firstSteps false 0)) /\
  result (AchievementManager.addAchievement (firstSteps false 0)) e = Normal tt /\
  JsMap.get (achievements (exec (AchievementManager.addAchievement (firstSteps false 0)) e))
    (Achievement.id (firstSteps false 0)) = Some (firstSteps false 0) /\
  JsMap.keys (achievements (exec (AchievementManager.addAchievement (firstSteps false 0)) e))
  = JsMap.keys (achievements e).
Proof.
  intros e.
  assert (Hold : JsMap.get (achievements e) "first-steps" = Some (firstSteps true 10))
    by (vm_compute; reflexivity).
  assert (Hreg : registered (achievements e) (Achievement.id (firstSteps false 0)))
    by (vm_compute; discriminate).
  split; [exact Hold|]. split; [exact Hreg|].
  pose proof (addAchievement_replaces e (firstSteps false 0)) as H. cbv zeta in H.
  destruct H as (H1 & H2 & _ & H4 & _).
  split; [exact H1|]. split; [exact H2 | exact (H4 Hreg)].
Defined.

(** ** Costs, purchases and production in binary64 *)

Section Binary64Facts.

Import PrimFloat.
#[local] Set Warnings "-inexact-float".

Lemma get_run64 e id :
  Binary64.CurrencyManager.get id e = (Normal (Binary64.balance e id), e).
Proof. reflexivity. Qed.

Lemma has_run64 e id a :
  Binary64.CurrencyManager.has id a e
  = (Normal (Binary64.geb (Binary64.balance e id) a), e).
Proof. reflexivity. Qed.

Lemma add_run64 e id a c :
  JsMap.get (Binary64.currencies e) id = Some c ->
  Binary64.CurrencyManager.add id a e =
  (Normal (Binary64.Currency.amount c + a)%float,
   Binary64.set_emitted
     (Binary64.emitted e ++
      [Binary64.CURRENCY_CHANGED id (Binary64.Currency.amount c)
         (Binary64.Currency.amount c + a)%float a])%list
     (Binary64.set_currencies
        (JsMap.set (Binary64.currencies e) id
           (Binary64.Currency.with_amount c (Binary64.Currency.amount c + a)%float)) e)).
Proof.
  intros Hc. unfold Binary64.CurrencyManager.add.
  cbv [Binary64.bind Binary64.read]. rewrite Hc. reflexivity.
Qed.

Lemma subtract_run64 e id a c :
  JsMap.get (Binary64.currencies e) id = Some c ->
  Binary64.CurrencyManager.subtract id a e =
  (Normal (Binary64.Math.max 0%float (Binary64.Currency.amount c - a)%float),
   Binary64.set_emitted
     (Binary64.emitted e ++
      [Binary64.CURRENCY_CHANGED id (Binary64.Currency.amount c)
         (Binary64.Math.max 0%float (Binary64.Currency.amount c - a)%float) (- a)%float])%list
     (Binary64.set_currencies
        (JsMap.set (Binary64.currencies e) id
           (Binary64.Currency.with_amount c
              (Binary64.Math.max 0%float (Binary64.Currency.amount c - a)%float))) e)).
Proof.
  intros Hc. unfold Binary64.CurrencyManager.subtract.
  cbv [Binary64.bind Binary64.read]. rewrite Hc. reflexivity.
Qed.

Lemma unknown_currency_throws64 e id a :
  JsMap.get (Binary64.currencies e) id = None ->
  Binary64.CurrencyManager.add id a e
  = (Throw ("Currency '" ++ id ++ "' does not exist"), e) /\
  Binary64.CurrencyManager.subtract id a e
  = (Throw ("Currency '" ++ id ++ "' does not exist"), e).
Proof.
  intros Hc. unfold Binary64.CurrencyManager.add, Binary64.CurrencyManager.subtract.
  cbv [Binary64.bind Binary64.read]. rewrite Hc. split; reflexivity.
Qed.

Lemma getCurrentMultiplier_run64 e :
  Binary64.ParadigmManager.getCurrentMultiplier e
  = (Normal (Binary64.currentMultiplier e), e).
Proof.
  unfold Binary64.ParadigmManager.getCurrentMultiplier,
    Binary64.ParadigmManager.getCurrent, Binary64.currentMultiplier.
  cbv [Binary64.bind Binary64.read].
  destruct (Binary64.currentParadigm e) as [c|]; [|reflexivity].
  destruct (truthy_string c); reflexivity.
Qed.

(** *** The cost of an upgrade *)

(** C3. The cost of a scalable upgrade is [Math.ceil] of the binary64
    product [cost * Math.pow(scaleFactor, level)] (factor 1.15 when none
    is given), the power and the product each rounded; the cost of an
    upgrade that is not scalable is its base cost at every level.  With
    base cost 100 and factor 1.15 the cost is 100, 115 and 133 at levels
    0, 1 and 2. *)
Theorem calculateCost_binary64 (u : Binary64.Upgrade.t) :
  (Binary64.Upgrade.scalable u = Some true ->
   Binary64.UpgradeManager.calculateCost u
   = Binary64.Math.ceil
       (Binary64.Upgrade.cost u
        * Binary64.Math.pow (nullish (Binary64.Upgrade.scaleFactor u) 1.15%float)
            (Binary64.Upgrade.level u))%float) /\
  (Binary64.Upgrade.scalable u <> Some true ->
   forall l : Z,
     Binary64.UpgradeManager.calculateCost (Binary64.Upgrade.with_level u l)
     = Binary64.Upgrade.cost u) /\
  (Binary64.Upgrade.scalable u = Some true -> Binary64.Upgrade.cost u = 100%float ->
   Binary64.Upgrade.scaleFactor u = Some 1.15%float ->
   (Binary64.Upgrade.level u = 0%Z ->
    Binary64.UpgradeManager.calculateCost u = 100%float) /\
   (Binary64.Upgrade.level u = 1%Z ->
    Binary64.UpgradeManager.calculateCost u = 115%float) /\
   (Binary64.Upgrade.level u = 2%Z ->
    Binary64.UpgradeManager.calculateCost u = 133%float)).
Proof.
  unfold Binary64.UpgradeManager.calculateCost. split; [|split].
  - intros ->. reflexivity.
  - intros Hns l. simpl.
    destruct (Binary64.Upgrade.scalable u) as [[|]|]; simpl; congruence.
  - intros Hs Hc Hf. rewrite Hs, Hc, Hf.
    repeat split; intros ->; vm_compute; reflexivity.
Qed.

Lemma calculateCost_binary64_witness :
  Binary64.Upgrade.scalable (Binary64.sword 100%float (Some 1.15%float) 2) = Some true /\
  Binary64.Upgrade.cost (Binary64.sword 100%float (Some 1.15%float) 2) = 100%float /\
  Binary64.Upgrade.scaleFactor (Binary64.sword 100%float (Some 1.15%float) 2)
  = Some 1.15%float /\
  Binary64.Upgrade.level (Binary64.sword 100%float (Some 1.15%float) 2) = 2%Z /\
  Binary64.UpgradeManager.calculateCost
    (Binary64.sword 100%float (Some 1.15%float) 2) = 133%float.
Proof.
  do 4 (split; [reflexivity|]).
  destruct (calculateCost_binary64 (Binary64.sword 100%float (Some 1.15%float) 2))
    as (_ & _ & H).
  apply H; reflexivity.
Defined.

(** The cost is not the ceiling of the exact product.  At base cost 10
    and factor 1.1, level 1, the exact product of the two numbers is
    above 11 (the number [1.1] is the binary64 value just above 11/10)
    and its ceiling is 12; the code rounds the product to 11 before
    [Math.ceil] and returns 11.  At base cost 100 the code returns 111,
    where the ceiling of [100 * 11/10] is 110. *)
Lemma calculateCost_rounds_before_ceil :
  let u := Binary64.sword 10%float (Some 1.1%float) 1 in
  let factor := 2476979795053773 # 2251799813685248 in
  Binary64.realValue (Binary64.Upgrade.cost u) = Some 10 /\
  Binary64.realValue 1.1%float = Some factor /\
  Binary64.realValue (Binary64.UpgradeManager.calculateCost u) = Some 11 /\
  Math.ceil (10 * Math.pow factor 1) == 12 /\
  ~ 11 == Math.ceil (10 * Math.pow factor 1) /\
  Binary64.UpgradeManager.calculateCost
    (Binary64.sword 100%float (Some 1.1%float) 1) = 111%float /\
  Binary64.realValue 111%float = Some 111 /\
  ~ 111 == Math.ceil (100 * Math.pow (11 # 10) 1).
Proof.
  cbv zeta.
  split; [vm_compute; reflexivity|]. split; [vm_compute; reflexivity|].
  split; [vm_compute; reflexivity|]. split; [vm_compute; reflexivity|].
  split; [intros H; vm_compute in H; discriminate|].
  split; [vm_compute; reflexivity|]. split; [vm_compute; reflexivity|].
  intros H; vm_compute in H; discriminate.
Qed.

(** *** Purchases *)

(** C7. When the upgrade's currency is registered and holds at least the
    current cost, [purchase] returns [true], sets the balance to
    [Math.max(0, amount - cost)] (a binary64 difference), leaves the other
    balances alone, raises the level by one, sets the purchased flag, and
    emits [currency:changed], then [upgrade:purchased] carrying the new
    level and the charged cost, then [upgrade:leveled]. *)
Theorem purchase_affordable_binary64
  (e : Binary64.Engine) (upgradeId : string)
  (u : Binary64.Upgrade.t) (c : Binary64.Currency.t) :
  JsMap.get (Binary64.upgrades e) upgradeId = Some u ->
  JsMap.get (Binary64.currencies e) (Binary64.Upgrade.currencyId u) = Some c ->
  Binary64.geb (Binary64.Currency.amount c) (Binary64.UpgradeManager.calculateCost u)
  = true ->
  let cost := Binary64.UpgradeManager.calculateCost u in
  let e' := Binary64.exec (Binary64.UpgradeManager.purchase upgradeId) e in
  Binary64.result (Binary64.UpgradeManager.purchase upgradeId) e = Normal true /\
  Binary64.balance e' (Binary64.Upgrade.currencyId u)
  = Binary64.Math.max 0%float (Binary64.Currency.amount c - cost)%float /\
  (forall id, id <> Binary64.Upgrade.currencyId u ->
              Binary64.balance e' id = Binary64.balance e id) /\
  JsMap.get (Binary64.upgrades e') upgradeId
  = Some (Binary64.Upgrade.with_purchased
            (Binary64.Upgrade.with_level u (Binary64.Upgrade.level u + 1)) true) /\
  Binary64.emitted e' =
    (Binary64.emitted e ++
     [Binary64.CURRENCY_CHANGED (Binary64.Upgrade.currencyId u)
        (Binary64.Currency.amount c)
        (Binary64.Math.max 0%float (Binary64.Currency.amount c - cost)%float)
        (- cost)%float;
      Binary64.UPGRADE_PURCHASED upgradeId (Binary64.Upgrade.level u + 1) cost;
      Binary64.UPGRADE_LEVELED upgradeId (Binary64.Upgrade.level u + 1)
        (Binary64.Upgrade.effect u)])%list.
Proof.
  intros Hu Hc Hle cost e'.
  assert (Hrun : Binary64.UpgradeManager.purchase upgradeId e =
    (Normal true,
     Binary64.set_emitted
       (Binary64.emitted e ++
        [Binary64.CURRENCY_CHANGED (Binary64.Upgrade.currencyId u)
           (Binary64.Currency.amount c)
           (Binary64.Math.max 0%float (Binary64.Currency.amount c - cost)%float)
           (- cost)%float;
         Binary64.UPGRADE_PURCHASED upgradeId (Binary64.Upgrade.level u + 1) cost;
         Binary64.UPGRADE_LEVELED upgradeId (Binary64.Upgrade.level u + 1)
           (Binary64.Upgrade.effect u)])%list
       (Binary64.set_upgrades
          (JsMap.set (Binary64.upgrades e) upgradeId
             (Binary64.Upgrade.with_purchased
                (Binary64.Upgrade.with_level u (Binary64.Upgrade.level u + 1)) true))
          (Binary64.set_currencies
             (JsMap.set (Binary64.currencies e) (Binary64.Upgrade.currencyId u)
                (Binary64.Currency.with_amount c
                   (Binary64.Math.max 0%float
                      (Binary64.Currency.amount c - cost)%float)))
             e)))).
  { unfold Binary64.UpgradeManager.purchase. cbv [Binary64.bind Binary64.read].
    rewrite Hu, has_run64. unfold Binary64.balance. rewrite Hc.
    cbn [option_map nullish]. rewrite Hle. cbn [negb].
    rewrite (subtract_run64 _ _ _ _ Hc).
    cbv [Binary64.UpgradeManager.store Binary64.EventBus.emit Binary64.modify
         Binary64.ret].
    unfold Binary64.set_emitted, Binary64.set_upgrades, Binary64.set_currencies.
    cbn [Binary64.currencies Binary64.upgrades Binary64.paradigms
         Binary64.currentParadigm Binary64.productionRates Binary64.emitted
         Binary64.Upgrade.level Binary64.Upgrade.effect
         Binary64.Upgrade.with_purchased Binary64.Upgrade.with_level].
    rewrite <- !app_assoc. reflexivity. }
  subst e'. unfold Binary64.result, Binary64.exec. rewrite Hrun.
  unfold Binary64.balance. simpl.
  split; [reflexivity|]. split; [|split; [|split; [|reflexivity]]].
  - rewrite get_set_same. reflexivity.
  - intros id Hid. rewrite get_set_other by congruence. reflexivity.
  - apply get_set_same.
Qed.

Lemma purchase_affordable_binary64_witness :
  let u := Binary64.sword 100%float (Some 1.15%float) 0 in
  let e := Binary64.shop 150%float u in
  JsMap.get (Binary64.upgrades e) "sword" = Some u /\
  JsMap.get (Binary64.currencies e) (Binary64.Upgrade.currencyId u)
  = Some (Binary64.gold 150%float) /\
  Binary64.geb (Binary64.Currency.amount (Binary64.gold 150%float))
    (Binary64.UpgradeManager.calculateCost u) = true /\
  Binary64.result (Binary64.UpgradeManager.purchase "sword") e = Normal true /\
  Binary64.balance (Binary64.exec (Binary64.UpgradeManager.purchase "sword") e)
    (Binary64.Upgrade.currencyId u)
  = Binary64.Math.max 0%float
      (Binary64.Currency.amount (Binary64.gold 150%float)
       - Binary64.UpgradeManager.calculateCost u)%float.
Proof.
  intros u e.
  assert (Hu : JsMap.get (Binary64.upgrades e) "sword" = Some u)
    by (vm_compute; reflexivity).
  assert (Hc : JsMap.get (Binary64.currencies e) (Binary64.Upgrade.currencyId u)
               = Some (Binary64.gold 150%float))
    by (vm_compute; reflexivity).
  assert (Hle : Binary64.geb (Binary64.Currency.amount (Binary64.gold 150%float))
                  (Binary64.UpgradeManager.calculateCost u) = true)
    by (vm_compute; reflexivity).
  split; [exact Hu|]. split; [exact Hc|]. split; [exact Hle|].
  pose proof (purchase_affordable_binary64 e "sword" u _ Hu Hc Hle) as H.
  cbv zeta in H. destruct H as (H1 & H2 & _).
  split; [exact H1 | exact H2].
Defined.

(** Two ways an affordable purchase departs from "returns true and deducts
    exactly the cost".  A free upgrade whose currency is not registered
    passes the balance test on the default balance 0, and [subtract] then
    throws.  And with 1e17 gold, an upgrade of cost 100 takes 96: the
    difference is rounded. *)
Lemma purchase_throws_or_rounds :
  (let e := Binary64.shop 5%float Binary64.gift in
   JsMap.get (Binary64.upgrades e) "gift" = Some Binary64.gift /\
   Binary64.geb (Binary64.balance e (Binary64.Upgrade.currencyId Binary64.gift))
     (Binary64.UpgradeManager.calculateCost Binary64.gift) = true /\
   Binary64.UpgradeManager.purchase "gift" e
   = (Throw "Currency 'ghost' does not exist", e) /\
   Binary64.result (Binary64.UpgradeManager.purchase "gift") e <> Normal true) /\
  (let u := Binary64.sword 100%float None 0 in
   let e := Binary64.shop 1e17%float u in
   let e' := Binary64.exec (Binary64.UpgradeManager.purchase "sword") e in
   Binary64.geb (Binary64.balance e "gold") (Binary64.UpgradeManager.calculateCost u)
   = true /\
   Binary64.result (Binary64.UpgradeManager.purchase "sword") e = Normal true /\
   Binary64.realValue (Binary64.UpgradeManager.calculateCost u) = Some 100 /\
   Binary64.realValue (Binary64.balance e "gold") = Some 100000000000000000 /\
   Binary64.realValue (Binary64.balance e' "gold") = Some 99999999999999904 /\
   ~ 99999999999999904 == 100000000000000000 - 100).
Proof.
  cbv zeta. split.
  - split; [vm_compute; reflexivity|]. split; [vm_compute; reflexivity|].
    split; [vm_compute; reflexivity|]. vm_compute. discriminate.
  - split; [vm_compute; reflexivity|]. split; [vm_compute; reflexivity|].
    split; [vm_compute; reflexivity|]. split; [vm_compute; reflexivity|].
    split; [vm_compute; reflexivity|].
    intros H; vm_compute in H; discriminate.
Qed.

(** *** Production *)

Lemma engine_eta64 e :
  Binary64.set_emitted (Binary64.emitted e ++ [])
    (Binary64.set_currencies (Binary64.currencies e) e) = e.
Proof.
  destruct e. unfold Binary64.set_emitted, Binary64.set_currencies. simpl.
  now rewrite app_nil_r.
Qed.

(** The loop of [tick]: every entry with a positive rate credits its
    currency, in order; only [currency:changed] events are emitted, one
    per credited entry. *)
Lemma forEach_produce64 ds pm : forall rates e,
  (forall k r, In (k, r) rates -> Binary64.gtb r 0%float = true ->
               JsMap.get (Binary64.currencies e) k <> None) ->
  exists cs' evs,
    Binary64.forEach (Binary64.ProductionManager.produce ds pm) rates e =
      (Normal tt,
       Binary64.set_emitted (Binary64.emitted e ++ evs)
         (Binary64.set_currencies cs' e)) /\
    Forall Binary64.isCurrencyChanged evs /\
    List.length evs
    = List.length (List.filter (fun kr => Binary64.gtb (snd kr) 0%float) rates) /\
    forall id,
      JsMap.get cs' id =
      option_map
        (fun c => Binary64.Currency.with_amount c
                    (Binary64.creditedTo rates ds pm id (Binary64.Currency.amount c)))
        (JsMap.get (Binary64.currencies e) id).
Proof.
  induction rates as [|[k r] rest IH]; intros e Hreg.
  - exists (Binary64.currencies e), []. simpl. unfold Binary64.ret.
    rewrite engine_eta64. repeat split; [constructor|].
    intros id. destruct (JsMap.get (Binary64.currencies e) id) as [[]|]; reflexivity.
  - simpl. cbv [Binary64.bind]. destruct (Binary64.gtb r 0%float) eqn:Hr.
    + assert (Hk : JsMap.get (Binary64.currencies e) k <> None).
      { apply (Hreg k r); [now left | exact Hr]. }
      destruct (JsMap.get (Binary64.currencies e) k) as [c|] eqn:Hc; [|contradiction].
      rewrite (add_run64 _ _ _ _ Hc). cbv [Binary64.ret].
      set (c' := Binary64.Currency.with_amount c
                   (Binary64.Currency.amount c + r * ds * pm)%float).
      set (ev := Binary64.CURRENCY_CHANGED k (Binary64.Currency.amount c)
                   (Binary64.Currency.amount c + r * ds * pm)%float
                   (r * ds * pm)%float).
      set (e1 := Binary64.set_emitted (Binary64.emitted e ++ [ev])
                   (Binary64.set_currencies
                      (JsMap.set (Binary64.currencies e) k c') e)).
      destruct (IH e1) as (cs' & evs & Hrun & Hevs & Hlen & Ham).
      { intros k' r' Hin Hpos. subst e1. simpl. rewrite get_set.
        destruct (String.eqb k k'); [discriminate|].
        apply (Hreg k' r'); [now right | exact Hpos]. }
      exists cs', (ev :: evs). rewrite Hrun. subst e1. simpl.
      split; [|split; [|split]].
      * unfold Binary64.set_emitted, Binary64.set_currencies. simpl.
        rewrite <- app_assoc. reflexivity.
      * constructor; [exact I | exact Hevs].
      * now rewrite Hlen.
      * intros id. rewrite (Ham id). simpl. rewrite get_set.
        destruct (String.eqb k id) eqn:E; simpl.
        -- apply String.eqb_eq in E. subst id. rewrite Hc. reflexivity.
        -- reflexivity.
    + cbv [Binary64.ret]. destruct (IH e) as (cs' & evs & Hrun & Hevs & Hlen & Ham).
      { intros k' r' Hin Hpos. apply (Hreg k' r'); [now right | exact Hpos]. }
      exists cs', evs. rewrite Hrun. repeat split; try assumption.
      intros id. rewrite (Ham id). now rewrite andb_false_r.
Qed.

Lemma creditedTo_absent rates ds pm id a :
  JsMap.get rates id = None -> Binary64.creditedTo rates ds pm id a = a.
Proof.
  revert a. induction rates as [|[k r] rest IH]; simpl; intros a H; [reflexivity|].
  rewrite String.eqb_sym. destruct (String.eqb id k); [discriminate|].
  simpl. now apply IH.
Qed.

(** With one entry per key, a currency is credited once, from its own
    rate. *)
Lemma creditedTo_rate rates ds pm id a :
  uniqueKeys rates ->
  Binary64.creditedTo rates ds pm id a =
  if Binary64.gtb (nullish (JsMap.get rates id) 0%float) 0%float
  then (a + nullish (JsMap.get rates id) 0%float * ds * pm)%float else a.
Proof.
  unfold uniqueKeys. revert a.
  induction rates as [|[k r] rest IH]; simpl; intros a Hnd.
  - reflexivity.
  - inversion Hnd as [|? ? Hnotin Hnd']; subst.
    rewrite String.eqb_sym. destruct (String.eqb id k) eqn:E; simpl.
    + apply String.eqb_eq in E. subst k.
      apply get_None_iff_key in Hnotin.
      now rewrite (creditedTo_absent _ _ _ _ _ Hnotin).
    + now apply IH.
Qed.

(** C6. When every id that has a positive production rate is a
    registered currency, [tick] completes; the balance [b] of a currency
    whose rate is positive becomes the binary64 sum
    [b + rate * (deltaTimeMs / 1000) * multiplier] (each operation
    rounded), and every other balance is unchanged; the events of the
    tick are one [currency:changed] per positive rate followed by a single
    [production:tick], emitted last.  With 1000 ms, rate 10 and
    multiplier 2 a balance [b] becomes the binary64 sum [b + 20]. *)
Theorem tick_production_binary64 (e : Binary64.Engine) (deltaTimeMs : float) :
  uniqueKeys (Binary64.productionRates e) ->
  Binary64.ratesRegistered e ->
  let e' := Binary64.exec (Binary64.ProductionManager.tick deltaTimeMs) e in
  Binary64.result (Binary64.ProductionManager.tick deltaTimeMs) e = Normal tt /\
  (forall id,
     Binary64.balance e' id =
     if Binary64.gtb (Binary64.rateOf e id) 0%float
     then (Binary64.balance e id
           + Binary64.rateOf e id * (deltaTimeMs / 1000)
             * Binary64.currentMultiplier e)%float
     else Binary64.balance e id) /\
  (exists changes,
     Binary64.emitted e'
     = (Binary64.emitted e ++ changes ++ [Binary64.PRODUCTION_TICK deltaTimeMs])%list /\
     Forall Binary64.isCurrencyChanged changes /\
     List.length changes
     = List.length (List.filter (fun kr => Binary64.gtb (snd kr) 0%float)
                      (Binary64.productionRates e))) /\
  (forall id,
     deltaTimeMs = 1000%float -> Binary64.rateOf e id = 10%float ->
     Binary64.currentMultiplier e = 2%float ->
     Binary64.balance e' id = (Binary64.balance e id + 20)%float).
Proof.
  intros Huniq Hreg e'.
  destruct (forEach_produce64 (deltaTimeMs / 1000)%float (Binary64.currentMultiplier e)
              (Binary64.productionRates e) e)
    as (cs' & evs & Hrun & Hevs & Hlen & Ham).
  { intros k r Hin Hpos. apply (Hreg k r); [|exact Hpos]. now apply In_get. }
  assert (Htick : Binary64.ProductionManager.tick deltaTimeMs e =
    (Normal tt,
     Binary64.set_emitted
       (Binary64.emitted e ++ evs ++ [Binary64.PRODUCTION_TICK deltaTimeMs])
       (Binary64.set_currencies cs' e))).
  { unfold Binary64.ProductionManager.tick. cbv [Binary64.bind].
    rewrite getCurrentMultiplier_run64. cbv [Binary64.read]. rewrite Hrun.
    cbv [Binary64.EventBus.emit Binary64.modify].
    unfold Binary64.set_emitted, Binary64.set_currencies. simpl.
    rewrite <- app_assoc. reflexivity. }
  assert (Hbal : forall id,
     Binary64.balance e' id =
     if Binary64.gtb (Binary64.rateOf e id) 0%float
     then (Binary64.balance e id
           + Binary64.rateOf e id * (deltaTimeMs / 1000)
             * Binary64.currentMultiplier e)%float
     else Binary64.balance e id).
  { intros id. subst e'. unfold Binary64.exec. rewrite Htick.
    unfold Binary64.balance, Binary64.rateOf. simpl. rewrite (Ham id).
    destruct (JsMap.get (Binary64.currencies e) id) as [c|] eqn:Hc; simpl.
    - apply (creditedTo_rate _ _ _ _ _ Huniq).
    - destruct (JsMap.get (Binary64.productionRates e) id) as [r|] eqn:Hr; simpl.
      + destruct (Binary64.gtb r 0%float) eqn:Hpos; [|reflexivity].
        exfalso. now apply (Hreg id r Hr Hpos).
      + reflexivity. }
  split; [|split; [exact Hbal|split]].
  - unfold Binary64.result. now rewrite Htick.
  - exists evs. subst e'. unfold Binary64.exec. rewrite Htick. simpl.
    split; [reflexivity|]. now split.
  - intros id Hdt Hrate Hpm. rewrite (Hbal id), Hrate, Hpm, Hdt. reflexivity.
Qed.

Lemma tick_production_binary64_witness :
  let e := Binary64.farm 5%float 10%float 2%float in
  uniqueKeys (Binary64.productionRates e) /\
  Binary64.ratesRegistered e /\
  Binary64.rateOf e "gold" = 10%float /\
  Binary64.currentMultiplier e = 2%float /\
  Binary64.result (Binary64.ProductionManager.tick 1000%float) e = Normal tt /\
  Binary64.balance (Binary64.exec (Binary64.ProductionManager.tick 1000%float) e) "gold"
  = (Binary64.balance e "gold" + 20)%float.
Proof.
  intros e.
  assert (Huniq : uniqueKeys (Binary64.productionRates e))
    by (vm_compute; repeat constructor; simpl; tauto).
  assert (Hreg : Binary64.ratesRegistered e).
  { intros id rate Hget _.
    change (Binary64.productionRates e) with [("gold", 10%float)] in Hget.
    simpl in Hget. destruct (String.eqb id "gold") eqn:E; [|discriminate].
    apply String.eqb_eq in E. subst id. vm_compute. discriminate. }
  assert (Hrate : Binary64.rateOf e "gold" = 10%float) by (vm_compute; reflexivity).
  assert (Hpm : Binary64.currentMultiplier e = 2%float) by (vm_compute; reflexivity).
  split; [exact Huniq|]. split; [exact Hreg|]. split; [exact Hrate|].
  split; [exact Hpm|].
  pose proof (tick_production_binary64 e 1000%float Huniq Hreg) as H. cbv zeta in H.
  destruct H as (H1 & _ & _ & H4). split; [exact H1|].
  exact (H4 "gold" eq_refl Hrate Hpm).
Defined.

(** Two ways a tick departs from "adds [rate * seconds * multiplier] to
    every currency with a positive rate and publishes one
    production:tick".  With a rate set for an id that is not a currency,
    [tick] throws at that entry: gold, rated 10 and coming later, gains
    nothing, and no event is published.  And a balance of 1e17 grows by
    16, not by 20, in a one-second tick at rate 10 and multiplier 2: the
    sum is rounded. *)
Lemma tick_throws_or_rounds :
  (Binary64.rateOf Binary64.limbo "gold" = 10%float /\
   Binary64.gtb (Binary64.rateOf Binary64.limbo "gold") 0%float = true /\
   Binary64.ProductionManager.tick 1000%float Binary64.limbo
   = (Throw "Currency 'ghost' does not exist", Binary64.limbo) /\
   Binary64.result (Binary64.ProductionManager.tick 1000%float) Binary64.limbo
   <> Normal tt) /\
  (let e := Binary64.farm 1e17%float 10%float 2%float in
   let e' := Binary64.exec (Binary64.ProductionManager.tick 1000%float) e in
   Binary64.rateOf e "gold" = 10%float /\
   Binary64.currentMultiplier e = 2%float /\
   Binary64.result (Binary64.ProductionManager.tick 1000%float) e = Normal tt /\
   Binary64.realValue (Binary64.balance e "gold") = Some 100000000000000000 /\
   Binary64.realValue (Binary64.balance e' "gold") = Some 100000000000000016 /\
   ~ 100000000000000016 == 100000000000000000 + 20).
Proof.
  cbv zeta. split.
  - split; [vm_compute; reflexivity|]. split; [vm_compute; reflexivity|].
    split; [vm_compute; reflexivity|]. vm_compute. discriminate.
  - split; [vm_compute; reflexivity|]. split; [vm_compute; reflexivity|].
    split; [vm_compute; reflexivity|]. split; [vm_compute; reflexivity|].
    split; [vm_compute; reflexivity|].
    intros H; vm_compute in H; discriminate.
Qed.

End Binary64Facts.

(** * Further properties of the managers *)

(** ** Currencies *)








(** X2. An id that is not registered reads as a balance of 0: [get]
    returns 0 and [has] compares 0 with the amount asked for, without
    touching the engine; [set], [add] and [subtract] throw "Currency '<id>'
    does not exist", change nothing and emit nothing. *)
Theorem unregistered_currency_behaviour (e : Engine) (id : string) (a : Q) :
  JsMap.get (currencies e) id = None ->
  CurrencyManager.get id e = (Normal 0, e) /\
  CurrencyManager.has id a e = (Normal (Qle_bool a 0), e) /\
  CurrencyManager.set id a e =
    (Throw ("Currency '" ++ id ++ "' does not exist"), e) /\
  CurrencyManager.add id a e =
    (Throw ("Currency '" ++ id ++ "' does not exist"), e) /\
  CurrencyManager.subtract id a e =
    (Throw ("Currency '" ++ id ++ "' does not exist"), e).
Proof.
  intros H.
  split; [rewrite get_run; unfold balance; now rewrite H|].
  split; [rewrite has_run; unfold balance, geb; now rewrite H|].
  apply (unknown_currency_throws e id a H).
Qed.

Lemma unregistered_currency_behaviour_witness :
  JsMap.get (currencies (bank 5)) "silver" = None /\
  CurrencyManager.has "silver" 1 (bank 5) = (Normal (Qle_bool 1 0), bank 5) /\
  CurrencyManager.add "silver" 1 (bank 5) =
    (Throw ("Currency '" ++ "silver" ++ "' does not exist"), bank 5).
Proof.
  assert (H : JsMap.get (currencies (bank 5)) "silver" = None)
    by (vm_compute; reflexivity).
  split; [exact H|].
  destruct (unregistered_currency_behaviour (bank 5) "silver" 1 H)
    as (_ & H2 & _ & H4 & _).
  split; [exact H2 | exact H4].
Defined.

(** ** Upgrades *)




Lemma values_set_view {V W : Type} (g : V -> W) (m : JsMap.t V) k v v' :
  JsMap.get m k = Some v -> g v' = g v ->
  List.map g (JsMap.values (JsMap.set m k v')) = List.map g (JsMap.values m).
Proof.
  intros Hget Hg. induction m as [|[k0 v0] r IH]; simpl in *; [discriminate|].
  destruct (String.eqb k k0); simpl.
  - injection Hget as ->. now rewrite Hg.
  - f_equal. now apply IH.
Qed.

Lemma values_mapValues_view {V W : Type} (g : V -> W) (f : V -> V) (m : JsMap.t V) :
  (forall v, g (f v) = g v) ->
  List.map g (JsMap.values (JsMap.mapValues f m)) = List.map g (JsMap.values m).
Proof.
  intros Hg. induction m as [|[k0 v0] r IH]; simpl; [reflexivity|].
  now rewrite Hg, IH.
Qed.

Section TotalEffect.

Import PrimFloat.
#[local] Set Warnings "-inexact-float".

Lemma totalEffect_view (pattern : string) :
  forall (l1 l2 : list Binary64.Upgrade.t) (acc : float),
  List.map Binary64.idAndEffect l1 = List.map Binary64.idAndEffect l2 ->
  List.fold_left (fun total u => (total * Binary64.Upgrade.effect u)%float)
    (List.filter (fun u => String.prefix pattern (Binary64.Upgrade.id u)) l1) acc =
  List.fold_left (fun total u => (total * Binary64.Upgrade.effect u)%float)
    (List.filter (fun u => String.prefix pattern (Binary64.Upgrade.id u)) l2) acc.
Proof.
  induction l1 as [|u1 r1 IH]; intros [|u2 r2] acc H; simpl in *; try discriminate.
  - reflexivity.
  - unfold Binary64.idAndEffect in H at 1 3. injection H as Hid Heff Hrest.
    rewrite Hid.
    destruct (String.prefix pattern (Binary64.Upgrade.id u2)); simpl.
    + rewrite Heff. now apply IH.
    + now apply IH.
Qed.

(** What [purchase] does to the upgrades: nothing, or one more level and
    the purchased flag for the upgrade bought. *)
Lemma purchase_upgrades64 (e : Binary64.Engine) (upgradeId : string) :
  Binary64.upgrades (Binary64.exec (Binary64.UpgradeManager.purchase upgradeId) e)
  = Binary64.upgrades e \/
  exists u,
    JsMap.get (Binary64.upgrades e) upgradeId = Some u /\
    Binary64.upgrades (Binary64.exec (Binary64.UpgradeManager.purchase upgradeId) e)
    = JsMap.set (Binary64.upgrades e) upgradeId
        (Binary64.Upgrade.with_purchased
           (Binary64.Upgrade.with_level u (Binary64.Upgrade.level u + 1)) true).
Proof.
  unfold Binary64.exec, Binary64.UpgradeManager.purchase.
  cbv [Binary64.bind Binary64.read].
  destruct (JsMap.get (Binary64.upgrades e) upgradeId) as [u|] eqn:Hu;
    [|left; reflexivity].
  rewrite has_run64.
  destruct (Binary64.geb (Binary64.balance e (Binary64.Upgrade.currencyId u))
              (Binary64.UpgradeManager.calculateCost u)); [|left; reflexivity].
  cbn [negb].
  destruct (JsMap.get (Binary64.currencies e) (Binary64.Upgrade.currencyId u))
    as [c|] eqn:Hc.
  - right. exists u. split; [reflexivity|].
    rewrite (subtract_run64 _ _ _ _ Hc). reflexivity.
  - left.
    destruct (unknown_currency_throws64 e (Binary64.Upgrade.currencyId u)
                (Binary64.UpgradeManager.calculateCost u) Hc) as (_ & ->).
    reflexivity.
Qed.

(** X5. [getTotalEffect] is the binary64 product, taken from the left
    and starting at 1, of the effects of all registered upgrades whose id
    starts with the pattern, in registration order; levels and purchased
    flags play no part, so [purchase], [setLevel] and [reset] leave its
    value unchanged.  It is 1 when no id has the prefix. *)
Theorem getTotalEffect_product
  (e : Binary64.Engine) (pattern upgradeId : string) (level : Z) :
  Binary64.UpgradeManager.getTotalEffect pattern e
  = (Normal
       (List.fold_left (fun total u => (total * Binary64.Upgrade.effect u)%float)
          (List.filter (fun u => String.prefix pattern (Binary64.Upgrade.id u))
             (JsMap.values (Binary64.upgrades e))) 1%float), e) /\
  Binary64.result (Binary64.UpgradeManager.getTotalEffect pattern)
    (Binary64.exec (Binary64.UpgradeManager.purchase upgradeId) e)
  = Binary64.result (Binary64.UpgradeManager.getTotalEffect pattern) e /\
  Binary64.result (Binary64.UpgradeManager.getTotalEffect pattern)
    (Binary64.exec (Binary64.UpgradeManager.setLevel upgradeId level) e)
  = Binary64.result (Binary64.UpgradeManager.getTotalEffect pattern) e /\
  Binary64.result (Binary64.UpgradeManager.getTotalEffect pattern)
    (Binary64.exec Binary64.UpgradeManager.reset e)
  = Binary64.result (Binary64.UpgradeManager.getTotalEffect pattern) e /\
  ((forall u, In u (JsMap.values (Binary64.upgrades e)) ->
              String.prefix pattern (Binary64.Upgrade.id u) = false) ->
   Binary64.result (Binary64.UpgradeManager.getTotalEffect pattern) e
   = Normal 1%float).
Proof.
  split; [reflexivity|].
  unfold Binary64.result, Binary64.UpgradeManager.getTotalEffect,
    Binary64.UpgradeManager.getAll.
  cbv [Binary64.bind Binary64.read Binary64.ret]. cbn [fst].
  split; [|split; [|split]].
  - f_equal. apply totalEffect_view.
    destruct (purchase_upgrades64 e upgradeId) as [-> | (u & Hu & ->)];
      [reflexivity|].
    now apply (values_set_view Binary64.idAndEffect _ _ u).
  - f_equal. apply totalEffect_view.
    unfold Binary64.exec, Binary64.UpgradeManager.setLevel.
    cbv [Binary64.bind Binary64.read].
    destruct (JsMap.get (Binary64.upgrades e) upgradeId) as [u|] eqn:Hu;
      [|reflexivity].
    simpl. now apply (values_set_view Binary64.idAndEffect _ _ u).
  - f_equal. apply totalEffect_view. unfold Binary64.exec. simpl.
    now apply values_mapValues_view.
  - intros Hnone. f_equal.
    induction (JsMap.values (Binary64.upgrades e)) as [|u r IH]; simpl;
      [reflexivity|].
    rewrite (Hnone u) by now left. apply IH. intros u' Hu'. apply Hnone. now right.
Qed.

Lemma getTotalEffect_product_witness :
  Binary64.result (Binary64.UpgradeManager.getTotalEffect "sword") Binary64.armoury
  = Normal (1 * 2 * 1.1)%float /\
  Binary64.result (Binary64.UpgradeManager.getTotalEffect "sword")
    (Binary64.exec (Binary64.UpgradeManager.purchase "sword") Binary64.armoury)
  = Binary64.result (Binary64.UpgradeManager.getTotalEffect "sword") Binary64.armoury /\
  (forall u, In u (JsMap.values (Binary64.upgrades Binary64.armoury)) ->
             String.prefix "shield" (Binary64.Upgrade.id u) = false) /\
  Binary64.result (Binary64.UpgradeManager.getTotalEffect "shield") Binary64.armoury
  = Normal 1%float.
Proof.
  destruct (getTotalEffect_product Binary64.armoury "sword" "sword" 0)
    as (H0 & H1 & _).
  split; [unfold Binary64.result; rewrite H0; reflexivity|].
  split; [exact H1|].
  assert (Hnone : forall u, In u (JsMap.values (Binary64.upgrades Binary64.armoury)) ->
                            String.prefix "shield" (Binary64.Upgrade.id u) = false).
  { intros u Hin. vm_compute in Hin.
    destruct Hin as [<-|[<-|[<-|[]]]]; reflexivity. }
  split; [exact Hnone|].
  destruct (getTotalEffect_product Binary64.armoury "shield" "sword" 0)
    as (_ & _ & _ & _ & H).
  exact (H Hnone).
Defined.

End TotalEffect.

(** ** Paradigms: removal and multiplier updates *)

Section DeleteFacts.
Context {V : Type}.
Implicit Types (m : JsMap.t V) (k : string).

Lemma get_delete_other m k k' :
  k <> k' -> JsMap.get (JsMap.delete m k) k' = JsMap.get m k'.
Proof.
  intros Hne. induction m as [|[k0 v0] r IH]; simpl; [reflexivity|].
  destruct (String.eqb k k0) eqn:E; simpl.
  - apply String.eqb_eq in E. subst k0.
    destruct (String.eqb k' k) eqn:E'; [|reflexivity].
    apply String.eqb_eq in E'. congruence.
  - now rewrite IH.
Qed.

Lemma get_delete_same m k :
  uniqueKeys m -> JsMap.get (JsMap.delete m k) k = None.
Proof.
  unfold uniqueKeys. induction m as [|[k0 v0] r IH]; simpl; intros Hnd; [reflexivity|].
  inversion Hnd as [|? ? Hnotin Hnd']; subst.
  destruct (String.eqb k k0) eqn:E; simpl.
  - apply String.eqb_eq in E. subst k0. now apply get_None_iff_key.
  - rewrite E. now apply IH.
Qed.

Lemma keys_delete_incl m k x :
  In x (JsMap.keys (JsMap.delete m k)) -> In x (JsMap.keys m).
Proof.
  induction m as [|[k0 v0] r IH]; simpl; [tauto|].
  destruct (String.eqb k k0); simpl; [tauto|]. intros [H|H]; [now left | right; now apply IH].
Qed.

Lemma delete_uniqueKeys m k : uniqueKeys m -> uniqueKeys (JsMap.delete m k).
Proof.
  unfold uniqueKeys. induction m as [|[k0 v0] r IH]; simpl; intros Hnd; [constructor|].
  inversion Hnd as [|? ? Hnotin Hnd']; subst.
  destruct (String.eqb k k0); simpl; [exact Hnd'|].
  constructor; [|now apply IH].
  intros Hin. apply Hnotin. now apply (keys_delete_incl _ k).
Qed.

Lemma get_delete_Some m k k' v :
  JsMap.get (JsMap.delete m k) k' = Some v -> uniqueKeys m ->
  k <> k' /\ JsMap.get m k' = Some v.
Proof.
  intros Hget Huniq. destruct (String.eqb k k') eqn:E.
  - apply String.eqb_eq in E. subst k'. rewrite get_delete_same in Hget by exact Huniq.
    discriminate.
  - apply String.eqb_neq in E. split; [exact E|]. now rewrite get_delete_other in Hget.
Qed.

End DeleteFacts.

Lemma removeParadigm_run e id :
  ParadigmManager.removeParadigm id e =
  (Normal tt,
   set_paradigms (JsMap.delete (paradigms e) id)
     (match currentParadigm e with
      | Some c => if String.eqb c id then set_currentParadigm None e else e
      | None => e
      end)).
Proof.
  unfold ParadigmManager.removeParadigm. cbv [bind read].
  destruct (currentParadigm e) as [c|]; [|reflexivity].
  destruct (String.eqb c id); reflexivity.
Qed.

(** X7. [removeParadigm] keeps the paradigm manager consistent.  The id is
    no longer registered; removing the current paradigm leaves no current
    paradigm, no paradigm flagged active and a multiplier of 1; removing
    another one leaves the current paradigm and the multiplier as they
    were. *)
Theorem removeParadigm_consistent (e : Engine) (id : string) :
  paradigmInv e ->
  let e' := exec (ParadigmManager.removeParadigm id) e in
  paradigmInv e' /\
  ~ registered (paradigms e') id /\
  (currentParadigm e = Some id ->
   currentParadigm e' = None /\ activeParadigms e' = [] /\
   result ParadigmManager.getCurrentMultiplier e' = Normal 1) /\
  (currentParadigm e <> Some id ->
   currentParadigm e' = currentParadigm e /\
   result ParadigmManager.getCurrentMultiplier e'
   = result ParadigmManager.getCurrentMultiplier e).
Proof.
  intros (Huniq & Hnoempty & Hact & Hcur) e'. subst e'. unfold exec.
  rewrite removeParadigm_run. cbn [snd].
  assert (Hinv' : paradigmInv
    (set_paradigms (JsMap.delete (paradigms e) id)
       match currentParadigm e with
       | Some c => if String.eqb c id then set_currentParadigm None e else e
       | None => e
       end)).
  { unfold paradigmInv.
    destruct (currentParadigm e) as [c|] eqn:Hc;
      [destruct (String.eqb c id) eqn:E|]; simpl.
    - apply String.eqb_eq in E. subst c.
      split; [now apply delete_uniqueKeys|]. split.
      { unfold registered. intros H. apply Hnoempty. unfold registered.
        destruct (String.eqb id "") eqn:E0.
        - apply String.eqb_eq in E0. subst id.
          rewrite get_delete_same in H by exact Huniq. congruence.
        - apply String.eqb_neq in E0. now rewrite get_delete_other in H. }
      split; [|discriminate].
      intros k q Hq Hqa. apply get_delete_Some in Hq; [|exact Huniq].
      destruct Hq as (Hne & Hq). specialize (Hact k q Hq Hqa). congruence.
    - apply String.eqb_neq in E.
      split; [now apply delete_uniqueKeys|]. split.
      { unfold registered. intros H. apply Hnoempty. unfold registered.
        destruct (String.eqb id "") eqn:E0.
        - apply String.eqb_eq in E0. subst id.
          rewrite get_delete_same in H by exact Huniq. congruence.
        - apply String.eqb_neq in E0. now rewrite get_delete_other in H. }
      rewrite Hc. split.
      + intros k q Hq Hqa. apply get_delete_Some in Hq; [|exact Huniq].
        destruct Hq as (Hne & Hq). now apply (Hact k q).
      + intros c' [= <-]. destruct (Hcur c eq_refl) as (p & Hp & Hpa).
        exists p. split; [|exact Hpa]. rewrite get_delete_other; [exact Hp|].
        congruence.
    - split; [now apply delete_uniqueKeys|]. split.
      { unfold registered. intros H. apply Hnoempty. unfold registered.
        destruct (String.eqb id "") eqn:E0.
        - apply String.eqb_eq in E0. subst id.
          rewrite get_delete_same in H by exact Huniq. congruence.
        - apply String.eqb_neq in E0. now rewrite get_delete_other in H. }
      rewrite Hc. split; [|discriminate].
      intros k q Hq Hqa. apply get_delete_Some in Hq; [|exact Huniq].
      destruct Hq as (Hne & Hq). now apply (Hact k q). }
  split; [exact Hinv'|]. split; [|split].
  - unfold registered. destruct (currentParadigm e) as [c|];
      [destruct (String.eqb c id)|]; simpl;
      rewrite get_delete_same by exact Huniq; congruence.
  - intros Hc. rewrite Hc in *. rewrite String.eqb_refl in *.
    split; [reflexivity|].
    assert (Hnone : activeParadigms
              (set_paradigms (JsMap.delete (paradigms e) id)
                 (set_currentParadigm None e)) = []).
    { destruct Hinv' as (Huniq' & _ & Hact' & _).
      destruct (activeParadigms _) as [|[k q] r] eqn:Hf; [reflexivity|].
      assert (Hin : In (k, q) (activeParadigms
                (set_paradigms (JsMap.delete (paradigms e) id)
                   (set_currentParadigm None e)))) by (rewrite Hf; now left).
      unfold activeParadigms in Hin. apply filter_In in Hin.
      destruct Hin as (Hin & Hqa). apply (In_get _ _ _ Huniq') in Hin.
      specialize (Hact' k q Hin Hqa). discriminate. }
    split; [exact Hnone|].
    unfold result. now rewrite getCurrentMultiplier_run.
  - intros Hne. unfold result. rewrite !getCurrentMultiplier_run. cbn [fst].
    destruct (currentParadigm e) as [c|] eqn:Hc.
    + assert (E : String.eqb c id = false) by (apply String.eqb_neq; congruence).
      rewrite E. simpl. rewrite Hc. split; [reflexivity|].
      apply String.eqb_neq in E. now rewrite get_delete_other by congruence.
    + simpl. rewrite Hc. now split.
Qed.

Lemma removeParadigm_consistent_witness :
  let e := runCalls [Register (era "stone" true 4); Register (era "bronze" false 3)]
             (newEngine 0) in
  paradigmInv e /\
  currentParadigm e = Some "stone" /\
  activeParadigms (exec (ParadigmManager.removeParadigm "stone") e) = [] /\
  result ParadigmManager.getCurrentMultiplier
    (exec (ParadigmManager.removeParadigm "stone") e) = Normal 1.
Proof.
  intros e.
  assert (Hinv : paradigmInv e).
  { apply runCalls_inv; [repeat constructor; discriminate | apply paradigmInv_new]. }
  assert (Hcur : currentParadigm e = Some "stone") by (vm_compute; reflexivity).
  split; [exact Hinv|]. split; [exact Hcur|].
  pose proof (removeParadigm_consistent e "stone" Hinv) as H. cbv zeta in H.
  destruct H as (_ & _ & H3 & _). destruct (H3 Hcur) as (_ & Hnone & Hmult).
  split; [exact Hnone | exact Hmult].
Defined.

(** X8. [setMultiplier] on the current paradigm is what
    [getCurrentMultiplier] returns next; on any other registered paradigm
    it leaves the current multiplier alone; on an unknown id it throws and
    changes nothing. *)
Theorem setMultiplier_takes_effect (e : Engine) (id : string) (multiplier : Q) :
  (registered (paradigms e) id -> id <> "" -> currentParadigm e = Some id ->
   result ParadigmManager.getCurrentMultiplier
     (exec (ParadigmManager.setMultiplier id multiplier) e) = Normal multiplier) /\
  (registered (paradigms e) id -> currentParadigm e <> Some id ->
   result ParadigmManager.getCurrentMultiplier
     (exec (ParadigmManager.setMultiplier id multiplier) e)
   = result ParadigmManager.getCurrentMultiplier e) /\
  (~ registered (paradigms e) id ->
   ParadigmManager.setMultiplier id multiplier e =
   (Throw ("Paradigm '" ++ id ++ "' does not exist"), e)).
Proof.
  unfold result, exec, registered, ParadigmManager.setMultiplier. cbv [bind read].
  destruct (JsMap.get (paradigms e) id) as [p|] eqn:Hp.
  - cbv [ParadigmManager.store modify]. cbn [snd].
    rewrite !getCurrentMultiplier_run. cbn [fst]. simpl.
    split; [|split].
    + intros _ Hid Hcur. rewrite Hcur. apply truthy_string_iff in Hid.
      rewrite Hid, get_set_same. reflexivity.
    + intros _ Hcur. destruct (currentParadigm e) as [c|]; [|reflexivity].
      destruct (truthy_string c); [|reflexivity].
      rewrite get_set_other; [reflexivity | congruence].
    + intros H. exfalso. apply H. discriminate.
  - split; [intros H; exfalso; now apply H|].
    split; [intros H; exfalso; now apply H|]. reflexivity.
Qed.

Lemma setMultiplier_takes_effect_witness :
  let e := runCalls [Register (era "stone" true 4); Register (era "bronze" false 3)]
             (newEngine 0) in
  registered (paradigms e) "stone" /\ currentParadigm e = Some "stone" /\
  result ParadigmManager.getCurrentMultiplier
    (exec (ParadigmManager.setMultiplier "stone" 9) e) = Normal 9 /\
  ~ registered (paradigms e) "iron" /\
  ParadigmManager.setMultiplier "iron" 9 e =
    (Throw ("Paradigm '" ++ "iron" ++ "' does not exist"), e).
Proof.
  intros e.
  assert (Hreg : registered (paradigms e) "stone") by (vm_compute; discriminate).
  assert (Hcur : currentParadigm e = Some "stone") by (vm_compute; reflexivity).
  assert (Hno : ~ registered (paradigms e) "iron")
    by (vm_compute; intros H; now apply H).
  split; [exact Hreg|]. split; [exact Hcur|].
  destruct (setMultiplier_takes_effect e "stone" 9) as (H1 & _).
  split; [apply (H1 Hreg); [discriminate | exact Hcur]|].
  split; [exact Hno|].
  destruct (setMultiplier_takes_effect e "iron" 9) as (_ & _ & H3).
  exact (H3 Hno).
Defined.

(** ** Production: clicks *)

(** One click through the facade on a registered currency. *)
Lemma click_run (e : Engine) (id : string) (base : option Q) (c : Currency.t) :
  JsMap.get (currencies e) id = Some c ->
  let gain := nullish base 1 * clickMultiplierOf e id * currentMultiplier e in
  exists e1,
    ClickerGameEngine.click id base e = (Normal tt, e1) /\
    currencies e1 =
      JsMap.set (currencies e) id (Currency.with_amount c (Currency.amount c + gain)) /\
    clickMultipliers e1 = clickMultipliers e /\
    paradigms e1 = paradigms e /\
    currentParadigm e1 = currentParadigm e /\
    totalClicks e1 = totalClicks e + 1 /\
    GameStatistics.totalClicks (stats e1) = (GameStatistics.totalClicks (stats e) + 1)%Z /\
    emitted e1 =
      (emitted e ++
       [CURRENCY_CHANGED id (Currency.amount c) (Currency.amount c + gain) gain;
        CLICK id (nullish base 1) (clickMultiplierOf e id) (currentMultiplier e) gain])%list.
Proof.
  intros Hc gain.
  unfold ClickerGameEngine.click, ProductionManager.click,
    ProductionManager.getClickMultiplier.
  cbv [bind read ret]. rewrite getCurrentMultiplier_value.
  fold (clickMultiplierOf e id). fold gain.
  rewrite (add_run _ _ _ _ Hc).
  cbv [EventBus.emit modify StatisticsManager.recordClick bind Date_now read].
  simpl.
  match goal with
  | |- context [if ?b then _ else _] => destruct b
  end; eexists; (split; [reflexivity|]); simpl;
    rewrite <- ?app_assoc; repeat split; reflexivity.
Qed.

(** X11. Clicks are counted.  On a registered currency every click
    through the facade returns normally, and after [n] of them the
    engine's click counter and the statistics' click counter have both
    grown by [n], while the balance of every other currency is what it
    was. *)
Theorem clicks_are_counted (n : nat) (e : Engine) (id : string) :
  registered (currencies e) id ->
  let e' := clicks n id e in
  result (ClickerGameEngine.click id None) e' = Normal tt /\
  totalClicks e' == totalClicks e + inject_Z (Z.of_nat n) /\
  GameStatistics.totalClicks (stats e')
  = (GameStatistics.totalClicks (stats e) + Z.of_nat n)%Z /\
  (forall other, other <> id ->
     JsMap.get (currencies e') other = JsMap.get (currencies e) other).
Proof.
  revert e. induction n as [|n IH]; intros e Hreg e'; subst e'.
  - cbn [clicks]. unfold registered in Hreg.
    destruct (JsMap.get (currencies e) id) as [c|] eqn:Hc; [|contradiction].
    destruct (click_run e id None c Hc) as (e1 & Hrun & _).
    unfold result. rewrite Hrun. simpl.
    split; [reflexivity|]. split; [ring|]. split; [lia | reflexivity].
  - cbn [clicks]. pose proof Hreg as Hreg0. unfold registered in Hreg0.
    destruct (JsMap.get (currencies e) id) as [c|] eqn:Hc; [|contradiction].
    destruct (click_run e id None c Hc)
      as (e1 & Hrun & Hcs & _ & _ & _ & Htc & Hst & _).
    unfold exec. rewrite Hrun. cbn [snd].
    assert (Hreg1 : registered (currencies e1) id).
    { unfold registered. rewrite Hcs, get_set_same. discriminate. }
    destruct (IH e1 Hreg1) as (Hr & Ht & Hs & Hframe).
    split; [exact Hr|]. split; [|split].
    + rewrite Ht, Htc. rewrite Nat2Z.inj_succ. unfold Z.succ.
      rewrite inject_Z_plus. ring.
    + rewrite Hs, Hst. lia.
    + intros other Hother. rewrite (Hframe other Hother), Hcs.
      apply get_set_other. congruence.
Qed.

Lemma clicks_are_counted_witness :
  registered (currencies (bank 0)) "gold" /\
  result (ClickerGameEngine.click "gold" None) (clicks 100 "gold" (bank 0))
  = Normal tt /\
  totalClicks (clicks 100 "gold" (bank 0))
  == totalClicks (bank 0) + inject_Z (Z.of_nat 100).
Proof.
  assert (Hreg : registered (currencies (bank 0)) "gold")
    by (vm_compute; discriminate).
  split; [exact Hreg|].
  pose proof (clicks_are_counted 100 (bank 0) "gold" Hreg) as H.
  cbv zeta in H. destruct H as (H1 & H2 & _).
  split; [exact H1 | exact H2].
Defined.

(** X12. A click on an id that is not a registered currency throws out of
    the facade before anything is counted: the engine, its click counter,
    the statistics and the trace are exactly as before. *)
Theorem click_unregistered_counts_nothing
  (e : Engine) (id : string) (base : option Q) :
  JsMap.get (currencies e) id = None ->
  ClickerGameEngine.click id base e =
  (Throw ("Currency '" ++ id ++ "' does not exist"), e).
Proof.
  intros Hc.
  unfold ClickerGameEngine.click, ProductionManager.click,
    ProductionManager.getClickMultiplier.
  cbv [bind read ret]. rewrite getCurrentMultiplier_value.
  destruct (unknown_currency_throws e id
              (nullish base 1 * nullish (JsMap.get (clickMultipliers e) id) 1
               * currentMultiplier e) Hc) as (_ & -> & _).
  reflexivity.
Qed.

Lemma click_unregistered_counts_nothing_witness :
  JsMap.get (currencies (bank 0)) "silver" = None /\
  ClickerGameEngine.click "silver" None (bank 0) =
  (Throw ("Currency '" ++ "silver" ++ "' does not exist"), bank 0).
Proof.
  assert (Hc : JsMap.get (currencies (bank 0)) "silver" = None)
    by (vm_compute; reflexivity).
  split; [exact Hc|].
  exact (click_unregistered_counts_nothing (bank 0) "silver" None Hc).
Defined.

(** ** Achievements: unlocking once, serialization, completion *)

Lemma updateProgress_run e id a p :
  JsMap.get (achievements e) id = Some a ->
  Achievement.unlocked a = false ->
  AchievementManager.updateProgress id p e =
  (Normal tt,
   if geb p (Achievement.target a)
   then
     let a' := Achievement.with_progress
                 (Achievement.with_unlocked (Achievement.with_progress a p) true)
                 (Achievement.target a) in
     set_emitted
       (emitted e ++ [ACHIEVEMENT_UNLOCKED id a';
                      ACHIEVEMENT_PROGRESS id p (Achievement.target a)])
       (set_achievements
          (JsMap.set (JsMap.set (achievements e) id (Achievement.with_progress a p))
             id a') e)
   else
     set_emitted (emitted e ++ [ACHIEVEMENT_PROGRESS id p (Achievement.target a)])
       (set_achievements
          (JsMap.set (achievements e) id (Achievement.with_progress a p)) e)).
Proof.
  intros Ha Hu. unfold AchievementManager.updateProgress.
  cbv [bind read]. rewrite Ha, Hu. cbv [AchievementManager.store modify].
  destruct (geb p (Achievement.target a)).
  - rewrite (unlockAchievement_run _ id (Achievement.with_progress a p));
      [|simpl; apply get_set_same | exact Hu].
    cbv [EventBus.emit modify]. unfold set_emitted, set_achievements. simpl.
    rewrite <- app_assoc. reflexivity.
  - reflexivity.
Qed.

Lemma unlockCount_app id l1 l2 :
  unlockCount id (l1 ++ l2) = (unlockCount id l1 + unlockCount id l2)%nat.
Proof. unfold unlockCount. now rewrite filter_app, length_app. Qed.

Lemma last_cons_default {A : Type} (l : list A) : forall (x d d' : A),
  List.last (x :: l) d = List.last (x :: l) d'.
Proof.
  induction l as [|y l IH]; intros x d d'; [reflexivity|].
  change (List.last (y :: l) d = List.last (y :: l) d'). apply IH.
Qed.

(** X13. An achievement is unlocked at most once.  Starting locked, after
    any series of [updateProgress] calls it is unlocked exactly if some
    reported progress reached the target; then its progress is the target
    and exactly one [achievement:unlocked] was emitted for it, however many
    calls followed.  If no progress reached the target it is still locked,
    no unlock was emitted and its progress is the last one reported. *)
Theorem unlocks_at_most_once (ps : list Q) (e : Engine) (id : string) (a : Achievement.t) :
  JsMap.get (achievements e) id = Some a ->
  Achievement.unlocked a = false ->
  let e' := runProgress ps id e in
  exists a',
    JsMap.get (achievements e') id = Some a' /\
    Achievement.target a' = Achievement.target a /\
    Achievement.unlocked a' = reaches (Achievement.target a) ps /\
    Achievement.progress a' =
      (if reaches (Achievement.target a) ps then Achievement.target a
       else List.last ps (Achievement.progress a)) /\
    unlockCount id (emitted e') =
      (unlockCount id (emitted e)
       + if reaches (Achievement.target a) ps then 1 else 0)%nat.
Proof.
  revert e a. induction ps as [|p r IH]; intros e a Ha Hu e'; subst e'.
  - exists a. simpl. repeat split; try assumption. lia.
  - cbn [runProgress].
    change (reaches (Achievement.target a) (p :: r))
      with (geb p (Achievement.target a) || reaches (Achievement.target a) r).
    unfold exec.
    rewrite (updateProgress_run _ _ _ _ Ha Hu). cbn [snd].
    destruct (geb p (Achievement.target a)) eqn:Hp; cbn [orb].
    + (* unlocked now: every later call is ignored *)
      set (a1 := Achievement.with_progress
                   (Achievement.with_unlocked (Achievement.with_progress a p) true)
                   (Achievement.target a)).
      set (e1 := set_emitted _ _).
      assert (Hfix : forall l, runProgress l id e1 = e1).
      { induction l as [|q l IHl]; [reflexivity|]. cbn [runProgress]. unfold exec.
        rewrite (updateProgress_unlocked_noop e1 id a1 q);
          [exact IHl | subst e1; simpl; apply get_set_same | reflexivity]. }
      rewrite Hfix. exists a1. subst e1. simpl.
      split; [apply get_set_same|]. split; [reflexivity|]. split; [reflexivity|].
      split; [reflexivity|].
      rewrite unlockCount_app. unfold unlockCount at 2. simpl.
      now rewrite String.eqb_refl.
    + set (a1 := Achievement.with_progress a p).
      set (e1 := set_emitted _ _).
      destruct (IH e1 a1) as (a' & Hget & Htgt & Hunl & Hprog & Hcount).
      { subst e1. simpl. apply get_set_same. }
      { exact Hu. }
      change (Achievement.target a1) with (Achievement.target a) in *.
      change (Achievement.progress a1) with p in *.
      exists a'. split; [exact Hget|]. split; [exact Htgt|].
      split; [exact Hunl|]. split.
      * rewrite Hprog.
        destruct (reaches (Achievement.target a) r); [reflexivity|].
        destruct r as [|q r']; [reflexivity|].
        change (List.last (p :: q :: r') (Achievement.progress a))
          with (List.last (q :: r') (Achievement.progress a)).
        apply last_cons_default.
      * rewrite Hcount. subst e1 a1. simpl.
        rewrite unlockCount_app. unfold unlockCount at 2. simpl. lia.
Qed.

Lemma unlocks_at_most_once_witness :
  JsMap.get (achievements trophyRoom) "first-steps" = Some (firstSteps false 0) /\
  exists a',
    JsMap.get (achievements (runProgress [3; 12; 4; 15] "first-steps" trophyRoom))
      "first-steps" = Some a' /\
    Achievement.unlocked a' = true /\
    unlockCount "first-steps"
      (emitted (runProgress [3; 12; 4; 15] "first-steps" trophyRoom)) = 1%nat.
Proof.
  assert (Ha : JsMap.get (achievements trophyRoom) "first-steps"
               = Some (firstSteps false 0)) by (vm_compute; reflexivity).
  split; [exact Ha|].
  pose proof (unlocks_at_most_once [3; 12; 4; 15] trophyRoom "first-steps"
                (firstSteps false 0) Ha eq_refl) as H.
  cbv zeta in H. destruct H as (a' & H1 & _ & H3 & _ & H5).
  exists a'. split; [exact H1|]. split; [exact H3 | exact H5].
Defined.

Lemma set_get_id {V : Type} (m : JsMap.t V) k v :
  JsMap.get m k = Some v -> JsMap.set m k v = m.
Proof.
  induction m as [|[k0 v0] r IH]; simpl; [discriminate|].
  destruct (String.eqb k k0) eqn:E.
  - apply String.eqb_eq in E. now intros [= ->]; subst.
  - intros H. now rewrite IH.
Qed.

Lemma achievement_eta (a : Achievement.t) :
  Achievement.with_progress
    (Achievement.with_unlocked a (Achievement.unlocked a)) (Achievement.progress a) = a.
Proof. now destruct a. Qed.

Lemma deserialize_own_state : forall (l : JsMap.t Achievement.t) (e : Engine),
  (forall k a, In (k, a) l -> JsMap.get (achievements e) k = Some a) ->
  AchievementManager.deserialize
    (JsMap.mapValues
       (fun a => AchievementState.mk (Achievement.unlocked a) (Achievement.progress a))
       l) e = (Normal tt, e).
Proof.
  unfold AchievementManager.deserialize.
  induction l as [|[k a] r IH]; intros e Hl; [reflexivity|].
  simpl. cbv [bind read]. rewrite (Hl k a) by now left.
  cbv [AchievementManager.store modify]. simpl.
  rewrite achievement_eta, set_get_id by (apply Hl; now left).
  rewrite achievements_eta. apply IH. intros k' a' Hin. apply Hl. now right.
Qed.

(** X14. Achievement state survives [serialize] / [deserialize].  Applied
    to the engine it was taken from, the serialized state changes nothing
    at all.  Applied to any later engine, it gives every achievement that
    is still registered, under an id other than ["__proto__"], the
    unlocked flag and progress it had when serialized, leaves
    achievements that were not serialized alone, never registers
    anything, and emits no event.  (An assignment to the ["__proto__"]
    key of the serialized object stores nothing, so an achievement of
    that id is never restored.) *)
Theorem achievements_roundtrip (e e' : Engine) (saved : JsMap.t AchievementState.t) :
  uniqueKeys (achievements e) ->
  result AchievementManager.serialize e = Normal saved ->
  let e2 := exec (AchievementManager.deserialize saved) e' in
  exec (AchievementManager.deserialize saved) e = e /\
  result (AchievementManager.deserialize saved) e' = Normal tt /\
  (forall id a a',
     id <> "__proto__" ->
     JsMap.get (achievements e) id = Some a ->
     JsMap.get (achievements e') id = Some a' ->
     JsMap.get (achievements e2) id =
     Some (Achievement.with_progress
             (Achievement.with_unlocked a' (Achievement.unlocked a))
             (Achievement.progress a))) /\
  (forall id, JsMap.get (achievements e) id = None ->
              JsMap.get (achievements e2) id = JsMap.get (achievements e') id) /\
  (forall id, JsMap.get (achievements e') id = None ->
              JsMap.get (achievements e2) id = None) /\
  emitted e2 = emitted e'.
Proof.
  intros Huniq Hser e2. subst e2.
  assert (Hsaved : saved =
    JsMap.mapValues
      (fun a => AchievementState.mk (Achievement.unlocked a) (Achievement.progress a))
      (achievements e)).
  { unfold result in Hser. cbn in Hser. congruence. }
  subst saved. split.
  { unfold exec. rewrite deserialize_own_state; [reflexivity|].
    intros k a Hin. now apply In_get. }
  destruct (deserialize_run _ e'
              (uniqueKeys_mapValues
                 (fun a => AchievementState.mk (Achievement.unlocked a)
                             (Achievement.progress a)) _ Huniq))
    as (acs' & Hrun & _ & Hget).
  unfold result, exec. rewrite Hrun. cbn [fst snd]. simpl.
  split; [reflexivity|]. split; [|split; [|split; [|reflexivity]]].
  - intros id a a' _ Ha Ha'. rewrite (Hget id), get_mapValues, Ha, Ha'. reflexivity.
  - intros id Ha. rewrite (Hget id), get_mapValues, Ha. reflexivity.
  - intros id Ha'. rewrite (Hget id), get_mapValues, Ha'.
    now destruct (JsMap.get (achievements e) id).
Qed.

Lemma achievements_roundtrip_witness :
  let e := exec (AchievementManager.updateProgress "first-steps" 4) trophyRoom in
  let later := exec (AchievementManager.updateProgress "first-steps" 10) e in
  let saved := [("first-steps", AchievementState.mk false 4)] in
  uniqueKeys (achievements e) /\
  result AchievementManager.serialize e = Normal saved /\
  JsMap.get (achievements later) "first-steps" = Some (firstSteps true 10) /\
  JsMap.get (achievements (exec (AchievementManager.deserialize saved) later))
    "first-steps"
  = Some (Achievement.with_progress
            (Achievement.with_unlocked (firstSteps true 10)
               (Achievement.unlocked (firstSteps false 4)))
            (Achievement.progress (firstSteps false 4))).
Proof.
  intros e later saved.
  assert (Hacs : achievements e = [("first-steps", firstSteps false 4)])
    by (vm_compute; reflexivity).
  assert (Huniq : uniqueKeys (achievements e))
    by (rewrite Hacs; apply singleton_uniqueKeys).
  assert (Hser : result AchievementManager.serialize e = Normal saved)
    by (vm_compute; reflexivity).
  assert (Ha : JsMap.get (achievements e) "first-steps" = Some (firstSteps false 4))
    by (vm_compute; reflexivity).
  assert (Ha' : JsMap.get (achievements later) "first-steps" = Some (firstSteps true 10))
    by (vm_compute; reflexivity).
  split; [exact Huniq|]. split; [exact Hser|]. split; [exact Ha'|].
  pose proof (achievements_roundtrip e later saved Huniq Hser) as H. cbv zeta in H.
  destruct H as (_ & _ & H3 & _).
  assert (Hid : "first-steps" <> "__proto__") by discriminate.
  exact (H3 "first-steps" (firstSteps false 4) (firstSteps true 10) Hid Ha Ha').
Defined.

Lemma getCompletionPercentage_run (e : Engine) :
  AchievementManager.getCompletionPercentage e =
  (Normal
     (if Nat.eqb (List.length (achievements e)) 0 then 0
      else inject_Z (Z.of_nat (List.length
                                 (List.filter Achievement.unlocked
                                    (JsMap.values (achievements e)))))
           / inject_Z (Z.of_nat (List.length (achievements e))) * 100), e).
Proof.
  unfold AchievementManager.getCompletionPercentage. cbv [bind read].
  unfold JsMap.size. destruct (Nat.eqb (List.length (achievements e)) 0); reflexivity.
Qed.

Lemma filter_length_all {A : Type} (f : A -> bool) (l : list A) :
  Forall (fun x => f x = true) l -> List.length (List.filter f l) = List.length l.
Proof.
  induction 1 as [|x l Hx Hl IH]; simpl; [reflexivity|]. now rewrite Hx, <- IH.
Qed.

Lemma filter_length_none {A : Type} (f : A -> bool) (l : list A) :
  Forall (fun x => f x = false) l -> List.length (List.filter f l) = 0%nat.
Proof.
  induction 1 as [|x l Hx Hl IH]; simpl; [reflexivity|]. now rewrite Hx.
Qed.

(** X15. The completion percentage is always between 0 and 100.  It is 0
    when no achievement is registered (no division by zero) or none is
    unlocked, and 100 when at least one is registered and all are
    unlocked; [clear] brings it back to 0 while keeping every achievement
    registered. *)
Theorem completion_percentage_bounds (e : Engine) :
  exists pct,
    AchievementManager.getCompletionPercentage e = (Normal pct, e) /\
    0 <= pct /\ pct <= 100 /\
    (Forall (fun a => Achievement.unlocked a = false) (JsMap.values (achievements e)) ->
     pct == 0) /\
    (achievements e <> [] ->
     Forall (fun a => Achievement.unlocked a = true) (JsMap.values (achievements e)) ->
     pct == 100) /\
    (exists cleared,
       result AchievementManager.getCompletionPercentage
         (exec AchievementManager.clear e) = Normal cleared /\
       cleared == 0) /\
    JsMap.keys (achievements (exec AchievementManager.clear e))
    = JsMap.keys (achievements e).
Proof.
  eexists. split; [apply getCompletionPercentage_run|].
  set (total := List.length (achievements e)).
  set (unlocked := List.length (List.filter Achievement.unlocked
                                  (JsMap.values (achievements e)))).
  assert (Hle : (unlocked <= total)%nat).
  { subst unlocked total. unfold JsMap.values.
    etransitivity; [apply filter_length_le|]. now rewrite length_map. }
  assert (Hvals : List.length (JsMap.values (achievements e)) = total)
    by (unfold JsMap.values; now rewrite length_map).
  destruct (Nat.eqb total 0) eqn:Ht.
  - apply Nat.eqb_eq in Ht.
    split; [lra|]. split; [lra|]. split; [reflexivity|]. split.
    + intros Hne. exfalso. apply Hne. subst total.
      now destruct (achievements e).
    + split; [|apply keys_mapValues].
      eexists. split; [unfold result; rewrite getCompletionPercentage_run; reflexivity|].
      unfold exec. simpl. unfold JsMap.mapValues. rewrite length_map.
      fold total. apply Nat.eqb_eq in Ht. rewrite Ht. reflexivity.
  - apply Nat.eqb_neq in Ht.
    assert (Htpos : 0 < inject_Z (Z.of_nat total)).
    { rewrite <- (Zlt_Qlt 0). lia. }
    assert (Hu0 : 0 <= inject_Z (Z.of_nat unlocked)).
    { rewrite <- (Zle_Qle 0). lia. }
    assert (Hut : inject_Z (Z.of_nat unlocked) <= inject_Z (Z.of_nat total)).
    { rewrite <- Zle_Qle. lia. }
    assert (Hfrac0 : 0 <= inject_Z (Z.of_nat unlocked) / inject_Z (Z.of_nat total)).
    { apply Qle_shift_div_l; [exact Htpos | lra]. }
    assert (Hfrac1 : inject_Z (Z.of_nat unlocked) / inject_Z (Z.of_nat total) <= 1).
    { apply Qle_shift_div_r; [exact Htpos | lra]. }
    split; [lra|]. split; [lra|]. split; [|split; [|split]].
    + intros Hnone. subst unlocked. rewrite (filter_length_none _ _ Hnone).
      change (inject_Z (Z.of_nat 0)) with 0. unfold Qdiv. ring.
    + intros _ Hall. subst unlocked. rewrite (filter_length_all _ _ Hall), Hvals.
      field. lra.
    + eexists. split; [unfold result; rewrite getCompletionPercentage_run; reflexivity|].
      unfold exec. simpl. unfold JsMap.mapValues at 1. rewrite length_map.
      fold total. apply Nat.eqb_neq in Ht. rewrite Ht.
      rewrite filter_length_none.
      * change (inject_Z (Z.of_nat 0)) with 0. unfold Qdiv. ring.
      * unfold JsMap.values, JsMap.mapValues. rewrite map_map.
        apply Forall_map. apply Forall_forall. intros x _. reflexivity.
    + apply keys_mapValues.
Qed.

Lemma completion_percentage_bounds_witness :
  let e := exec (AchievementManager.updateProgress "first-steps" 10) trophyRoom in
  achievements e <> [] /\
  Forall (fun a => Achievement.unlocked a = true) (JsMap.values (achievements e)) /\
  exists pct,
    AchievementManager.getCompletionPercentage e = (Normal pct, e) /\ pct == 100.
Proof.
  intros e.
  assert (Hacs : achievements e = [("first-steps", firstSteps true 10)])
    by (vm_compute; reflexivity).
  assert (Hne : achievements e <> []) by (rewrite Hacs; discriminate).
  assert (Hall : Forall (fun a => Achievement.unlocked a = true)
                   (JsMap.values (achievements e)))
    by (rewrite Hacs; repeat constructor).
  split; [exact Hne|]. split; [exact Hall|].
  destruct (completion_percentage_bounds e) as (pct & Hrun & _ & _ & _ & H100 & _).
  exists pct. split; [exact Hrun | exact (H100 Hne Hall)].
Defined.

(** ** Statistics *)

Lemma statistics_eta (s : GameStatistics.t) :
  GameStatistics.mk (GameStatistics.totalClicks s) (GameStatistics.totalGoldEarned s)
    (GameStatistics.totalUpgradesPurchased s) (GameStatistics.totalTimePlayed s)
    (GameStatistics.highestGold s) (GameStatistics.paradigmChanges s)
    (GameStatistics.prestigeCount s) (GameStatistics.fastestClick s)
    (GameStatistics.longestSession s) = s.
Proof. now destruct s. Qed.

(** X16. [serialize] closes the running session.  With
    [t = floor((now - sessionStart) / 1000)] it returns, and stores, the
    statistics with [t] seconds added to the time played and the longest
    session raised to at least [t], every other counter as it was, and
    restarts the session at [now].  [getCurrentStatistics] was already
    reporting that total of time played, without changing anything.
    When the longest session on record is not negative, serializing
    again at the same clock value returns the same statistics. *)
Theorem serialize_folds_session_time (e : Engine) :
  let t := ((clock e - sessionStartTime e) / 1000)%Z in
  let s :=
    GameStatistics.mk
      (GameStatistics.totalClicks (stats e))
      (GameStatistics.totalGoldEarned (stats e))
      (GameStatistics.totalUpgradesPurchased (stats e))
      (GameStatistics.totalTimePlayed (stats e) + t)%Z
      (GameStatistics.highestGold (stats e))
      (GameStatistics.paradigmChanges (stats e))
      (GameStatistics.prestigeCount (stats e))
      (GameStatistics.fastestClick (stats e))
      (Z.max (GameStatistics.longestSession (stats e)) t) in
  let e1 := set_sessionStartTime (clock e) (set_stats s e) in
  StatisticsManager.serialize e = (Normal s, e1) /\
  StatisticsManager.getCurrentStatistics e
  = (Normal
       (GameStatistics.mk
          (GameStatistics.totalClicks (stats e))
          (GameStatistics.totalGoldEarned (stats e))
          (GameStatistics.totalUpgradesPurchased (stats e))
          (GameStatistics.totalTimePlayed (stats e) + t)%Z
          (GameStatistics.highestGold (stats e))
          (GameStatistics.paradigmChanges (stats e))
          (GameStatistics.prestigeCount (stats e))
          (GameStatistics.fastestClick (stats e))
          (GameStatistics.longestSession (stats e))), e) /\
  ((0 <= GameStatistics.longestSession (stats e))%Z ->
   result StatisticsManager.serialize e1 = Normal s).
Proof.
  intros t s e1.
  assert (Hrun : StatisticsManager.serialize e = (Normal s, e1)).
  { subst s e1. unfold StatisticsManager.serialize, StatisticsManager.updateTimePlayed,
      StatisticsManager.getCurrentSessionTime.
    cbv [bind modify Date_now read ret]. cbn. fold t.
    destruct (Z.ltb_spec (GameStatistics.longestSession (stats e)) t) as [Hlt|Hge].
    - rewrite Z.max_r by lia. reflexivity.
    - rewrite Z.max_l by lia. reflexivity. }
  split; [exact Hrun|]. split; [reflexivity|].
  intros Hlong. subst e1. unfold result,
    StatisticsManager.serialize, StatisticsManager.updateTimePlayed,
    StatisticsManager.getCurrentSessionTime.
  cbv [bind modify Date_now read ret]. cbn.
  rewrite Z.sub_diag. change (0 / 1000)%Z with 0%Z. rewrite Z.add_0_r.
  assert (Hn : (Z.max (GameStatistics.longestSession (stats e)) t <? 0)%Z = false)
    by (apply Z.ltb_ge; lia).
  subst s. cbn. rewrite Hn. reflexivity.
Qed.

Lemma serialize_folds_session_time_witness :
  let e := advanceClock 7500 midGame in
  (0 <= GameStatistics.longestSession (stats e))%Z /\
  GameStatistics.totalTimePlayed (stats e) = 0%Z /\
  ((clock e - sessionStartTime e) / 1000)%Z = 7%Z /\
  exists s,
    StatisticsManager.serialize e
    = (Normal s, set_sessionStartTime (clock e) (set_stats s e)) /\
    GameStatistics.totalTimePlayed s = 7%Z /\
    result StatisticsManager.serialize
      (set_sessionStartTime (clock e) (set_stats s e)) = Normal s.
Proof.
  intros e.
  assert (Hlong : (0 <= GameStatistics.longestSession (stats e))%Z)
    by (vm_compute; discriminate).
  split; [exact Hlong|]. split; [vm_compute; reflexivity|].
  split; [vm_compute; reflexivity|].
  pose proof (serialize_folds_session_time e) as H. cbv zeta in H.
  destruct H as (H1 & _ & H3).
  eexists. split; [exact H1|]. split; [vm_compute; reflexivity | exact (H3 Hlong)].
Defined.

(** X17. [recordClick] keeps a one-second window of click times: after a
    click at time [now] the window holds [now] and only times less than
    1000 ms before it; the click total grows by one; and [fastestClick] is
    the larger of its old value and the size of the window, so it never
    decreases. *)
Theorem recordClick_window (e : Engine) :
  let e' := exec StatisticsManager.recordClick e in
  result StatisticsManager.recordClick e = Normal tt /\
  In (clock e) (clickTimeWindow e') /\
  Forall (fun t => (clock e - t < 1000)%Z) (clickTimeWindow e') /\
  (forall t, In t (clickTimeWindow e) -> (clock e - t < 1000)%Z ->
             In t (clickTimeWindow e')) /\
  GameStatistics.totalClicks (stats e')
  = (GameStatistics.totalClicks (stats e) + 1)%Z /\
  GameStatistics.fastestClick (stats e')
  = Z.max (GameStatistics.fastestClick (stats e))
      (Z.of_nat (List.length (clickTimeWindow e'))) /\
  emitted e' = emitted e.
Proof.
  intros e'. subst e'. unfold result, exec, StatisticsManager.recordClick.
  cbv [bind modify Date_now read]. cbn [fst snd].
  set (w := List.filter (fun t => (clock e - t <? 1000)%Z) (clickTimeWindow e ++ [clock e])).
  assert (Hin : In (clock e) w).
  { subst w. apply filter_In. split; [apply in_or_app; right; now left|].
    apply Z.ltb_lt. lia. }
  assert (Hall : Forall (fun t => (clock e - t < 1000)%Z) w).
  { subst w. apply Forall_forall. intros t Ht. apply filter_In in Ht.
    now apply Z.ltb_lt. }
  assert (Hkeep : forall t, In t (clickTimeWindow e) -> (clock e - t < 1000)%Z -> In t w).
  { intros t Ht Hlt. subst w. apply filter_In. split; [apply in_or_app; now left|].
    now apply Z.ltb_lt. }
  simpl. fold w.
  destruct (Z.ltb_spec (GameStatistics.fastestClick (stats e))
              (Z.of_nat (List.length w))) as [Hlt|Hge]; simpl; fold w;
    repeat split; try assumption; lia.
Qed.

Lemma recordClick_window_witness :
  let e := advanceClock 400 midGame in
  In 0%Z (clickTimeWindow e) /\ (clock e - 0 < 1000)%Z /\
  In 0%Z (clickTimeWindow (exec StatisticsManager.recordClick e)) /\
  In (clock e) (clickTimeWindow (exec StatisticsManager.recordClick e)).
Proof.
  intros e.
  assert (H0 : In 0%Z (clickTimeWindow e)) by (vm_compute; now left).
  assert (H1 : (clock e - 0 < 1000)%Z) by (vm_compute; reflexivity).
  split; [exact H0|]. split; [exact H1|].
  pose proof (recordClick_window e) as H. cbv zeta in H.
  destruct H as (_ & Hnow & _ & Hkeep & _).
  split; [exact (Hkeep 0%Z H0 H1) | exact Hnow].
Defined.

(** ** Persistence: what [load] does to a later engine, and how it fails *)

(** X18. Loading undoes later changes.  Save an engine, let it evolve in
    any way that keeps the saved entry in storage and the saved currency
    and upgrade ids registered, then load: the load succeeds; every saved
    currency is back at its saved amount (clamped at 0) and every saved
    upgrade at its saved level (clamped at 0), with their other fields as
    they are now; currencies and upgrades registered since are untouched;
    achievements get their saved flag and progress; the paradigm that was
    current when saving, if still registered, is current again; and
    [state:loaded] is the last event emitted.  The currencies, upgrades
    and achievements restored are those whose id is not ["__proto__"]:
    the snapshot is made of plain objects, and an assignment to their
    ["__proto__"] key stores nothing. *)
Theorem load_restores_snapshot
  (e e' : Engine) (key : string) (custom : option (JsMap.t Q)) :
  JsMap.get (storage e') key
  = JsMap.get (storage (exec (StateManager.save key custom) e)) key ->
  uniqueKeys (currencies e) -> uniqueKeys (upgrades e) ->
  uniqueKeys (achievements e) ->
  (forall id, registered (currencies e) id -> registered (currencies e') id) ->
  (forall id, registered (upgrades e) id -> registered (upgrades e') id) ->
  let e2 := exec (StateManager.load key) e' in
  (exists st, result (StateManager.load key) e' = Normal (Some st)) /\
  (forall id c c',
     id <> "__proto__" ->
     JsMap.get (currencies e) id = Some c -> JsMap.get (currencies e') id = Some c' ->
     JsMap.get (currencies e2) id
     = Some (Currency.with_amount c' (Math.max 0 (Currency.amount c)))) /\
  (forall id, JsMap.get (currencies e) id = None ->
     JsMap.get (currencies e2) id = JsMap.get (currencies e') id) /\
  (forall id u u',
     id <> "__proto__" ->
     JsMap.get (upgrades e) id = Some u -> JsMap.get (upgrades e') id = Some u' ->
     JsMap.get (upgrades e2) id
     = Some (Upgrade.with_level u' (Z.max 0 (Upgrade.level u)))) /\
  (forall id, JsMap.get (upgrades e) id = None ->
     JsMap.get (upgrades e2) id = JsMap.get (upgrades e') id) /\
  (forall id a a',
     id <> "__proto__" ->
     JsMap.get (achievements e) id = Some a ->
     JsMap.get (achievements e') id = Some a' ->
     JsMap.get (achievements e2) id
     = Some (Achievement.with_progress
               (Achievement.with_unlocked a' (Achievement.unlocked a))
               (Achievement.progress a))) /\
  (forall p, currentOf e = Some p -> Paradigm.id p <> "" ->
     registered (paradigms e') (Paradigm.id p) ->
     currentParadigm e2 = Some (Paradigm.id p)) /\
  (exists evs,
     emitted e2 = (emitted e' ++ evs ++ [STATE_LOADED key (clock e)])%list).
Proof.
  intros Hstored Ucs Uus Uacs Rcs Rus e2.
  destruct (save_run key custom e) as (s' & Hsave). cbv zeta in Hsave.
  set (st := GameState.mk (clock e)
        (JsMap.mapValues Currency.amount (currencies e))
        (JsMap.mapValues Upgrade.level (upgrades e))
        (nullish (option_map Paradigm.id (currentOf e)) "default")
        0
        (Some (JsMap.mapValues
                 (fun a => AchievementState.mk (Achievement.unlocked a)
                             (Achievement.progress a))
                 (achievements e)))
        (Some s') custom) in Hsave.
  assert (Hst : JsMap.get (storage e') key = Some st).
  { rewrite Hstored. unfold exec. rewrite Hsave. simpl. apply get_set_same. }
  destruct (load_run e' key st
              (JsMap.mapValues
                 (fun a => AchievementState.mk (Achievement.unlocked a)
                             (Achievement.progress a))
                 (achievements e)) s' Hst eq_refl eq_refl)
    as (e2' & Hload & Hg1 & Hg2 & Hcur & Hg4 & _ & _ & _ & Hevs).
  { now apply uniqueKeys_mapValues. }
  { now apply uniqueKeys_mapValues. }
  { now apply uniqueKeys_mapValues. }
  { intros k Hk. apply Rcs. now apply registered_mapValues in Hk. }
  { intros k Hk. apply Rus. now apply registered_mapValues in Hk. }
  assert (He2 : e2 = e2') by (subst e2; unfold exec; now rewrite Hload).
  rewrite He2. clear He2 e2.
  split; [exists st; unfold result; now rewrite Hload|].
  split; [|split; [|split; [|split; [|split; [|split]]]]].
  - intros id c c' _ Hc Hc'. rewrite (Hg1 id). simpl.
    now rewrite get_mapValues, Hc, Hc'.
  - intros id Hc. rewrite (Hg1 id). simpl. now rewrite get_mapValues, Hc.
  - intros id u u' _ Hu Hu'. rewrite (Hg2 id). simpl.
    now rewrite get_mapValues, Hu, Hu'.
  - intros id Hu. rewrite (Hg2 id). simpl. now rewrite get_mapValues, Hu.
  - intros id a a' _ Ha Ha'. rewrite (Hg4 id). now rewrite get_mapValues, Ha, Ha'.
  - intros p Hp Hid Hreg. rewrite Hcur. simpl. rewrite Hp. simpl.
    apply truthy_string_iff in Hid. rewrite Hid.
    apply has_true_iff in Hreg. now rewrite Hreg.
  - exact Hevs.
Qed.

Lemma load_restores_snapshot_witness :
  let later :=
    exec (CurrencyManager.set "gold" 1)
      (exec (UpgradeManager.setLevel "sword" 9)
         (exec (StateManager.save "slot" None) midGame)) in
  JsMap.get (currencies later) "gold" = Some (gold 1) /\
  JsMap.get (currencies (exec (StateManager.load "slot") later)) "gold"
  = Some (Currency.with_amount (gold 1) (Math.max 0 (Currency.amount (gold 120)))) /\
  JsMap.get (upgrades (exec (StateManager.load "slot") later)) "sword"
  = Some (Upgrade.with_level (sword 9) (Z.max 0 (Upgrade.level (sword 2)))).
Proof.
  intros later.
  assert (Hcs : currencies midGame = [("gold", gold 120)]) by (vm_compute; reflexivity).
  assert (Hus : upgrades midGame = [("sword", sword 2)]) by (vm_compute; reflexivity).
  assert (Hacs : achievements midGame = [("first-steps", firstSteps false 5)])
    by (vm_compute; reflexivity).
  assert (Hcs' : currencies later = [("gold", gold 1)]) by (vm_compute; reflexivity).
  assert (Hus' : upgrades later = [("sword", sword 9)]) by (vm_compute; reflexivity).
  assert (H0 : JsMap.get (storage later) "slot"
               = JsMap.get (storage (exec (StateManager.save "slot" None) midGame)) "slot")
    by (vm_compute; reflexivity).
  assert (H1 : uniqueKeys (currencies midGame))
    by (rewrite Hcs; apply singleton_uniqueKeys).
  assert (H2 : uniqueKeys (upgrades midGame))
    by (rewrite Hus; apply singleton_uniqueKeys).
  assert (H3 : uniqueKeys (achievements midGame))
    by (rewrite Hacs; apply singleton_uniqueKeys).
  assert (H4 : forall id, registered (currencies midGame) id ->
                          registered (currencies later) id)
    by (rewrite Hcs, Hcs'; unfold registered; simpl; intros id;
        destruct (String.eqb id "gold"); congruence).
  assert (H5 : forall id, registered (upgrades midGame) id ->
                          registered (upgrades later) id)
    by (rewrite Hus, Hus'; unfold registered; simpl; intros id;
        destruct (String.eqb id "sword"); congruence).
  assert (Hg : JsMap.get (currencies later) "gold" = Some (gold 1))
    by (rewrite Hcs'; reflexivity).
  split; [exact Hg|].
  pose proof (load_restores_snapshot midGame later "slot" None H0 H1 H2 H3 H4 H5) as H.
  cbv zeta in H. destruct H as (_ & Hc & _ & Hu & _).
  split.
  - apply (Hc "gold" (gold 120) (gold 1));
      [discriminate | rewrite Hcs; reflexivity | exact Hg].
  - apply (Hu "sword" (sword 2) (sword 9));
      [discriminate | rewrite Hus; reflexivity | rewrite Hus'; reflexivity].
Defined.

Lemma registered_set_other {V : Type} (m : JsMap.t V) k k' v :
  k <> k' -> (registered (JsMap.set m k v) k' <-> registered m k').
Proof. intros Hne. unfold registered. now rewrite get_set_other. Qed.

(** The first loop of [load] stops at the first saved id that is not a
    registered currency; amounts written before it stay written. *)
Lemma restore_currencies_throws : forall (saved : JsMap.t Q) (e : Engine),
  (exists k, registered saved k /\ ~ registered (currencies e) k) ->
  exists msg cs' evs,
    forEach (fun entry => CurrencyManager.set (fst entry) (snd entry)) saved e =
      (Throw msg, set_emitted (emitted e ++ evs) (set_currencies cs' e)) /\
    Forall isCurrencyChanged evs.
Proof.
  induction saved as [|[k a] rest IH]; intros e (k0 & Hk0 & Hno).
  - exfalso. apply Hk0. reflexivity.
  - simpl. cbv [bind].
    destruct (JsMap.get (currencies e) k) as [c|] eqn:Hc.
    + rewrite (set_run _ _ _ _ Hc).
      set (ev := CURRENCY_CHANGED k (Currency.amount c) (Math.max 0 a)
                   (Math.max 0 a - Currency.amount c)).
      set (e1 := set_emitted (emitted e ++ [ev])
                   (set_currencies
                      (JsMap.set (currencies e) k
                         (Currency.with_amount c (Math.max 0 a))) e)).
      assert (Hne : k <> k0).
      { intros <-. apply Hno. unfold registered. congruence. }
      destruct (IH e1) as (msg & cs' & evs & Hrun & Hevs).
      { exists k0. split.
        - unfold registered in *. rewrite get_cons in Hk0.
          destruct (String.eqb k0 k) eqn:E; [|exact Hk0].
          apply String.eqb_eq in E. congruence.
        - subst e1. simpl. now rewrite registered_set_other. }
      exists msg, cs', (ev :: evs). rewrite Hrun. subst e1.
      split; [|constructor; [exact I | exact Hevs]].
      unfold set_emitted, set_currencies. simpl. rewrite <- app_assoc. reflexivity.
    + destruct (unknown_currency_throws e k a Hc) as (-> & _).
      eexists. exists (currencies e), []. rewrite engine_eta.
      split; [reflexivity | constructor].
Qed.

(** X19. How [load] fails.  With nothing stored under the key it returns
    [null] and the engine is untouched.  With a stored state that names a
    currency which is no longer registered it returns [null] as well, but
    part way: amounts may already have been written, whereas upgrade
    levels, the current paradigm, achievements and statistics are not
    restored and no [state:loaded] is emitted. *)
Theorem load_failures (e : Engine) (key : string) :
  (JsMap.get (storage e) key = None ->
   StateManager.load key e = (Normal None, e)) /\
  (forall st,
     JsMap.get (storage e) key = Some st ->
     (exists k, registered (GameState.currencies st) k /\
                ~ registered (currencies e) k) ->
     let e2 := exec (StateManager.load key) e in
     result (StateManager.load key) e = Normal None /\
     upgrades e2 = upgrades e /\
     paradigms e2 = paradigms e /\
     currentParadigm e2 = currentParadigm e /\
     achievements e2 = achievements e /\
     stats e2 = stats e /\
     exists evs, emitted e2 = (emitted e ++ evs)%list /\
                 Forall isCurrencyChanged evs).
Proof.
  split.
  - intros Hnone. unfold StateManager.load.
    cbv [try_catch bind MemoryStorageAdapter.load read ret]. now rewrite Hnone.
  - intros st Hst Hmissing e2. subst e2.
    destruct (restore_currencies_throws _ e Hmissing) as (msg & cs' & evs & Hrun & Hevs).
    unfold result, exec, StateManager.load.
    cbv [try_catch bind MemoryStorageAdapter.load read ret].
    rewrite Hst, Hrun. simpl. repeat split. exists evs. now split.
Qed.

Lemma load_failures_witness :
  let e := exec (CurrencyManager.removeCurrency "gold")
             (exec (StateManager.save "slot" None) midGame) in
  JsMap.get (storage e) "empty-slot" = None /\
  StateManager.load "empty-slot" e = (Normal None, e) /\
  (exists k, registered [("gold", 120)] k /\ ~ registered (currencies e) k) /\
  result (StateManager.load "slot") e = Normal None /\
  upgrades (exec (StateManager.load "slot") e) = upgrades e.
Proof.
  intros e.
  assert (Hnone : JsMap.get (storage e) "empty-slot" = None) by (vm_compute; reflexivity).
  destruct (load_failures e "empty-slot") as (Habsent & _).
  split; [exact Hnone|]. split; [exact (Habsent Hnone)|].
  assert (Hmissing : exists k, registered [("gold", 120)] k /\
                               ~ registered (currencies e) k).
  { exists "gold". split; [vm_compute; discriminate|].
    vm_compute. intros H. now apply H. }
  split; [exact Hmissing|].
  destruct (load_failures e "slot") as (_ & Hbroken).
  assert (Hst : exists st, JsMap.get (storage e) "slot" = Some st /\
                           GameState.currencies st = [("gold", 120)]).
  { eexists. split; vm_compute; reflexivity. }
  destruct Hst as (st & Hst & Hcur).
  rewrite <- Hcur in Hmissing.
  pose proof (Hbroken st Hst Hmissing) as H. cbv zeta in H.
  destruct H as (H1 & H2 & _). split; [exact H1 | exact H2].
Defined.

(** X20. What [loadGame] does to the click counter.  After [saveGame],
    whatever happened since (with the saved entry still stored and the
    saved ids still registered), [loadGame] returns [true] and sets the
    engine's click counter to the saved count if that count is not zero;
    a saved count of zero leaves the counter at its current value. *)
Theorem loadGame_click_counter (e e' : Engine) (key : string) :
  JsMap.get (storage e') key
  = JsMap.get (storage (exec (ClickerGameEngine.saveGame key) e)) key ->
  uniqueKeys (currencies e) -> uniqueKeys (upgrades e) ->
  uniqueKeys (achievements e) ->
  (forall id, registered (currencies e) id -> registered (currencies e') id) ->
  (forall id, registered (upgrades e) id -> registered (upgrades e') id) ->
  result (ClickerGameEngine.loadGame key) e' = Normal true /\
  totalClicks (exec (ClickerGameEngine.loadGame key) e')
  = (if Qeq_bool (totalClicks e) 0 then totalClicks e' else totalClicks e).
Proof.
  intros Hstored Ucs Uus Uacs Rcs Rus.
  destruct (save_run key (Some [("totalClicks", totalClicks e)]) e) as (s' & Hsave).
  cbv zeta in Hsave.
  set (st := GameState.mk (clock e)
        (JsMap.mapValues Currency.amount (currencies e))
        (JsMap.mapValues Upgrade.level (upgrades e))
        (nullish (option_map Paradigm.id (currentOf e)) "default")
        0
        (Some (JsMap.mapValues
                 (fun a => AchievementState.mk (Achievement.unlocked a)
                             (Achievement.progress a))
                 (achievements e)))
        (Some s') (Some [("totalClicks", totalClicks e)])) in Hsave.
  assert (Hst : JsMap.get (storage e') key = Some st).
  { rewrite Hstored. unfold exec, ClickerGameEngine.saveGame. cbv [bind read].
    rewrite Hsave. simpl. apply get_set_same. }
  destruct (load_run e' key st
              (JsMap.mapValues
                 (fun a => AchievementState.mk (Achievement.unlocked a)
                             (Achievement.progress a))
                 (achievements e)) s' Hst eq_refl eq_refl)
    as (e2 & Hload & _ & _ & _ & _ & _ & _ & Htc & _).
  { now apply uniqueKeys_mapValues. }
  { now apply uniqueKeys_mapValues. }
  { now apply uniqueKeys_mapValues. }
  { intros k Hk. apply Rcs. now apply registered_mapValues in Hk. }
  { intros k Hk. apply Rus. now apply registered_mapValues in Hk. }
  unfold result, exec, ClickerGameEngine.loadGame. cbv [bind]. rewrite Hload.
  subst st. cbn [GameState.custom]. unfold truthy_number.
  change (JsMap.get [("totalClicks", totalClicks e)] "totalClicks")
    with (Some (totalClicks e)).
  cbv beta iota.
  destruct (Qeq_bool (totalClicks e) 0); cbv [modify ret negb fst snd];
    (split; [reflexivity|]); [exact Htc | reflexivity].
Qed.

Lemma loadGame_click_counter_witness :
  let later := clicks 2 "gold" (exec (ClickerGameEngine.saveGame "slot") midGame) in
  totalClicks later = 5 /\
  result (ClickerGameEngine.loadGame "slot") later = Normal true /\
  totalClicks (exec (ClickerGameEngine.loadGame "slot") later)
  = (if Qeq_bool (totalClicks midGame) 0 then totalClicks later
     else totalClicks midGame).
Proof.
  intros later.
  assert (Hcs : currencies midGame = [("gold", gold 120)]) by (vm_compute; reflexivity).
  assert (Hus : upgrades midGame = [("sword", sword 2)]) by (vm_compute; reflexivity).
  assert (Hacs : achievements midGame = [("first-steps", firstSteps false 5)])
    by (vm_compute; reflexivity).
  assert (Hcs' : currencies later = [("gold", gold 124)]) by (vm_compute; reflexivity).
  assert (Hus' : upgrades later = [("sword", sword 2)]) by (vm_compute; reflexivity).
  assert (H0 : JsMap.get (storage later) "slot"
               = JsMap.get (storage (exec (ClickerGameEngine.saveGame "slot") midGame))
                   "slot")
    by (vm_compute; reflexivity).
  assert (H1 : uniqueKeys (currencies midGame))
    by (rewrite Hcs; apply singleton_uniqueKeys).
  assert (H2 : uniqueKeys (upgrades midGame))
    by (rewrite Hus; apply singleton_uniqueKeys).
  assert (H3 : uniqueKeys (achievements midGame))
    by (rewrite Hacs; apply singleton_uniqueKeys).
  assert (H4 : forall id, registered (currencies midGame) id ->
                          registered (currencies later) id)
    by (rewrite Hcs, Hcs'; unfold registered; simpl; intros id;
        destruct (String.eqb id "gold"); congruence).
  assert (H5 : forall id, registered (upgrades midGame) id ->
                          registered (upgrades later) id)
    by (rewrite Hus, Hus'; now intros id).
  split; [vm_compute; reflexivity|].
  exact (loadGame_click_counter midGame later "slot" H0 H1 H2 H3 H4 H5).
Defined.

(** X21. The life of a saved game, through the facade (in-memory
    storage).  [saveGame] never throws; afterwards [hasSavedGame] is true
    for that key and saves under other keys are as before.  After
    [deleteSavedGame], when the store held one entry per key,
    [hasSavedGame] is false and [loadGame] returns [false] without
    touching the engine. *)
Theorem saved_game_lifecycle (e : Engine) (key other : string) :
  let saved := exec (ClickerGameEngine.saveGame key) e in
  let deleted := exec (ClickerGameEngine.deleteSavedGame key) saved in
  result (ClickerGameEngine.saveGame key) e = Normal tt /\
  result (ClickerGameEngine.hasSavedGame key) saved = Normal true /\
  (other <> key ->
   JsMap.get (storage saved) other = JsMap.get (storage e) other) /\
  (uniqueKeys (storage e) ->
   result (ClickerGameEngine.hasSavedGame key) deleted = Normal false /\
   ClickerGameEngine.loadGame key deleted = (Normal false, deleted)).
Proof.
  intros saved deleted. subst deleted saved.
  destruct (save_run key (Some [("totalClicks", totalClicks e)]) e) as (s' & Hsave).
  cbv zeta in Hsave.
  assert (Hrun : ClickerGameEngine.saveGame key e =
                 StateManager.save key (Some [("totalClicks", totalClicks e)]) e)
    by reflexivity.
  unfold result, exec. rewrite Hrun, Hsave. cbn [fst snd].
  split; [reflexivity|]. split.
  { unfold ClickerGameEngine.hasSavedGame, StateManager.exists_,
      MemoryStorageAdapter.exists_. cbv [bind read ret]. simpl.
    unfold JsMap.has. now rewrite get_set_same. }
  split.
  { intros Hne. simpl. apply get_set_other. congruence. }
  intros Huniq.
  assert (Hgone : forall st (m : JsMap.t GameState.t),
            uniqueKeys m -> JsMap.get (JsMap.delete (JsMap.set m key st) key) key = None).
  { intros st m Hm. apply get_delete_same. now apply set_uniqueKeys. }
  split.
  - unfold ClickerGameEngine.hasSavedGame, ClickerGameEngine.deleteSavedGame,
      StateManager.exists_, StateManager.delete,
      MemoryStorageAdapter.exists_, MemoryStorageAdapter.delete.
    cbv [try_catch bind read ret modify]. simpl.
    unfold JsMap.has. now rewrite Hgone.
  - unfold ClickerGameEngine.loadGame, ClickerGameEngine.deleteSavedGame,
      StateManager.delete, MemoryStorageAdapter.delete, StateManager.load,
      MemoryStorageAdapter.load.
    cbv [try_catch bind read ret modify]. simpl. now rewrite Hgone.
Qed.

Lemma saved_game_lifecycle_witness :
  uniqueKeys (storage midGame) /\
  result (ClickerGameEngine.hasSavedGame "slot")
    (exec (ClickerGameEngine.deleteSavedGame "slot")
       (exec (ClickerGameEngine.saveGame "slot") midGame)) = Normal false.
Proof.
  assert (Huniq : uniqueKeys (storage midGame)) by (vm_compute; constructor).
  split; [exact Huniq|].
  pose proof (saved_game_lifecycle midGame "slot" "other") as H. cbv zeta in H.
  destruct H as (_ & _ & _ & H4). exact (proj1 (H4 Huniq)).
Defined.

(** ** Tabs *)

Lemma tabInv_new : tabInv UIManager.new.
Proof.
  repeat split; simpl; try discriminate.
  - constructor.
  - unfold registered. simpl. tauto.
Qed.

Lemma addTab_inv s t :
  UITab.id t <> "" -> tabInv s -> tabInv (snd (UIManager.addTab t s)).
Proof.
  intros Hid (Huniq & Hnoempty & Hact & Hcur). unfold UIManager.addTab.
  destruct (JsMap.has (UIManager.tabs s) (UITab.id t)) eqn:Hhas.
  { simpl. repeat split; assumption. }
  assert (Hfresh : JsMap.get (UIManager.tabs s) (UITab.id t) = None).
  { unfold JsMap.has in Hhas. now destruct (JsMap.get (UIManager.tabs s) (UITab.id t)). }
  destruct (UIManager.activeTab s) as [c|] eqn:Hc; simpl.
  - repeat split; simpl.
    + now apply set_uniqueKeys.
    + unfold registered. rewrite get_set_other by exact Hid. exact Hnoempty.
    + intros k q. rewrite get_set; rewrite ?Hc.
      destruct (String.eqb (UITab.id t) k); [intros [= <-]; discriminate|].
      apply Hact.
    + rewrite ?Hc. intros c' [= <-]. destruct (Hcur c eq_refl) as (q & Hq & Hqa).
      exists q. split; [|exact Hqa]. rewrite get_set_other; [exact Hq|].
      intros <-. congruence.
  - destruct (UITab.active t) eqn:Ht; simpl.
    + repeat split; simpl.
      * now apply set_uniqueKeys.
      * unfold registered. rewrite get_set_other by exact Hid. exact Hnoempty.
      * intros k q. rewrite get_set.
        destruct (String.eqb (UITab.id t) k) eqn:E.
        -- apply String.eqb_eq in E. now subst.
        -- intros Hq Hqa. specialize (Hact k q Hq Hqa). congruence.
      * intros c' [= <-]. eexists. rewrite get_set_same. now split.
    + repeat split; simpl.
      * now apply set_uniqueKeys.
      * unfold registered. rewrite get_set_other by exact Hid. exact Hnoempty.
      * intros k q. rewrite get_set; rewrite ?Hc.
        destruct (String.eqb (UITab.id t) k); [intros [= <-]; discriminate|].
        apply Hact.
      * rewrite ?Hc. discriminate.
Qed.

Lemma switchTab_inv s id : tabInv s -> tabInv (snd (UIManager.switchTab id s)).
Proof.
  intros (Huniq & Hnoempty & Hact & Hcur). unfold UIManager.switchTab.
  destruct (JsMap.get (UIManager.tabs s) id) as [t|] eqn:Ht.
  2:{ simpl. repeat split; assumption. }
  destruct (UITab.visible t); simpl.
  2:{ repeat split; assumption. }
  assert (Hid : id <> "") by (intros ->; apply Hnoempty; unfold registered; congruence).
  destruct (UIManager.activeTab s) as [c|] eqn:Hc.
  - destruct (Hcur c eq_refl) as (tc & Htc & Htca).
    assert (Hcne : c <> "") by (intros ->; apply Hnoempty; unfold registered; congruence).
    apply truthy_string_iff in Hcne. rewrite Hcne, Htc.
    repeat split; simpl.
    + now do 2 apply set_uniqueKeys.
    + unfold registered. rewrite get_set_other by exact Hid.
      rewrite get_set_other; [exact Hnoempty|]. now apply truthy_string_iff.
    + intros k q. rewrite get_set.
      destruct (String.eqb id k) eqn:E.
      * apply String.eqb_eq in E. now subst.
      * rewrite get_set. destruct (String.eqb c k) eqn:E'.
        -- intros [= <-]. discriminate.
        -- intros Hq Hqa. specialize (Hact k q Hq Hqa).
           injection Hact as ->. now rewrite String.eqb_refl in E'.
    + intros c' [= <-]. eexists. rewrite get_set_same. now split.
  - repeat split; simpl.
    + now apply set_uniqueKeys.
    + unfold registered. rewrite get_set_other by exact Hid. exact Hnoempty.
    + intros k q. rewrite get_set.
      destruct (String.eqb id k) eqn:E.
      * apply String.eqb_eq in E. now subst.
      * intros Hq Hqa. specialize (Hact k q Hq Hqa). discriminate.
    + intros c' [= <-]. eexists. rewrite get_set_same. now split.
Qed.

Lemma runTabCalls_inv cs : forall s,
  Forall namedTabCall cs -> tabInv s -> tabInv (runTabCalls cs s).
Proof.
  induction cs as [|c r IH]; intros s Hall Hinv; simpl; [exact Hinv|].
  inversion Hall as [|? ? Hc Hr]; subst.
  apply IH; [exact Hr|].
  destruct c as [t|id]; simpl in *.
  - now apply addTab_inv.
  - now apply switchTab_inv.
Qed.

(** X22. At most one tab is active.  After any sequence of [addTab] and
    [switchTab] calls on a new tab manager (ids non-empty, throwing calls
    included), at most one tab carries the active flag, and it is the tab
    that [getActive] returns; with no tab flagged, [getActive] returns
    nothing. *)
Theorem tabs_single_active (cs : list TabCall) :
  Forall namedTabCall cs ->
  let s := runTabCalls cs UIManager.new in
  (List.length (activeTabs s) <= 1)%nat /\
  (activeTabs s = [] -> UIManager.getActive s = None) /\
  (forall k t, In (k, t) (activeTabs s) -> UIManager.getActive s = Some t).
Proof.
  intros Hall s.
  assert (Hinv : tabInv s) by (apply runTabCalls_inv; [exact Hall | apply tabInv_new]).
  destruct Hinv as (Huniq & Hnoempty & Hact & Hcur).
  split; [|split].
  - unfold activeTabs. destruct (UIManager.activeTab s) as [c|] eqn:Hc.
    + apply (same_key_at_most_one _ c); [exact Huniq|].
      intros [k q] Hin. apply filter_In in Hin. destruct Hin as (Hin & Hqa).
      simpl in *. apply (In_get _ _ _ Huniq) in Hin.
      specialize (Hact k q Hin Hqa). congruence.
    + destruct (List.filter _ _) as [|[k q] r] eqn:Hf; simpl; [lia|].
      assert (Hin : In (k, q) (List.filter (fun kv => UITab.active (snd kv))
                                 (UIManager.tabs s))) by (rewrite Hf; now left).
      apply filter_In in Hin. destruct Hin as (Hin & Hqa). simpl in *.
      apply (In_get _ _ _ Huniq) in Hin.
      specialize (Hact k q Hin Hqa). discriminate.
  - intros Hnone. unfold UIManager.getActive.
    destruct (UIManager.activeTab s) as [c|] eqn:Hc; [|reflexivity].
    destruct (Hcur c eq_refl) as (t & Ht & Hta).
    assert (Hin : In (c, t) (activeTabs s)).
    { unfold activeTabs. apply filter_In. split; [now apply get_In | exact Hta]. }
    rewrite Hnone in Hin. contradiction.
  - intros k t Hin. unfold activeTabs in Hin.
    apply filter_In in Hin. destruct Hin as (Hin & Hta). simpl in Hta.
    apply (In_get _ _ _ Huniq) in Hin. unfold UIManager.getActive.
    rewrite (Hact k t Hin Hta).
    assert (Hk : k <> "") by (intros ->; apply Hnoempty; unfold registered; congruence).
    apply truthy_string_iff in Hk. now rewrite Hk.
Qed.

Lemma tabs_single_active_witness :
  let cs := [AddTab (tab "main" true true 2); AddTab (tab "shop" true true 1);
             SwitchTab "shop"; SwitchTab "hidden"] in
  Forall namedTabCall cs /\
  (List.length (activeTabs (runTabCalls cs UIManager.new)) <= 1)%nat /\
  UIManager.getActive (runTabCalls cs UIManager.new) = Some (tab "shop" true true 1).
Proof.
  intros cs.
  assert (Hnamed : Forall namedTabCall cs) by (repeat constructor; discriminate).
  split; [exact Hnamed|].
  pose proof (tabs_single_active cs Hnamed) as H. cbv zeta in H.
  destruct H as (H1 & _ & H3). split; [exact H1|].
  apply (H3 "shop"). vm_compute. left. reflexivity.
Defined.

(** X23. [switchTab] succeeds exactly on a registered, visible tab; then
    that tab is the active one and one [ui:tabSwitched] is emitted.  On an
    unknown or hidden tab it throws and the state is untouched. *)
Theorem switchTab_outcome (s : UIManager.State) (tabId : string) :
  (fst (UIManager.switchTab tabId s) = Normal tt <->
   exists t, JsMap.get (UIManager.tabs s) tabId = Some t /\ UITab.visible t = true) /\
  (fst (UIManager.switchTab tabId s) <> Normal tt ->
   snd (UIManager.switchTab tabId s) = s) /\
  (fst (UIManager.switchTab tabId s) = Normal tt ->
   let s' := snd (UIManager.switchTab tabId s) in
   UIManager.getActiveId s' = Some tabId /\
   (exists t', JsMap.get (UIManager.tabs s') tabId = Some t' /\
               UITab.active t' = true /\ UITab.visible t' = true) /\
   exists name, UIManager.emitted s'
                = (UIManager.emitted s ++ [TAB_SWITCHED tabId name])%list).
Proof.
  unfold UIManager.switchTab.
  destruct (JsMap.get (UIManager.tabs s) tabId) as [t|] eqn:Ht.
  2:{ simpl. split; [|split].
      - split; [discriminate | intros (t & H & _); discriminate].
      - reflexivity.
      - discriminate. }
  destruct (UITab.visible t) eqn:Hv; simpl.
  2:{ split; [|split].
      - split; [discriminate | intros (t' & [= <-] & H); congruence].
      - reflexivity.
      - discriminate. }
  split; [|split].
  - split; [intros _; now exists t | reflexivity].
  - congruence.
  - intros _. split; [reflexivity|]. split.
    + eexists. rewrite get_set_same. split; [reflexivity|]. split; [reflexivity|].
      simpl.
      destruct (UIManager.activeTab s) as [c|]; [|now rewrite Ht].
      destruct (truthy_string c); [|now rewrite Ht].
      destruct (JsMap.get (UIManager.tabs s) c) as [cur|] eqn:Hc; [|now rewrite Ht].
      rewrite get_set. destruct (String.eqb c tabId) eqn:E; simpl.
      * apply String.eqb_eq in E. subst c. congruence.
      * now rewrite Ht.
    + eexists. reflexivity.
Qed.

Lemma switchTab_outcome_witness :
  fst (UIManager.switchTab "stats" threeTabs) <> Normal tt /\
  snd (UIManager.switchTab "stats" threeTabs) = threeTabs /\
  fst (UIManager.switchTab "shop" threeTabs) = Normal tt /\
  UIManager.getActiveId (snd (UIManager.switchTab "shop" threeTabs)) = Some "shop".
Proof.
  assert (H1 : fst (UIManager.switchTab "stats" threeTabs) <> Normal tt)
    by (vm_compute; discriminate).
  assert (H2 : fst (UIManager.switchTab "shop" threeTabs) = Normal tt)
    by (vm_compute; reflexivity).
  split; [exact H1|].
  destruct (switchTab_outcome threeTabs "stats") as (_ & Hkeep & _).
  split; [exact (Hkeep H1)|]. split; [exact H2|].
  destruct (switchTab_outcome threeTabs "shop") as (_ & _ & Hok).
  exact (proj1 (Hok H2)).
Defined.

Lemma insertByOrder_perm x l : Permutation (UIManager.insertByOrder x l) (x :: l).
Proof.
  induction l as [|y r IH]; simpl; [reflexivity|].
  destruct (Qle_bool (UITab.order x) (UITab.order y)); [reflexivity|].
  rewrite IH. apply perm_swap.
Qed.

Lemma insertByOrder_sorted x l :
  StronglySorted byOrder l -> StronglySorted byOrder (UIManager.insertByOrder x l).
Proof.
  induction 1 as [|y r Hr IH Hy]; simpl.
  - repeat constructor.
  - destruct (Qle_bool (UITab.order x) (UITab.order y)) eqn:E.
    + apply Qle_bool_iff in E. constructor; [now constructor|].
      constructor; [exact E|].
      apply Forall_forall. intros z Hz. rewrite Forall_forall in Hy.
      unfold byOrder in *. apply Qle_trans with (UITab.order y); [exact E | now apply Hy].
    + constructor; [exact IH|].
      apply Forall_forall. intros z Hz.
      apply (Permutation_in _ (insertByOrder_perm x r)) in Hz.
      destruct Hz as [<-|Hz].
      * unfold byOrder. apply Qlt_le_weak. apply Qnot_le_lt. intros Hle.
        apply Qle_bool_iff in Hle. congruence.
      * rewrite Forall_forall in Hy. now apply Hy.
Qed.

Lemma sortByOrder_perm l : Permutation (UIManager.sortByOrder l) l.
Proof.
  induction l as [|x r IH]; simpl; [reflexivity|].
  rewrite insertByOrder_perm. now constructor.
Qed.

Lemma sortByOrder_sorted l : StronglySorted byOrder (UIManager.sortByOrder l).
Proof.
  induction l as [|x r IH]; simpl; [constructor | now apply insertByOrder_sorted].
Qed.

(** Among tabs of one [order] value, insertion keeps the earlier tab first. *)
Lemma insertByOrder_stable (o : Q) x l :
  StronglySorted byOrder l ->
  List.filter (fun t => Qeq_bool (UITab.order t) o) (UIManager.insertByOrder x l) =
  List.filter (fun t => Qeq_bool (UITab.order t) o) (x :: l).
Proof.
  induction 1 as [|y r Hr IH Hy]; [reflexivity|].
  cbn [UIManager.insertByOrder].
  destruct (Qle_bool (UITab.order x) (UITab.order y)) eqn:E; [reflexivity|].
  cbn [List.filter] in *. rewrite IH.
  destruct (Qeq_bool (UITab.order x) o) eqn:Ex; [|reflexivity].
  destruct (Qeq_bool (UITab.order y) o) eqn:Ey; [|reflexivity].
  exfalso. apply Qeq_bool_iff in Ex. apply Qeq_bool_iff in Ey.
  assert (Hle : UITab.order x <= UITab.order y) by (rewrite Ex, Ey; apply Qle_refl).
  apply Qle_bool_iff in Hle. congruence.
Qed.

Lemma filter_sorted {A : Type} (R : A -> A -> Prop) (f : A -> bool) (l : list A) :
  StronglySorted R l -> StronglySorted R (List.filter f l).
Proof.
  induction 1 as [|y r Hr IH Hy]; simpl; [constructor|].
  destruct (f y); [|exact IH]. constructor; [exact IH|].
  apply Forall_forall. intros z Hz. apply filter_In in Hz.
  rewrite Forall_forall in Hy. now apply Hy.
Qed.

Lemma getVisible_sorted (s : UIManager.State) :
  StronglySorted byOrder (UIManager.getVisible s).
Proof.
  unfold UIManager.getVisible, UIManager.getAll.
  apply filter_sorted, sortByOrder_sorted.
Qed.

Lemma getVisible_In (s : UIManager.State) (t : UITab.t) :
  In t (UIManager.getVisible s) <->
  In t (JsMap.values (UIManager.tabs s)) /\ UITab.visible t = true.
Proof.
  unfold UIManager.getVisible, UIManager.getAll.
  rewrite filter_In. split; intros (Hin & Hv); (split; [|exact Hv]).
  - now apply (Permutation_in _ (sortByOrder_perm _)).
  - now apply (Permutation_in _ (Permutation_sym (sortByOrder_perm _))).
Qed.

(** X24. [getAll] lists every tab exactly once, by ascending [order], and
    tabs with the same [order] stay in the order they were added;
    [getVisible] is that list without the hidden tabs. *)
Theorem getAll_sorted_stable (s : UIManager.State) :
  Permutation (UIManager.getAll s) (JsMap.values (UIManager.tabs s)) /\
  StronglySorted byOrder (UIManager.getAll s) /\
  (forall o : Q,
     List.filter (fun t => Qeq_bool (UITab.order t) o) (UIManager.getAll s) =
     List.filter (fun t => Qeq_bool (UITab.order t) o)
       (JsMap.values (UIManager.tabs s))) /\
  StronglySorted byOrder (UIManager.getVisible s) /\
  (forall t, In t (UIManager.getVisible s) <->
             In t (JsMap.values (UIManager.tabs s)) /\ UITab.visible t = true).
Proof.
  unfold UIManager.getAll, UIManager.getVisible, UIManager.getAll.
  split; [apply sortByOrder_perm|]. split; [apply sortByOrder_sorted|].
  split.
  - intros o. induction (JsMap.values (UIManager.tabs s)) as [|x r IH]; [reflexivity|].
    cbn [UIManager.sortByOrder].
    rewrite insertByOrder_stable by apply sortByOrder_sorted.
    cbn [List.filter]. now rewrite IH.
  - split; [apply (getVisible_sorted s) | apply (getVisible_In s)].
Qed.

Lemma getAll_sorted_stable_witness :
  UIManager.getAll threeTabs
  = [tab "stats" false false 0; tab "shop" true false 1; tab "main" true true 2] /\
  In (tab "main" true true 2) (JsMap.values (UIManager.tabs threeTabs)) /\
  UITab.visible (tab "main" true true 2) = true /\
  In (tab "main" true true 2) (UIManager.getVisible threeTabs).
Proof.
  split; [vm_compute; reflexivity|].
  assert (Hin : In (tab "main" true true 2) (JsMap.values (UIManager.tabs threeTabs)))
    by (vm_compute; now left).
  split; [exact Hin|]. split; [reflexivity|].
  destruct (getAll_sorted_stable threeTabs) as (_ & _ & _ & _ & H).
  apply H. split; [exact Hin | reflexivity].
Defined.

Lemma In_values_key {V : Type} (m : JsMap.t V) (v : V) :
  In v (JsMap.values m) -> exists k, In (k, v) m.
Proof.
  unfold JsMap.values. intros H. apply in_map_iff in H.
  destruct H as ([k v'] & <- & Hin). now exists k.
Qed.

(** X25. Hiding the active tab.  [setTabVisible(id, false)] on the active
    tab hands the activity to the first of the remaining visible tabs in
    display order (the one of least [order]), emitting [ui:tabSwitched]
    and then [ui:updated]; when no visible tab remains there is no active
    tab any more ([getActive] returns nothing) and only [ui:updated] is
    emitted, while the hidden tab keeps the value of its [active] flag. *)
Theorem hiding_active_tab (s : UIManager.State) (id : string) (t : UITab.t) :
  uniqueKeys (UIManager.tabs s) -> tabsKeyedById s ->
  JsMap.get (UIManager.tabs s) id = Some t ->
  UIManager.activeTab s = Some id ->
  let hidden :=
    UIManager.mkState
      (JsMap.set (UIManager.tabs s) id (UITab.with_visible t false))
      (UIManager.activeTab s) (UIManager.emitted s) in
  let s' := snd (UIManager.setTabVisible id false s) in
  fst (UIManager.setTabVisible id false s) = Normal tt /\
  match UIManager.getVisible hidden with
  | next :: _ =>
      UIManager.getActiveId s' = Some (UITab.id next) /\
      UITab.id next <> id /\
      (forall v, In v (UIManager.getVisible hidden) ->
                 UITab.order next <= UITab.order v) /\
      UIManager.emitted s' =
        (UIManager.emitted s ++
         [TAB_SWITCHED (UITab.id next) (UITab.name next); UI_UPDATED id false])%list
  | [] =>
      UIManager.getActiveId s' = None /\
      UIManager.getActive s' = None /\
      option_map UITab.active (JsMap.get (UIManager.tabs s') id)
      = Some (UITab.active t) /\
      UIManager.emitted s' = (UIManager.emitted s ++ [UI_UPDATED id false])%list
  end.
Proof.
  intros Huniq Hkeyed Ht Hact hidden s'. subst s'.
  unfold UIManager.setTabVisible. rewrite Ht. fold hidden.
  replace (negb false && match UIManager.activeTab hidden with
                         | Some a => String.eqb a id
                         | None => false
                         end) with true
    by (subst hidden; simpl; now rewrite Hact, String.eqb_refl).
  destruct (UIManager.getVisible hidden) as [|next rest] eqn:Hvis.
  - simpl. split; [reflexivity|]. split; [reflexivity|]. split; [reflexivity|].
    split; [|reflexivity]. now rewrite get_set_same.
  - assert (Hsorted : StronglySorted byOrder (next :: rest)).
    { rewrite <- Hvis. apply getVisible_sorted. }
    assert (Hin : In next (JsMap.values (UIManager.tabs hidden)) /\
                  UITab.visible next = true).
    { apply getVisible_In. rewrite Hvis. now left. }
    destruct Hin as (Hin & Hnv).
    apply In_values_key in Hin. destruct Hin as (k & Hin).
    assert (Huniq' : uniqueKeys (UIManager.tabs hidden))
      by (subst hidden; simpl; now apply set_uniqueKeys).
    apply (In_get _ _ _ Huniq') in Hin.
    assert (Hk : k <> id).
    { intros ->. subst hidden. simpl in Hin. rewrite get_set_same in Hin.
      injection Hin as <-. discriminate. }
    assert (Hold : JsMap.get (UIManager.tabs s) k = Some next).
    { subst hidden. simpl in Hin. rewrite get_set_other in Hin by congruence. exact Hin. }
    assert (Hidk : UITab.id next = k) by now apply Hkeyed.
    rewrite Hidk.
    unfold UIManager.switchTab. rewrite Hin, Hnv. cbn [negb].
    cbv zeta. cbn [fst snd UIManager.getActiveId UIManager.activeTab UIManager.emitted].
    split; [reflexivity|]. split; [reflexivity|]. split; [exact Hk|]. split.
    + intros v Hv. inversion Hsorted as [|? ? _ Hall]; subst.
      destruct Hv as [<-|Hv]; [apply Qle_refl|].
      rewrite Forall_forall in Hall. now apply Hall.
    + rewrite <- app_assoc. cbn [app]. do 3 f_equal.
      subst hidden. cbn [UIManager.activeTab UIManager.tabs]. rewrite Hact.
      destruct (truthy_string id).
      * rewrite get_set_same. rewrite get_set_other by congruence.
        simpl in Hin. now rewrite Hin.
      * simpl in Hin. now rewrite Hin.
Qed.

Lemma keyed_of_entries (s : UIManager.State) :
  Forall (fun kv => UITab.id (snd kv) = fst kv) (UIManager.tabs s) ->
  tabsKeyedById s.
Proof.
  intros Hall k t Hget. apply get_In in Hget.
  rewrite Forall_forall in Hall. exact (Hall (k, t) Hget).
Qed.

Lemma hiding_active_tab_witness :
  uniqueKeys (UIManager.tabs threeTabs) /\
  tabsKeyedById threeTabs /\
  JsMap.get (UIManager.tabs threeTabs) "main" = Some (tab "main" true true 2) /\
  UIManager.activeTab threeTabs = Some "main" /\
  fst (UIManager.setTabVisible "main" false threeTabs) = Normal tt.
Proof.
  assert (Htabs : UIManager.tabs threeTabs =
                  [("main", tab "main" true true 2); ("shop", tab "shop" true false 1);
                   ("stats", tab "stats" false false 0)]) by (vm_compute; reflexivity).
  assert (Huniq : uniqueKeys (UIManager.tabs threeTabs)).
  { rewrite Htabs. unfold uniqueKeys. simpl.
    repeat constructor; simpl; intuition discriminate. }
  assert (Hkeyed : tabsKeyedById threeTabs).
  { apply keyed_of_entries. rewrite Htabs. repeat constructor. }
  assert (Hget : JsMap.get (UIManager.tabs threeTabs) "main"
                 = Some (tab "main" true true 2)) by (rewrite Htabs; reflexivity).
  assert (Hact : UIManager.activeTab threeTabs = Some "main")
    by (vm_compute; reflexivity).
  split; [exact Huniq|]. split; [exact Hkeyed|]. split; [exact Hget|].
  split; [exact Hact|].
  pose proof (hiding_active_tab threeTabs "main" (tab "main" true true 2)
                Huniq Hkeyed Hget Hact) as H.
  cbv zeta in H. exact (proj1 H).
Defined.

(** X30. [removeTab] never throws, emits nothing and removes only the tab
    named.  Removing a tab that is not the active one leaves the active
    tab alone.  Removing the active tab hands the activity to the first
    visible tab in display order, picked before the tab is deleted: when
    the removed tab is itself that first visible tab, [getActiveId] keeps
    naming the removed tab and [getActive] returns nothing. *)
Theorem removeTab_outcome (s : UIManager.State) (id : string) :
  uniqueKeys (UIManager.tabs s) ->
  let s' := snd (UIManager.removeTab id s) in
  fst (UIManager.removeTab id s) = Normal tt /\
  UIManager.getTab id s' = None /\
  (forall k, k <> id -> UIManager.getTab k s' = UIManager.getTab k s) /\
  UIManager.emitted s' = UIManager.emitted s /\
  (UIManager.activeTab s <> Some id ->
   UIManager.getActiveId s' = UIManager.getActiveId s) /\
  (UIManager.activeTab s = Some id ->
   UIManager.getActiveId s'
   = option_map UITab.id (List.head (UIManager.getVisible s)) /\
   (option_map UITab.id (List.head (UIManager.getVisible s)) = Some id ->
    UIManager.getActive s' = None)).
Proof.
  intros Huniq s'. subst s'. unfold UIManager.removeTab, UIManager.getTab,
    UIManager.getActiveId, UIManager.getActive.
  destruct (UIManager.activeTab s) as [a|] eqn:Hact.
  - destruct (String.eqb a id) eqn:E.
    + apply String.eqb_eq in E. subst a.
      change (UIManager.getVisible (UIManager.mkState (UIManager.tabs s) None
                (UIManager.emitted s))) with (UIManager.getVisible s).
      destruct (UIManager.getVisible s) as [|firstVisible rest]; cbn.
      * split; [reflexivity|]. split; [now apply get_delete_same|].
        split; [intros k Hk; apply get_delete_other; congruence|].
        split; [reflexivity|]. split; [congruence|].
        intros _. split; [reflexivity | discriminate].
      * split; [reflexivity|]. split; [now apply get_delete_same|].
        split; [intros k Hk; apply get_delete_other; congruence|].
        split; [reflexivity|]. split; [congruence|].
        intros _. split; [reflexivity|].
        intros Hid. injection Hid as ->.
        destruct (truthy_string id); [now apply get_delete_same | reflexivity].
    + apply String.eqb_neq in E. cbn. rewrite Hact.
      split; [reflexivity|]. split; [now apply get_delete_same|].
      split; [intros k Hk; apply get_delete_other; congruence|].
      split; [reflexivity|]. split; [reflexivity|].
      intros Heq. congruence.
  - cbn. rewrite Hact.
    split; [reflexivity|]. split; [now apply get_delete_same|].
    split; [intros k Hk; apply get_delete_other; congruence|].
    split; [reflexivity|]. split; [reflexivity|]. discriminate.
Qed.

Lemma removeTab_outcome_witness :
  uniqueKeys (UIManager.tabs shopOpen) /\
  UIManager.activeTab shopOpen = Some "shop" /\
  option_map UITab.id (List.head (UIManager.getVisible shopOpen)) = Some "shop" /\
  UIManager.getActiveId (snd (UIManager.removeTab "shop" shopOpen)) = Some "shop" /\
  UIManager.getActive (snd (UIManager.removeTab "shop" shopOpen)) = None.
Proof.
  assert (Huniq : uniqueKeys (UIManager.tabs shopOpen)).
  { vm_compute. repeat constructor; simpl; intuition discriminate. }
  assert (Hact : UIManager.activeTab shopOpen = Some "shop") by (vm_compute; reflexivity).
  assert (Hfirst : option_map UITab.id (List.head (UIManager.getVisible shopOpen))
                   = Some "shop") by (vm_compute; reflexivity).
  split; [exact Huniq|]. split; [exact Hact|]. split; [exact Hfirst|].
  pose proof (removeTab_outcome shopOpen "shop" Huniq) as H. cbv zeta in H.
  destruct H as (_ & _ & _ & _ & _ & H). destruct (H Hact) as (Hid & Hnone).
  split; [rewrite Hid; exact Hfirst | exact (Hnone Hfirst)].
Defined.

(** ** Event bus: delivery and subscriptions *)

Section BusFacts.
Context {D : Type}.
Variable throws : nat -> D -> bool.

Import EventBusObservers.

Lemma calls_off t h (b : @Bus D) : calls (off t h b) = calls b.
Proof. unfold off. now destruct (JsMap.get (observers b) t). Qed.

Lemma fold_invoke_calls t (d : D) : forall l (b : Bus),
  calls (List.fold_left (invoke throws t d) l b) =
  (calls b ++ List.map (fun h => (observerOf h, d)) l)%list.
Proof.
  induction l as [|h r IH]; intros b; simpl; [now rewrite app_nil_r|].
  rewrite IH. destruct h as [f|w f]; simpl.
  - now rewrite <- app_assoc.
  - destruct (throws f d); simpl; rewrite ?calls_off; simpl;
      now rewrite <- app_assoc.
Qed.

(** X26. [emit] calls every observer subscribed to the event type when it
    starts, each once, in subscription order, with the data emitted;
    an observer that throws stops nobody else from being called.  With no
    subscriber table for the type nothing happens. *)
Theorem emit_calls_every_subscriber (t : string) (d : D) (b : Bus) :
  calls (emit throws t d b) =
  (calls b ++ List.map (fun h => (observerOf h, d)) (subscribers t b))%list /\
  (JsMap.get (observers b) t = None -> emit throws t d b = b).
Proof.
  unfold emit, subscribers.
  destruct (JsMap.get (observers b) t) as [set|]; simpl.
  - split; [apply fold_invoke_calls | discriminate].
  - split; [now rewrite app_nil_r | reflexivity].
Qed.

Lemma subscribers_off t h (b : @Bus D) :
  subscribers t (off t h b) = Set_delete (subscribers t b) h.
Proof.
  unfold off, subscribers. destruct (JsMap.get (observers b) t) as [set|] eqn:E; simpl.
  - now rewrite get_set_same.
  - now rewrite E.
Qed.

Lemma subscribers_record t f (d : D) (b : Bus) :
  subscribers t (record f d b) = subscribers t b.
Proof. reflexivity. Qed.

Lemma filter_filter {A : Type} (p q : A -> bool) (l : list A) :
  List.filter p (List.filter q l) = List.filter (fun x => q x && p x) l.
Proof.
  induction l as [|x r IH]; simpl; [reflexivity|].
  destruct (q x); simpl; [destruct (p x)|]; now rewrite IH.
Qed.

(** The set left by the loop of [emit]: what was there, less the handlers
    that unsubscribed themselves. *)
Lemma fold_invoke_subscribers t (d : D) : forall l (b : Bus),
  subscribers t (List.fold_left (invoke throws t d) l b) =
  List.filter (fun h => negb (unsubscribedBy throws d l h)) (subscribers t b).
Proof.
  induction l as [|h r IH]; intros b; simpl.
  - induction (subscribers t b) as [|x s IHs]; simpl; [reflexivity | now rewrite <- IHs].
  - rewrite IH. destruct h as [f|w f]; simpl.
    + reflexivity.
    + destruct (throws f d); simpl; [reflexivity|].
      rewrite subscribers_off, subscribers_record. unfold Set_delete.
      rewrite filter_filter. apply filter_ext. intros x.
      now rewrite negb_orb.
Qed.

Lemma subscribers_subscribe t h (b : @Bus D) :
  subscribers t (subscribe t h b) = Set_add (subscribers t b) h.
Proof.
  unfold subscribe, subscribers, JsMap.has.
  destruct (JsMap.get (observers b) t) as [set|] eqn:E; simpl.
  - now rewrite get_set_same, E.
  - now rewrite !get_set_same.
Qed.

Lemma Set_add_fresh (set : list Handler) h :
  List.existsb (same h) set = false -> Set_add set h = (set ++ [h])%list.
Proof. unfold Set_add. now intros ->. Qed.

(** X27. [once] subscribes a wrapper that takes itself off the bus after
    the first call of its observer that returns normally.  After the next
    [emit] of the event type, the wrapper is still subscribed exactly if
    the observer threw: a throwing one-shot observer stays subscribed and
    is called again. *)
Theorem once_unsubscribes_unless_throwing
  (t : string) (f : nat) (d : D) (b : Bus) :
  wrappersBelow (nextWrapper b) t b ->
  let wrapper := Wrapper (nextWrapper b) f in
  let b1 := once t f b in
  In wrapper (subscribers t b1) /\
  (In wrapper (subscribers t (emit throws t d b1)) <-> throws f d = true).
Proof.
  intros Hfresh wrapper b1.
  assert (Hnew : List.existsb (same wrapper) (subscribers t b) = false).
  { apply not_true_is_false. intros H. apply existsb_exists in H.
    destruct H as (h & Hin & Hsame). destruct h as [g|w' g]; simpl in Hsame;
      [discriminate|].
    apply Nat.eqb_eq in Hsame. subst w'. specialize (Hfresh _ _ Hin). lia. }
  assert (Hsubs : subscribers t b1 = (subscribers t b ++ [wrapper])%list).
  { subst b1. unfold once. rewrite subscribers_subscribe.
    now apply Set_add_fresh. }
  split; [rewrite Hsubs; apply in_or_app; right; now left|].
  assert (Hget : JsMap.get (observers b1) t = Some (subscribers t b1)).
  { subst b1. unfold once, subscribe, subscribers. simpl.
    now rewrite !get_set_same. }
  unfold emit. rewrite Hget, fold_invoke_subscribers, filter_In, Hsubs.
  split.
  - intros (_ & Hkept). apply negb_true_iff in Hkept.
    destruct (throws f d) eqn:Hth; [reflexivity|].
    exfalso. apply not_true_iff_false in Hkept. apply Hkept.
    apply existsb_exists. exists wrapper. split; [apply in_or_app; right; now left|].
    subst wrapper. simpl. now rewrite Hth, Nat.eqb_refl.
  - intros Hth. split; [apply in_or_app; right; now left|].
    apply negb_true_iff. apply not_true_is_false. intros H.
    apply existsb_exists in H. destruct H as (h & Hin & Hh).
    destruct h as [g|w' g]; [discriminate|].
    apply andb_true_iff in Hh. destruct Hh as (Hg & Hsame).
    subst wrapper. simpl in Hsame. apply Nat.eqb_eq in Hsame. subst w'.
    apply in_app_or in Hin. destruct Hin as [Hin|[Hin|[]]].
    + specialize (Hfresh _ _ Hin). lia.
    + injection Hin as <-. rewrite Hth in Hg. discriminate.
Qed.

Lemma set_set {V : Type} (m : JsMap.t V) k (v1 v2 : V) :
  JsMap.set (JsMap.set m k v1) k v2 = JsMap.set m k v2.
Proof.
  induction m as [|[k0 v0] r IH]; simpl.
  - now rewrite String.eqb_refl.
  - destruct (String.eqb k k0) eqn:E; simpl.
    + now rewrite String.eqb_refl.
    + now rewrite E, IH.
Qed.

Lemma getObserverCount_length t (b : @Bus D) :
  getObserverCount t b = List.length (subscribers t b).
Proof.
  unfold getObserverCount, subscribers.
  now destruct (JsMap.get (observers b) t).
Qed.

Lemma same_refl h : same h h = true.
Proof. destruct h; simpl; apply Nat.eqb_refl. Qed.

Lemma Set_add_idem (set : list Handler) h : Set_add (Set_add set h) h = Set_add set h.
Proof.
  unfold Set_add. destruct (List.existsb (same h) set) eqn:E; [now rewrite E|].
  rewrite existsb_app. simpl. now rewrite same_refl, orb_true_r.
Qed.

(** X28. Subscribing is idempotent and [off] undoes it: [on] with an
    observer that is already subscribed changes nothing, so the observer
    is still called once per [emit]; the observer count grows by one
    exactly when the observer was not yet subscribed; and after [off] the
    observer is no longer among the subscribers, the others keeping their
    order. *)
Theorem on_idempotent_off_removes (t : string) (f : nat) (b : @Bus D) :
  on t f (on t f b) = on t f b /\
  getObserverCount t (on t f b)
  = (getObserverCount t b
     + if List.existsb (same (Plain f)) (subscribers t b) then 0 else 1)%nat /\
  In (Plain f) (subscribers t (on t f b)) /\
  ~ In (Plain f) (subscribers t (off t (Plain f) (on t f b))) /\
  subscribers t (off t (Plain f) b)
  = List.filter (fun h => negb (same (Plain f) h)) (subscribers t b).
Proof.
  split; [|split; [|split; [|split]]].
  - unfold on, subscribe.
    set (obs := if JsMap.has (observers b) t then observers b
                else JsMap.set (observers b) t []).
    cbn [observers nextWrapper calls].
    assert (Hhas : JsMap.has (JsMap.set obs t
                     (Set_add (nullish (JsMap.get obs t) []) (Plain f))) t = true).
    { unfold JsMap.has. now rewrite get_set_same. }
    rewrite Hhas, get_set_same. cbn [nullish].
    now rewrite set_set, Set_add_idem.
  - unfold on. rewrite !getObserverCount_length.
    rewrite subscribers_subscribe. unfold Set_add.
    destruct (List.existsb (same (Plain f)) (subscribers t b)); [lia|].
    rewrite length_app. simpl. lia.
  - unfold on. rewrite subscribers_subscribe. unfold Set_add.
    destruct (List.existsb (same (Plain f)) (subscribers t b)) eqn:E.
    + apply existsb_exists in E. destruct E as (h & Hin & Hsame).
      destruct h as [g|w g]; [|discriminate].
      simpl in Hsame. apply Nat.eqb_eq in Hsame. now subst.
    + apply in_or_app. right. now left.
  - rewrite subscribers_off. unfold Set_delete. rewrite filter_In.
    intros (_ & H). now rewrite same_refl in H.
  - apply subscribers_off.
Qed.

End BusFacts.

Lemma emit_calls_every_subscriber_witness :
  EventBusObservers.calls (EventBusObservers.emit grumpy "tick" "x" busyBus)
  = [(1%nat, "x"); (3%nat, "x"); (7%nat, "x")] /\
  JsMap.get (EventBusObservers.observers busyBus) "click" = None /\
  EventBusObservers.emit grumpy "click" "x" busyBus = busyBus.
Proof.
  destruct (emit_calls_every_subscriber grumpy "tick" "x" busyBus) as (H1 & _).
  split; [rewrite H1; vm_compute; reflexivity|].
  assert (Hnone : JsMap.get (EventBusObservers.observers busyBus) "click" = None)
    by (vm_compute; reflexivity).
  split; [exact Hnone|].
  exact (proj2 (emit_calls_every_subscriber grumpy "click" "x" busyBus) Hnone).
Defined.

Lemma once_unsubscribes_unless_throwing_witness :
  let b := EventBusObservers.on "tick" 1 EventBusObservers.new in
  wrappersBelow (EventBusObservers.nextWrapper b) "tick" b /\
  grumpy 7 "x" = true /\
  In (EventBusObservers.Wrapper (EventBusObservers.nextWrapper b) 7)
    (EventBusObservers.subscribers "tick"
       (EventBusObservers.emit grumpy "tick" "x" (EventBusObservers.once "tick" 7 b))).
Proof.
  intros b.
  assert (Hfresh : wrappersBelow (EventBusObservers.nextWrapper b) "tick" b).
  { intros w f Hin. vm_compute in Hin. destruct Hin as [Hin|[]]. discriminate. }
  assert (Hth : grumpy 7 "x" = true) by reflexivity.
  split; [exact Hfresh|]. split; [exact Hth|].
  pose proof (once_unsubscribes_unless_throwing grumpy "tick" 7 "x" b Hfresh) as H.
  cbv zeta in H. destruct H as (_ & H). exact (proj2 H Hth).
Defined.

Lemma on_idempotent_off_removes_witness :
  EventBusObservers.on "tick" 1 (EventBusObservers.on "tick" 1 busyBus)
  = EventBusObservers.on "tick" 1 busyBus /\
  ~ In (EventBusObservers.Plain 1)
      (EventBusObservers.subscribers "tick"
         (EventBusObservers.off "tick" (EventBusObservers.Plain 1)
            (EventBusObservers.on "tick" 1 busyBus))).
Proof.
  destruct (on_idempotent_off_removes "tick" 1 busyBus) as (H1 & _ & _ & H4 & _).
  split; [exact H1 | exact H4].
Defined.

(** X29. [clear(eventType)] drops the observers of that type only, and
    [clear()] drops all of them; [clear("")] does the same as [clear()],
    the empty type name being falsy.  After a type is cleared, [emit] of
    that type calls nobody. *)
Theorem clear_scope {D : Type} (throws : nat -> D -> bool)
    (b : @EventBusObservers.Bus D) (t other : string) (d : D) :
  (forall t', EventBusObservers.subscribers t' (EventBusObservers.clear None b) = []) /\
  EventBusObservers.clear (Some "") b = EventBusObservers.clear None b /\
  (t <> "" -> other <> t ->
   EventBusObservers.subscribers other (EventBusObservers.clear (Some t) b)
   = EventBusObservers.subscribers other b) /\
  (t <> "" -> uniqueKeys (EventBusObservers.observers b) ->
   EventBusObservers.subscribers t (EventBusObservers.clear (Some t) b) = [] /\
   EventBusObservers.calls
     (EventBusObservers.emit throws t d (EventBusObservers.clear (Some t) b))
   = EventBusObservers.calls b).
Proof.
  split; [reflexivity|]. split; [reflexivity|]. split.
  - intros Ht Hother. apply truthy_string_iff in Ht.
    unfold EventBusObservers.clear, EventBusObservers.subscribers. rewrite Ht. simpl.
    rewrite get_delete_other by congruence. reflexivity.
  - intros Ht Huniq. apply truthy_string_iff in Ht.
    unfold EventBusObservers.clear, EventBusObservers.subscribers,
      EventBusObservers.emit.
    rewrite Ht. simpl. rewrite get_delete_same by exact Huniq. now split.
Qed.

Lemma clear_scope_witness :
  uniqueKeys (EventBusObservers.observers busyBus) /\
  EventBusObservers.subscribers "tick" (EventBusObservers.clear (Some "tick") busyBus)
  = [] /\
  EventBusObservers.calls
    (EventBusObservers.emit grumpy "tick" "x"
       (EventBusObservers.clear (Some "tick") busyBus))
  = EventBusObservers.calls busyBus.
Proof.
  assert (Huniq : uniqueKeys (EventBusObservers.observers busyBus)).
  { vm_compute. repeat constructor. simpl. tauto. }
  split; [exact Huniq|].
  destruct (clear_scope grumpy busyBus "tick" "other" "x") as (_ & _ & _ & H).
  apply H; [discriminate | exact Huniq].
Defined.
